(** * netx: the DNS wire codec of [dns.go] and [dnsunmarshal.go]

    A shallow embedding of the encoder ([ToByte] methods, [dns.go]) and of
    the decoder ([NewDNS...] constructors, [dnsunmarshal.go]), followed by
    the properties of the codec stated in the specification.

    Conventions.
    - Go's [uint8], [uint16] and [uint32] are [Z]; every operation that can
      leave the type's range is written with its wrap-around.
    - A Go [string] is a sequence of bytes: [string] of the standard
      library, whose characters are 8-bit.  A [[]byte] is [list byte].
    - A call either returns a value, returns [(nil, err)], or panics with a
      run-time error: the first three cases of [outcome]. *)

From Stdlib Require Import ZArith List String Ascii Bool Arith Lia.
From Stdlib Require Import Strings.Byte.
Import ListNotations.
Open Scope Z_scope.

(** ** Bytes and fixed-width integers *)

Definition uint8 (v : Z) : Prop := 0 <= v < 256.
Definition uint16 (v : Z) : Prop := 0 <= v < 65536.
Definition uint32 (v : Z) : Prop := 0 <= v < 4294967296.

(** [uint16(b)] for a byte [b]. *)
Definition byte_to_Z (b : byte) : Z := Z.of_N (Byte.to_N b).

(** The conversion [byte(v)]: the low eight bits of [v]. *)
Definition byte_of_Z (v : Z) : byte :=
  match Byte.of_N (Z.to_N (v mod 256)) with
  | Some b => b
  | None => x00
  end.

(** Shifts and sums of [uint16] operands, as the Go compiler evaluates
    them: the result is truncated to sixteen bits. *)
Definition shl16 (v : Z) (n : Z) : Z := Z.shiftl v n mod 65536.
Definition shr16 (v : Z) (n : Z) : Z := Z.shiftr v n.
Definition add16 (v w : Z) : Z := (v + w) mod 65536.

(** ** Results of a call *)

Inductive error : Type :=
| io_EOF
| io_ErrUnexpectedEOF
| errUnreadByte
| ErrClassNotSupport
| WithMessage (err : error) (message : string).

(** [errors.Cause]: the error below every [WithMessage] wrapper. *)
Fixpoint Cause (e : error) : error :=
  match e with
  | WithMessage err _ => Cause err
  | _ => e
  end.

Inductive runtime_error : Type :=
| index_out_of_range.

(** Every error return of the two files has the shape [return nil, err], so
    [Err] carries no value.  [OutOfFuel] is the answer of a loop whose
    iteration bound was too small; [NewDNSQuestion_total] shows that the
    decoder never gives it. *)
Inductive outcome (A : Type) : Type :=
| Ok (a : A)
| Err (e : error)
| Panic (p : runtime_error)
| OutOfFuel.

Arguments Ok {A} a.
Arguments Err {A} e.
Arguments Panic {A} p.
Arguments OutOfFuel {A}.

(** ** Package [strings] *)

Module strings.

(** [strings.Split(s, sep)] for a one-byte separator: the substrings of
    [s] between the occurrences of [sep].  The result is never empty;
    [Split("", sep)] is a list holding one empty string. *)
Fixpoint Split (s : string) (sep : ascii) : list string :=
  match s with
  | EmptyString => [EmptyString]
  | String c s' =>
      if Ascii.eqb c sep then EmptyString :: Split s' sep
      else match Split s' sep with
           | seg :: segs => String c seg :: segs
           | [] => [String c EmptyString]
           end
  end.

(** [strings.Join(elems, sep)]. *)
Definition Join (elems : list string) (sep : string) : string :=
  String.concat sep elems.

End strings.

(** ** Package [bytes]: the read side of [bytes.Buffer] *)

Module bytes.

Inductive readOp : Type := opInvalid | opRead.

(** The contents are [buf[off:]]; [lastRead] records whether the last
    operation was a read, so that [UnreadByte] can undo it. *)
Record Buffer : Type := mkBuffer {
  buf : list byte;
  off : nat;
  lastRead : readOp
}.

Definition NewBuffer (buf : list byte) : Buffer := mkBuffer buf 0 opInvalid.

(** The unread portion [b.buf[b.off:]]. *)
Definition unread (b : Buffer) : list byte := skipn (off b) (buf b).

Definition Len (b : Buffer) : nat := List.length (unread b).

(** [b.Next(n)]: the next [n] bytes, or all of them when fewer are left. *)
Definition Next (n : nat) (b : Buffer) : list byte * Buffer :=
  let data := firstn n (unread b) in
  (data,
   mkBuffer (buf b) (off b + List.length data)
            (match data with [] => opInvalid | _ :: _ => opRead end)).

(** [b.UnreadByte()]. *)
Definition UnreadByte (b : Buffer) : option error * Buffer :=
  match lastRead b with
  | opInvalid => (Some errUnreadByte, b)
  | opRead => (None, mkBuffer (buf b) (Nat.pred (off b)) opInvalid)
  end.

(** [io.ReadFull(b, p)] with [len(p) = n]: exactly [n] bytes, [io.EOF]
    when none is left and [io.ErrUnexpectedEOF] when some but fewer than
    [n] are. *)
Definition ReadFull (n : nat) (b : Buffer) : outcome (list byte * Buffer) :=
  match n with
  | O => Ok ([], b)
  | S _ =>
      let data := firstn n (unread b) in
      if Nat.eqb (List.length data) n
      then Ok (data, mkBuffer (buf b) (off b + n) opRead)
      else match data with
           | [] => Err io_EOF
           | _ :: _ => Err io_ErrUnexpectedEOF
           end
  end.

End bytes.

(** ** The decoder's monad: a [bytes.Buffer] threaded through the reads *)

Definition M (A : Type) : Type := bytes.Buffer -> outcome (A * bytes.Buffer).

Definition ret {A : Type} (a : A) : M A := fun b => Ok (a, b).

Definition bind {A B : Type} (m : M A) (k : A -> M B) : M B :=
  fun b =>
    match m b with
    | Ok (a, b') => k a b'
    | Err e => Err e
    | Panic p => Panic p
    | OutOfFuel => OutOfFuel
    end.

Declare Scope dns_scope.
Delimit Scope dns_scope with dns.
Notation "x <- m ;; k" := (bind m (fun x => k))
  (at level 61, m at next level, right associativity) : dns_scope.
Open Scope dns_scope.

Definition panic {A : Type} (p : runtime_error) : M A := fun _ => Panic p.

(** [buffer.Next(n)] in the monad. *)
Definition Next (n : nat) : M (list byte) := fun b => Ok (bytes.Next n b).

(** [s[0]]: a run-time panic on an empty slice. *)
Definition index0 (s : list byte) : M byte :=
  match s with
  | x :: _ => ret x
  | [] => panic index_out_of_range
  end.

(** ** Package [encoding/binary] *)

Module binary.

(** [binary.BigEndian.Uint16(b)]; [None] is the panic of the bounds
    check [_ = b[1]]. *)
Definition BigEndian_Uint16 (b : list byte) : option Z :=
  match b with
  | b0 :: b1 :: _ => Some (Z.lor (byte_to_Z b1) (Z.shiftl (byte_to_Z b0) 8))
  | _ => None
  end.

(** [binary.BigEndian.Uint32(b)]; [None] is the panic of [_ = b[3]]. *)
Definition BigEndian_Uint32 (b : list byte) : option Z :=
  match b with
  | b0 :: b1 :: b2 :: b3 :: _ =>
      Some (Z.lor (Z.lor (Z.lor (byte_to_Z b3) (Z.shiftl (byte_to_Z b2) 8))
                         (Z.shiftl (byte_to_Z b1) 16))
                  (Z.shiftl (byte_to_Z b0) 24))
  | _ => None
  end.

(** [binary.Read(buffer, binary.BigEndian, &v)] for [v uint8]. *)
Definition Read_uint8 : M Z :=
  fun b =>
    match bytes.ReadFull 1 b with
    | Ok (bs, b') =>
        match bs with
        | x :: _ => Ok (byte_to_Z x, b')
        | [] => Panic index_out_of_range
        end
    | Err e => Err e
    | Panic p => Panic p
    | OutOfFuel => OutOfFuel
    end.

(** [binary.Read(buffer, binary.BigEndian, &seg)] for [seg []byte] of
    length [n]. *)
Definition Read_bytes (n : nat) : M (list byte) := bytes.ReadFull n.

(** [binary.Write(&buffer, binary.BigEndian, v)] appends the big-endian
    bytes of [v] to the write buffer.  [bytes.Buffer.Write] always
    returns a nil error and every value written here has a fixed size,
    so the call cannot fail: the [err != nil] branches after each write
    are dead, and the model keeps the write alone. *)
Definition Write_uint8 (buffer : list byte) (v : Z) : list byte :=
  buffer ++ [byte_of_Z v].

Definition Write_uint16 (buffer : list byte) (v : Z) : list byte :=
  buffer ++ [byte_of_Z (Z.shiftr v 8); byte_of_Z v].

Definition Write_uint32 (buffer : list byte) (v : Z) : list byte :=
  buffer ++ [byte_of_Z (Z.shiftr v 24); byte_of_Z (Z.shiftr v 16);
             byte_of_Z (Z.shiftr v 8); byte_of_Z v].

Definition Write_bytes (buffer : list byte) (data : list byte) : list byte :=
  buffer ++ data.

End binary.

(** [binary.BigEndian.Uint16(buffer.Next(2))] and its 32-bit sibling. *)
Definition Uint16_Next : M Z :=
  bs <- Next 2 ;;
  match binary.BigEndian_Uint16 bs with
  | Some v => ret v
  | None => panic index_out_of_range
  end.

Definition Uint32_Next : M Z :=
  bs <- Next 4 ;;
  match binary.BigEndian_Uint32 bs with
  | Some v => ret v
  | None => panic index_out_of_range
  end.

(** ** Package [net]: IP addresses

    [net] belongs to the Go standard library, not to this repository.  The
    codec uses four of its functions; they are rendered here from the
    library's documented behaviour.  The textual IPv6 forms are left to a
    parameter [parseIPv6] of [ParseIP], so that every statement below
    holds whatever the library does with them. *)

Module net.

Definition IP : Type := list byte.

Definition v4InV6Prefix : list byte :=
  [x00; x00; x00; x00; x00; x00; x00; x00; x00; x00; xff; xff].

(** [net.IPv4(a, b, c, d)]: the 16-byte form of the IPv4 address. *)
Definition IPv4 (a b c d : byte) : IP := v4InV6Prefix ++ [a; b; c; d].

Definition bytes_eqb (x y : list byte) : bool :=
  if list_eq_dec Byte.byte_eq_dec x y then true else false.

(** [ip.To4()]: the 4-byte form of an IPv4 address, [nil] for anything
    else. *)
Definition To4 (ip : IP) : IP :=
  if Nat.eqb (List.length ip) 4 then ip
  else if Nat.eqb (List.length ip) 16 && bytes_eqb (firstn 12 ip) v4InV6Prefix
       then skipn 12 ip
       else [].

(** [ubtoa]: the decimal digits of a byte, without leading zeros. *)
Definition digit (v : Z) : ascii := ascii_of_byte (byte_of_Z (v + 48)).

Definition ubtoa (b : byte) : string :=
  let v := byte_to_Z b in
  if v <? 10 then String (digit v) EmptyString
  else if v <? 100 then
    String (digit (v / 10)) (String (digit (v mod 10)) EmptyString)
  else
    String (digit (v / 100))
      (String (digit ((v / 10) mod 10))
         (String (digit (v mod 10)) EmptyString)).

(** [ip.String()] on an address with a 4-byte form: dotted decimal.  The
    decoder prints only values built by [IPv4]; the hexadecimal notation
    of the other addresses is not rendered. *)
Definition IP_String (ip : IP) : string :=
  match To4 ip with
  | [a; b; c; d] =>
      (ubtoa a ++ "." ++ ubtoa b ++ "." ++ ubtoa c ++ "." ++ ubtoa d)%string
  | _ => EmptyString
  end.

Definition char (c : ascii) : Z := Z.of_N (N_of_ascii c).

(** The dotted-decimal parser: decimal fields of value at most 255
    without a leading zero, separated by single dots, exactly four of
    them.  [val] and [digLen] describe the field being read, [fields]
    holds the fields already closed by a dot. *)
Fixpoint parseIPv4Fields (s : string) (val : Z) (digLen : nat)
         (fields : list byte) : option (list byte) :=
  match s with
  | EmptyString =>
      if Nat.eqb digLen 0 then None
      else if Nat.eqb (List.length fields) 3
           then Some (fields ++ [byte_of_Z val])
           else None
  | String c s' =>
      if (48 <=? char c) && (char c <=? 57) then
        if Nat.eqb digLen 1 && (val =? 0) then None
        else
          let val' := val * 10 + (char c - 48) in
          if 255 <? val' then None
          else parseIPv4Fields s' val' (S digLen) fields
      else if char c =? 46 then
        if Nat.eqb digLen 0 then None
        else if Nat.eqb (List.length fields) 3 then None
             else parseIPv4Fields s' 0 0%nat (fields ++ [byte_of_Z val])
      else None
  end.

Definition parseIPv4 (s : string) : IP :=
  match parseIPv4Fields s 0 0%nat [] with
  | Some [a; b; c; d] => IPv4 a b c d
  | _ => []
  end.

(** The scan that chooses the parser: the first of ['.'], [':'] and
    ['%'] met in [s] decides. *)
Fixpoint parseAddr (parseIPv6 : string -> IP) (s whole : string) : IP :=
  match s with
  | EmptyString => []
  | String c s' =>
      if char c =? 46 then parseIPv4 whole
      else if char c =? 58 then parseIPv6 whole
      else if char c =? 37 then []
      else parseAddr parseIPv6 s' whole
  end.

(** [net.ParseIP(s)]: a 16-byte address, or [nil] when [s] is not the
    text of an IP address. *)
Definition ParseIP (parseIPv6 : string -> IP) (s : string) : IP :=
  parseAddr parseIPv6 s s.

End net.

(** ** Package [net/netip]: the text of an IPv6 address

    [net.ParseIP] hands a text whose first separator is a colon to
    [netip]'s [parseIPv6] and refuses an address that has a zone.  The
    parser below is the one to give [net.ParseIP] for its parameter when
    an example carries such a text. *)

Module netip.

(** The value of a hexadecimal digit. *)
Definition hexval (c : ascii) : option Z :=
  let v := net.char c in
  if (48 <=? v) && (v <=? 57) then Some (v - 48)
  else if (97 <=? v) && (v <=? 102) then Some (v - 97 + 10)
  else if (65 <=? v) && (v <=? 70) then Some (v - 65 + 10)
  else None.

(** The inner loop: the hexadecimal digits at the head of [s].  [off]
    counts the digits read and [acc] holds their value; a fifth digit and
    a value above 0xFFFF fail.  The result is the count, the value and
    the text from the first other character on. *)
Fixpoint hexGroup (s : string) (off : nat) (acc : Z)
  : option (nat * Z * string) :=
  match s with
  | EmptyString => Some (off, acc, s)
  | String c s' =>
      match hexval c with
      | Some v =>
          let acc := Z.shiftl acc 4 + v in
          if Nat.ltb 3 off then None
          else if 65535 <? acc then None
          else hexGroup s' (S off) acc
      | None => Some (off, acc, s)
      end
  end.

(** The loop [for i < 16]: [ip] holds the [i] bytes written so far, and
    [n] counts the pairs of bytes that are left, [i = 16 - 2 * n].  The
    result is the state after the loop: the text left, the bytes written
    and the position of the ellipsis. *)
Fixpoint parseGroups (n : nat) (s : string) (ip : list byte)
         (ellipsis : option nat)
  : option (string * list byte * option nat) :=
  match n with
  | O => Some (s, ip, ellipsis)
  | S n' =>
      match hexGroup s 0 0 with
      | None => None
      | Some (off, acc, rest) =>
          if Nat.eqb off 0 then None
          else
            match rest with
            | String "." _ =>
                let i := List.length ip in
                if (match ellipsis with None => true | Some _ => false end)
                   && negb (Nat.eqb i 12)
                then None
                else if Nat.ltb 16 (i + 4) then None
                else
                  match net.parseIPv4Fields s 0 0%nat [] with
                  | Some [a; b; c; d] =>
                      Some (EmptyString, ip ++ [a; b; c; d], ellipsis)
                  | _ => None
                  end
            | EmptyString =>
                Some (EmptyString,
                      ip ++ [byte_of_Z (Z.shiftr acc 8); byte_of_Z acc],
                      ellipsis)
            | String c rest1 =>
                let ip := ip ++ [byte_of_Z (Z.shiftr acc 8); byte_of_Z acc] in
                if negb (net.char c =? 58) then None
                else
                  match rest1 with
                  | EmptyString => None
                  | String c' rest2 =>
                      if net.char c' =? 58 then
                        match ellipsis with
                        | Some _ => None
                        | None =>
                            match rest2 with
                            | EmptyString =>
                                Some (EmptyString, ip, Some (List.length ip))
                            | _ =>
                                parseGroups n' rest2 ip
                                            (Some (List.length ip))
                            end
                        end
                      else parseGroups n' rest1 ip ellipsis
                  end
            end
      end
  end.

Fixpoint hasZone (s : string) : bool :=
  match s with
  | EmptyString => false
  | String c s' => (net.char c =? 37) || hasZone s'
  end.

(** [parseIPv6(in)] as [net.ParseIP] uses it: the sixteen bytes of the
    address, or [nil] when [in] is not the text of an IPv6 address or
    names a zone. *)
Definition parseIPv6 (s : string) : net.IP :=
  if hasZone s then []
  else
    let leading :=
      match s with
      | String ":" (String ":" s') => Some s'
      | _ => None
      end in
    match leading with
    | Some EmptyString => repeat x00 16
    | _ =>
        let s := match leading with Some s' => s' | None => s end in
        let ellipsis :=
          match leading with Some _ => Some 0%nat | None => None end in
        match parseGroups 8 s [] ellipsis with
        | None => []
        | Some (String _ _, _, _) => []
        | Some (EmptyString, ip, ellipsis) =>
            let i := List.length ip in
            if Nat.ltb i 16 then
              match ellipsis with
              | None => []
              | Some e => firstn e ip ++ repeat x00 (16 - i) ++ skipn e ip
              end
            else
              match ellipsis with
              | Some _ => []
              | None => ip
              end
        end
    end.

End netip.

(** ** The data model of [dns.go]

    The structures are reached through pointers in the source; the model
    takes them as values, that is, assumes the pointers are not nil. *)

Definition DNSTypeA : Z := 1.
Definition DNSTypeNS : Z := 2.
Definition DNSTypeCName : Z := 5.
Definition DNSTypeAAAA : Z := 28.

Definition DNSClassIn : Z := 1.

(** A call that returns [(value, error)] with no buffer to thread. *)
Definition withMessage {A : Type} (o : outcome A) (message : string)
  : outcome A :=
  match o with
  | Err e => Err (WithMessage e message)
  | _ => o
  end.

Module DNSFlags.

Record t : Type := mk {
  QR : Z;
  OpCode : Z;
  AA : Z;
  TC : Z;
  RD : Z;
  RA : Z;
  Z_ : Z;     (* the field [Z] of the source, the three reserved bits *)
  RCode : Z
}.

(** [f.ToBit()].  [<<] binds tighter than [+]; the field [Z] takes no
    part in the sum. *)
Definition ToBit (f : t) : Z :=
  add16 (add16 (add16 (add16 (add16 (add16
    (shl16 (QR f) 15) (shl16 (OpCode f) 11)) (shl16 (AA f) 10))
    (shl16 (TC f) 9)) (shl16 (RD f) 8)) (shl16 (RA f) 7)) (RCode f).

(** The [Flags] literal of [NewDNSHeader] (dnsunmarshal.go, 113-122):
    the eight fields extracted from the flag word. *)
Definition unpack (flag : Z) : t :=
  {| QR := shr16 flag 15;
     OpCode := shr16 flag 11 mod Z.shiftl 1 4;
     AA := shr16 flag 10 mod Z.shiftl 1 1;
     TC := shr16 flag 9 mod Z.shiftl 1 1;
     RD := shr16 flag 8 mod Z.shiftl 1 1;
     RA := shr16 flag 7 mod Z.shiftl 1 1;
     Z_ := shr16 flag 4 mod Z.shiftl 1 3;
     RCode := flag mod Z.shiftl 1 4 |}.

(** The value of a [&DNSFlags{...}] literal that names no field. *)
Definition zero : t := mk 0 0 0 0 0 0 0 0.

End DNSFlags.

Module DNSHeader.

Record t : Type := mk {
  TxID : Z;
  Flags : DNSFlags.t;
  Questions : Z;
  AnswerRRs : Z;
  AuthorityRRs : Z;
  AdditionalRRs : Z
}.

(** [h.ToByte()]: six big-endian 16-bit words. *)
Definition ToByte (h : t) : outcome (list byte) :=
  Ok (fold_left binary.Write_uint16
        [TxID h; DNSFlags.ToBit (Flags h); Questions h; AnswerRRs h;
         AuthorityRRs h; AdditionalRRs h]
        []).

End DNSHeader.

(** The label-writing loop, which the source has twice, word for word: in
    [DNSQuestion.ToByte] (dns.go, 154-164) and in [DNSResourceRecode.ToByte]
    (dns.go, 200-211).  Every segment of [strings.Split(name, ".")] is
    written as [byte(len(seg))] followed by its bytes, then [0x00]. *)
Definition writeName (buffer : list byte) (name : string) : list byte :=
  let buffer :=
    fold_left
      (fun buffer seg =>
         let buffer :=
           binary.Write_uint8 buffer (Z.of_nat (String.length seg)) in
         binary.Write_bytes buffer (list_byte_of_string seg))
      (strings.Split name "."%char)
      buffer in
  binary.Write_uint8 buffer 0.

Module DNSQuestion.

Record t : Type := mk {
  QuestionName : string;
  QuestionType : Z;
  QuestionClass : Z
}.

(** [q.ToByte()]. *)
Definition ToByte (q : t) : outcome (list byte) :=
  let buffer := writeName [] (QuestionName q) in
  let buffer := binary.Write_uint16 buffer (QuestionType q) in
  let buffer := binary.Write_uint16 buffer (QuestionClass q) in
  Ok buffer.

End DNSQuestion.

Module DNSResourceRecode.

Record t : Type := mk {
  Name : string;
  NamePos : Z;
  RRType : Z;
  Class : Z;
  TTL : Z;
  RDLength : Z;
  RData : string
}.

(** What [r.ToByte()] has written when it reaches the [switch]: the
    pointer or the name, then type, class, TTL and RDLength. *)
Definition writeFixed (r : t) : list byte :=
  let buffer := [] in
  let buffer :=
    if 0 <? NamePos r
    then binary.Write_uint16 buffer
           (Z.lor (Z.lor (Z.shiftl 1 15) (Z.shiftl 1 14)) (NamePos r))
    else buffer in
  let buffer :=
    if NamePos r <=? 0 then writeName buffer (Name r) else buffer in
  let buffer := binary.Write_uint16 buffer (RRType r) in
  let buffer := binary.Write_uint16 buffer (Class r) in
  let buffer := binary.Write_uint32 buffer (TTL r) in
  binary.Write_uint16 buffer (RDLength r).

(** [r.ToByte()]. *)
Definition ToByte (parseIPv6 : string -> net.IP) (r : t)
  : outcome (list byte) :=
  let buffer := writeFixed r in
  if Class r =? DNSClassIn
  then Ok (binary.Write_bytes buffer
             (net.To4 (net.ParseIP parseIPv6 (RData r))))
  else Err ErrClassNotSupport.

End DNSResourceRecode.

Module DNSMessage.

Record t : Type := mk {
  Header : DNSHeader.t;
  Questions : list DNSQuestion.t;
  ResourceRecodes : list DNSResourceRecode.t
}.

(** The first loop of [d.ToByte()]: [n] more questions from index [i];
    [d.Questions[i]] panics when [i] is out of range. *)
Fixpoint writeQuestions (n i : nat) (questions : list DNSQuestion.t)
         (buffer : list byte) : outcome (list byte) :=
  match n with
  | O => Ok buffer
  | S n' =>
      match nth_error questions i with
      | None => Panic index_out_of_range
      | Some q =>
          match withMessage (DNSQuestion.ToByte q) "write question error" with
          | Ok question =>
              writeQuestions n' (S i) questions (buffer ++ question)
          | Err e => Err e
          | Panic p => Panic p
          | OutOfFuel => OutOfFuel
          end
      end
  end.

(** The second loop: every resource record in turn. *)
Fixpoint writeRecodes (parseIPv6 : string -> net.IP)
         (recodes : list DNSResourceRecode.t) (buffer : list byte)
  : outcome (list byte) :=
  match recodes with
  | [] => Ok buffer
  | recode :: recodes' =>
      match withMessage (DNSResourceRecode.ToByte parseIPv6 recode)
                        "write resource error" with
      | Ok toByte => writeRecodes parseIPv6 recodes' (buffer ++ toByte)
      | Err e => Err e
      | Panic p => Panic p
      | OutOfFuel => OutOfFuel
      end
  end.

(** [d.ToByte()]. *)
Definition ToByte (parseIPv6 : string -> net.IP) (d : t)
  : outcome (list byte) :=
  match withMessage (DNSHeader.ToByte (Header d)) "get header error" with
  | Ok header =>
      match writeQuestions (Z.to_nat (DNSHeader.Questions (Header d))) 0
                           (Questions d) ([] ++ header) with
      | Ok buffer => writeRecodes parseIPv6 (ResourceRecodes d) buffer
      | other => other
      end
  | other => other
  end.

End DNSMessage.

(** The query that [LookUp] builds for [host] (dns.go, 21-36). *)
Definition LookUp_msg (host : string) : DNSMessage.t :=
  {| DNSMessage.Header :=
       {| DNSHeader.TxID := 1;
          DNSHeader.Flags :=
            {| DNSFlags.QR := 0; DNSFlags.OpCode := 0; DNSFlags.AA := 0;
               DNSFlags.TC := 0; DNSFlags.RD := 1; DNSFlags.RA := 0;
               DNSFlags.Z_ := 0; DNSFlags.RCode := 0 |};
          DNSHeader.Questions := 1;
          DNSHeader.AnswerRRs := 0;
          DNSHeader.AuthorityRRs := 0;
          DNSHeader.AdditionalRRs := 0 |};
     DNSMessage.Questions :=
       [ {| DNSQuestion.QuestionName := host;
            DNSQuestion.QuestionType := DNSTypeA;
            DNSQuestion.QuestionClass := DNSClassIn |} ];
     DNSMessage.ResourceRecodes := [] |}.

(** ** The decoder of [dnsunmarshal.go] *)

(** [NewDNSHeader(buffer)]: six 16-bit reads.  The function has no error
    result; a short buffer makes [Uint16] panic. *)
Definition NewDNSHeader : M DNSHeader.t :=
  id <- Uint16_Next ;;
  flag <- Uint16_Next ;;
  questions <- Uint16_Next ;;
  answerRRs <- Uint16_Next ;;
  authorityRRs <- Uint16_Next ;;
  additionalRRs <- Uint16_Next ;;
  ret {| DNSHeader.TxID := id;
         DNSHeader.Flags := DNSFlags.unpack flag;
         DNSHeader.Questions := questions;
         DNSHeader.AnswerRRs := answerRRs;
         DNSHeader.AuthorityRRs := authorityRRs;
         DNSHeader.AdditionalRRs := additionalRRs |}.

(** [buffer.UnreadByte()] with the [if err != nil { return nil, err }]
    that follows it. *)
Definition UnreadByte : M unit :=
  fun b =>
    match bytes.UnreadByte b with
    | (Some err, _) => Err err
    | (None, b') => Ok (tt, b')
    end.

(** [buffer.Next(1)[0]]. *)
Definition Next1 : M byte := bs <- Next 1 ;; index0 bs.

(** [NewDNSResourceRecode(buffer)].  The name is read only in its pointer
    form (tag 3); [Name] keeps its zero value.  The [else] branch prints
    the skipped RDATA on the standard output, which is not modelled. *)
Definition NewDNSResourceRecode : M DNSResourceRecode.t :=
  b0 <- Next1 ;;
  let tag := Z.shiftr (byte_to_Z b0) 6 in
  _ <- UnreadByte ;;
  namePos <- (if tag =? 3
              then v <- Uint16_Next ;; ret (shr16 (shl16 v 2) 2)
              else ret 0) ;;
  rrType <- Uint16_Next ;;
  class <- Uint16_Next ;;
  ttl <- Uint32_Next ;;
  rdLength <- Uint16_Next ;;
  rData <- (if (rrType =? 1) && (rdLength =? 4)
            then a <- Next1 ;; b <- Next1 ;; c <- Next1 ;; d <- Next1 ;;
                 ret (net.IP_String (net.IPv4 a b c d))
            else _ <- Next (Z.to_nat rdLength) ;; ret EmptyString) ;;
  ret {| DNSResourceRecode.Name := EmptyString;
         DNSResourceRecode.NamePos := namePos;
         DNSResourceRecode.RRType := rrType;
         DNSResourceRecode.Class := class;
         DNSResourceRecode.TTL := ttl;
         DNSResourceRecode.RDLength := rdLength;
         DNSResourceRecode.RData := rData |}.

(** [binary.Read] with the [errors.WithMessage] of its error branch. *)
Definition wrap {A : Type} (m : M A) (message : string) : M A :=
  fun b => withMessage (m b) message.

(** The [for length > 0] loop of [NewDNSQuestion].  Each turn reads at
    least two bytes, so the loop ends; [fuel] bounds the number of turns. *)
Fixpoint readSegments (fuel : nat) (length : Z) (segments : list string)
  : M (list string) :=
  if 0 <? length then
    match fuel with
    | O => fun _ => OutOfFuel
    | S fuel' =>
        seg <- wrap (binary.Read_bytes (Z.to_nat length)) "read seg" ;;
        let segments := segments ++ [string_of_list_byte seg] in
        length <- wrap binary.Read_uint8 "read length" ;;
        readSegments fuel' length segments
    end
  else ret segments.

(** The name part of [NewDNSQuestion] (dnsunmarshal.go, 82-100): the first
    length, the loop, and the [strings.Join] of the segments. *)
Definition readName : M string :=
  fun b =>
    (length <- wrap binary.Read_uint8 "read length" ;;
     segments <- readSegments (bytes.Len b) length [] ;;
     ret (strings.Join segments ".")) b.

(** [NewDNSQuestion(buffer)]. *)
Definition NewDNSQuestion : M DNSQuestion.t :=
  name <- readName ;;
  questionType <- Uint16_Next ;;
  questionClass <- Uint16_Next ;;
  ret {| DNSQuestion.QuestionName := name;
         DNSQuestion.QuestionType := questionType;
         DNSQuestion.QuestionClass := questionClass |}.

(** [NewDNSMessage(buffer)]: one question and, when bytes are left, one
    resource record under a zero header. *)
Definition NewDNSMessage : M DNSMessage.t :=
  let header := DNSHeader.mk 0 DNSFlags.zero 0 0 0 0 in
  question <- NewDNSQuestion ;;
  fun b =>
    if Nat.ltb 0 (bytes.Len b) then
      (recode <- NewDNSResourceRecode ;;
       ret (DNSMessage.mk header [question] [recode])) b
    else ret (DNSMessage.mk header [question] []) b.

(** * The vocabulary of the properties *)

(** ** Names, labels and the bytes of a segment *)

(** What the label-writing loop writes for one segment. *)
Definition segmentBytes (seg : string) : list byte :=
  byte_of_Z (Z.of_nat (String.length seg)) :: list_byte_of_string seg.

(** A segment that a length byte can describe. *)
Definition byteLabel (seg : string) : Prop :=
  (1 <= String.length seg <= 255)%nat.

(** A label of a domain name: one to sixty-three bytes. *)
Definition validLabel (seg : string) : Prop :=
  (1 <= String.length seg <= 63)%nat.

(** A name made of labels joined by dots: its segments are its labels. *)
Definition validName (name : string) : Prop :=
  Forall validLabel (strings.Split name ".").

(** A label holds no dot. *)
Fixpoint dotFree (s : string) : bool :=
  match s with
  | EmptyString => true
  | String c s' => negb (Ascii.eqb c ".") && dotFree s'
  end.

(** ** Words in network order *)

(** The bytes of a 16-bit and of a 32-bit word. *)
Definition u16Bytes (v : Z) : list byte :=
  [byte_of_Z (Z.shiftr v 8); byte_of_Z v].

Definition u32Bytes (v : Z) : list byte :=
  [byte_of_Z (Z.shiftr v 24); byte_of_Z (Z.shiftr v 16);
   byte_of_Z (Z.shiftr v 8); byte_of_Z v].

(** What [DNSResourceRecode.ToByte] writes for the name: the pointer to
    [NamePos] when it is positive, the labels of [Name] otherwise. *)
Definition nameOrPointer (r : DNSResourceRecode.t) : list byte :=
  if 0 <? DNSResourceRecode.NamePos r
  then u16Bytes (Z.lor (Z.lor (Z.shiftl 1 15) (Z.shiftl 1 14))
                       (DNSResourceRecode.NamePos r))
  else writeName [] (DNSResourceRecode.Name r).

(** The value of two and of four bytes. *)
Definition be16 (x y : byte) : Z := byte_to_Z x * 256 + byte_to_Z y.

Definition be32 (x y z w : byte) : Z :=
  byte_to_Z x * 16777216 + byte_to_Z y * 65536 + byte_to_Z z * 256
  + byte_to_Z w.

(** ** Dotted-decimal text *)

(** The text of the fields of an address: their decimals, joined by
    dots. *)
Definition fieldsText (fields : list byte) : string :=
  String.concat "." (map net.ubtoa fields).

(** The digits read so far in the current field, [p], against the
    parser's state: nothing read, or the decimal text of [val]. *)
Definition fieldState (p : string) (val : Z) (digLen : nat) : Prop :=
  (p = EmptyString /\ val = 0 /\ digLen = 0%nat)
  \/ (p = net.ubtoa (byte_of_Z val) /\ 0 <= val <= 255
      /\ digLen = String.length p /\ (1 <= digLen)%nat).

(** ** Failures *)

(** A truncation failure: the call returns an error whose cause is
    [io.EOF] or [io.ErrUnexpectedEOF]. *)
Definition truncation {A : Type} (o : outcome A) : Prop :=
  exists e, o = Err e /\ (Cause e = io_EOF \/ Cause e = io_ErrUnexpectedEOF).

(** ** Exhaustive checks

    A property of every 16-bit word can be decided by running it on all of
    them: [all_from n v P] runs [P] on the [n] integers from [v] on. *)
Fixpoint all_from (n : nat) (v : Z) (P : Z -> bool) : bool :=
  match n with
  | O => true
  | S n' => P v && all_from n' (v + 1) P
  end.

(** ** Records used as examples *)

(** A [parseIPv6] that accepts no text.  It stands for the library's
    parser in the closed examples, whose addresses hold no colon, so that
    [net.ParseIP] never consults it. *)
Definition noIPv6 : string -> net.IP := fun _ => [].

(** A record of class CH (3). *)
Definition chaosRecode : DNSResourceRecode.t :=
  DNSResourceRecode.mk "example.com" 0 DNSTypeA 3 60 4 "10.0.0.1".

(** A record of class IN whose RData is not the text of an address. *)
Definition badAddressRecode : DNSResourceRecode.t :=
  DNSResourceRecode.mk "a" 0 DNSTypeA DNSClassIn 0 4 "not-an-ip".

(** A record of class IN whose RData is the text of an IPv6 address that
    maps the IPv4 address 1.2.3.4. *)
Definition mappedRecode : DNSResourceRecode.t :=
  DNSResourceRecode.mk "" 12 DNSTypeA DNSClassIn 300 4 "::ffff:1.2.3.4".

(** The records that announce [len] bytes of data and carry the text of
    an address, or a text that is none. *)
Definition addressRecode (len : Z) : DNSResourceRecode.t :=
  DNSResourceRecode.mk "" 12 DNSTypeA DNSClassIn 300 len "10.0.0.1".

Definition noAddressRecode (len : Z) : DNSResourceRecode.t :=
  DNSResourceRecode.mk "" 12 DNSTypeA DNSClassIn 300 len "not-an-ip".

(** An A record with an inline name. *)
Definition inlineRecode : DNSResourceRecode.t :=
  DNSResourceRecode.mk "a" 0 DNSTypeA DNSClassIn 0 4 "1.2.3.4".

(** An A record that has both a name and a position. *)
Definition namedPointerRecode : DNSResourceRecode.t :=
  DNSResourceRecode.mk "a" 12 DNSTypeA DNSClassIn 0 4 "1.2.3.4".

(** An A record that names the position 12 and no name. *)
Definition pointerRecode : DNSResourceRecode.t :=
  DNSResourceRecode.mk "" 12 DNSTypeA DNSClassIn 300 4 "192.168.0.255".

(** ** Running a decoder *)

(** Unfolding the decoders on a buffer whose bytes are spelled out. *)
Ltac run_decoder :=
  cbv [NewDNSResourceRecode NewDNSHeader bind ret panic Next1 Next index0
       UnreadByte Uint16_Next Uint32_Next
       bytes.UnreadByte bytes.Next bytes.NewBuffer bytes.unread bytes.buf
       bytes.off bytes.lastRead firstn skipn List.length Nat.add Nat.pred
       binary.BigEndian_Uint16 binary.BigEndian_Uint32 app].

(** ** Flags, headers and messages as their fields' bytes *)

(** Every field of the flags fits the bits that [ToBit] shifts it to;
    [RCode], the lowest, may reach into the three reserved bits above it. *)
Definition flagsInRange (f : DNSFlags.t) : Prop :=
  0 <= DNSFlags.QR f < 2 /\ 0 <= DNSFlags.OpCode f < 16
  /\ 0 <= DNSFlags.AA f < 2 /\ 0 <= DNSFlags.TC f < 2
  /\ 0 <= DNSFlags.RD f < 2 /\ 0 <= DNSFlags.RA f < 2
  /\ 0 <= DNSFlags.RCode f < 128.

(** The five 16-bit words of a header besides its flags. *)
Definition headerInRange (h : DNSHeader.t) : Prop :=
  uint16 (DNSHeader.TxID h) /\ uint16 (DNSHeader.Questions h)
  /\ uint16 (DNSHeader.AnswerRRs h) /\ uint16 (DNSHeader.AuthorityRRs h)
  /\ uint16 (DNSHeader.AdditionalRRs h).

(** The twelve bytes of a header. *)
Definition headerBytes (h : DNSHeader.t) : list byte :=
  u16Bytes (DNSHeader.TxID h) ++ u16Bytes (DNSFlags.ToBit (DNSHeader.Flags h))
  ++ u16Bytes (DNSHeader.Questions h) ++ u16Bytes (DNSHeader.AnswerRRs h)
  ++ u16Bytes (DNSHeader.AuthorityRRs h)
  ++ u16Bytes (DNSHeader.AdditionalRRs h).

(** The bytes of a question and of a record of class IN. *)
Definition questionBytes (q : DNSQuestion.t) : list byte :=
  writeName [] (DNSQuestion.QuestionName q)
  ++ u16Bytes (DNSQuestion.QuestionType q)
  ++ u16Bytes (DNSQuestion.QuestionClass q).

Definition recodeBytes (parseIPv6 : string -> net.IP)
           (r : DNSResourceRecode.t) : list byte :=
  nameOrPointer r
  ++ u16Bytes (DNSResourceRecode.RRType r)
  ++ u16Bytes (DNSResourceRecode.Class r)
  ++ u32Bytes (DNSResourceRecode.TTL r)
  ++ u16Bytes (DNSResourceRecode.RDLength r)
  ++ net.To4 (net.ParseIP parseIPv6 (DNSResourceRecode.RData r)).

(** The header that [NewDNSMessage] gives every message. *)
Definition zeroHeader : DNSHeader.t := DNSHeader.mk 0 DNSFlags.zero 0 0 0 0.

(** ** Answers that depend on the unread bytes alone *)

(** Two answers that agree up to the buffers' past: the same value and the
    same unread bytes, or the same failure. *)
Definition sameAnswer {A : Type} (o1 o2 : outcome (A * bytes.Buffer)) : Prop :=
  match o1, o2 with
  | Ok (a1, b1), Ok (a2, b2) => a1 = a2 /\ bytes.unread b1 = bytes.unread b2
  | Err e1, Err e2 => e1 = e2
  | Panic p1, Panic p2 => p1 = p2
  | OutOfFuel, OutOfFuel => True
  | _, _ => False
  end.

(** A read whose answer depends on the unread bytes alone. *)
Definition unreadOnly {A : Type} (m : M A) : Prop :=
  forall b1 b2,
    bytes.unread b1 = bytes.unread b2 -> sameAnswer (m b1) (m b2).

(** [NewDNSResourceRecode] after its look at the first byte [b0]. *)
Definition recodeAfterTag (b0 : byte) : M DNSResourceRecode.t :=
  let tag := Z.shiftr (byte_to_Z b0) 6 in
  namePos <- (if tag =? 3
              then v <- Uint16_Next ;; ret (shr16 (shl16 v 2) 2)
              else ret 0) ;;
  rrType <- Uint16_Next ;;
  class <- Uint16_Next ;;
  ttl <- Uint32_Next ;;
  rdLength <- Uint16_Next ;;
  rData <- (if (rrType =? 1) && (rdLength =? 4)
            then a <- Next1 ;; b <- Next1 ;; c <- Next1 ;; d <- Next1 ;;
                 ret (net.IP_String (net.IPv4 a b c d))
            else _ <- Next (Z.to_nat rdLength) ;; ret EmptyString) ;;
  ret {| DNSResourceRecode.Name := EmptyString;
         DNSResourceRecode.NamePos := namePos;
         DNSResourceRecode.RRType := rrType;
         DNSResourceRecode.Class := class;
         DNSResourceRecode.TTL := ttl;
         DNSResourceRecode.RDLength := rdLength;
         DNSResourceRecode.RData := rData |}.

(** ** The failures of the decoders *)

(** An answer that is a value or a panic: no error is returned. *)
Definition returnsOrPanics {A : Type} (o : outcome A) : Prop :=
  match o with
  | Ok _ | Panic _ => True
  | Err _ | OutOfFuel => False
  end.

(** The three errors of [NewDNSQuestion]: no length byte is left, no byte
    of a segment is left, or fewer bytes than the segment's length. *)
Definition readError (e : error) : Prop :=
  e = WithMessage io_EOF "read length"
  \/ e = WithMessage io_EOF "read seg"
  \/ e = WithMessage io_ErrUnexpectedEOF "read seg".

(** An answer whose error, if it is one, is one of these three. *)
Definition readFailure {A : Type} (o : outcome A) : Prop :=
  match o with
  | Err e => readError e
  | _ => True
  end.

(** An answer of [NewDNSQuestion]: a value, one of the three errors, or
    the panic of an unchecked read. *)
Definition questionAnswer {A : Type} (o : outcome A) : Prop :=
  match o with
  | Ok _ => True
  | Err e => readError e
  | Panic p => p = index_out_of_range
  | OutOfFuel => False
  end.

(** * Properties *)

(** ** Bytes *)

Lemma byte_to_Z_range (b : byte) : 0 <= byte_to_Z b < 256.
Proof.
  unfold byte_to_Z. pose proof (Byte.to_N_bounded b). lia.
Qed.

Lemma byte_of_to_Z (b : byte) : byte_of_Z (byte_to_Z b) = b.
Proof.
  unfold byte_of_Z. pose proof (byte_to_Z_range b) as Hb.
  rewrite Z.mod_small by exact Hb.
  unfold byte_to_Z. rewrite N2Z.id, Byte.of_to_N. reflexivity.
Qed.

Lemma byte_to_of_Z (v : Z) : byte_to_Z (byte_of_Z v) = v mod 256.
Proof.
  unfold byte_of_Z, byte_to_Z.
  assert (Hm : 0 <= v mod 256 < 256) by (apply Z.mod_pos_bound; lia).
  destruct (Byte.of_N (Z.to_N (v mod 256))) as [b|] eqn:E.
  - apply Byte.to_of_N in E. rewrite E. lia.
  - apply Byte.of_N_None_iff in E. lia.
Qed.

Lemma length_list_byte_of_string (s : string) :
  List.length (list_byte_of_string s) = String.length s.
Proof.
  unfold list_byte_of_string. rewrite length_map.
  induction s as [|c s IH]; simpl; [reflexivity | now rewrite IH].
Qed.

(** ** Big-endian words *)

Lemma lor_shiftl_add (lo hi n : Z) :
  0 <= n -> 0 <= lo < 2 ^ n -> Z.lor lo (Z.shiftl hi n) = lo + hi * 2 ^ n.
Proof.
  intros Hn Hlo.
  assert (Hland : Z.land lo (Z.shiftl hi n) = 0).
  { rewrite <- (Z.mod_small lo (2 ^ n)) by exact Hlo.
    rewrite <- Z.land_ones by exact Hn.
    rewrite <- Z.land_assoc, (Z.land_comm (Z.ones n)), Z.land_ones by exact Hn.
    rewrite Z.shiftl_mul_pow2 by exact Hn.
    rewrite Z.mod_mul by lia. apply Z.land_0_r. }
  rewrite <- Z.lxor_lor by exact Hland.
  rewrite <- Z.add_nocarry_lxor by exact Hland.
  rewrite Z.shiftl_mul_pow2 by exact Hn. reflexivity.
Qed.

Lemma BigEndian_Uint16_cons (x y : byte) (l : list byte) :
  binary.BigEndian_Uint16 (x :: y :: l)
  = Some (byte_to_Z x * 256 + byte_to_Z y).
Proof.
  unfold binary.BigEndian_Uint16.
  pose proof (byte_to_Z_range y).
  rewrite lor_shiftl_add by lia. f_equal. lia.
Qed.

Lemma BigEndian_Uint32_cons (x y z w : byte) (l : list byte) :
  binary.BigEndian_Uint32 (x :: y :: z :: w :: l)
  = Some (byte_to_Z x * 16777216 + byte_to_Z y * 65536
          + byte_to_Z z * 256 + byte_to_Z w).
Proof.
  unfold binary.BigEndian_Uint32.
  pose proof (byte_to_Z_range x). pose proof (byte_to_Z_range y).
  pose proof (byte_to_Z_range z). pose proof (byte_to_Z_range w).
  rewrite (lor_shiftl_add (byte_to_Z w)) by lia.
  rewrite (lor_shiftl_add (byte_to_Z w + _)) by lia.
  rewrite (lor_shiftl_add (byte_to_Z w + _ + _)) by lia.
  f_equal. lia.
Qed.

(** What [Write_uint16] and [Write_uint32] write is read back. *)
Lemma uint16_bytes_value (v : Z) :
  uint16 v ->
  byte_to_Z (byte_of_Z (Z.shiftr v 8)) * 256 + byte_to_Z (byte_of_Z v) = v.
Proof.
  unfold uint16. intros Hv.
  rewrite !byte_to_of_Z, Z.shiftr_div_pow2 by lia.
  change (2 ^ 8) with 256.
  Z.div_mod_to_equations. lia.
Qed.

Lemma uint32_bytes_value (v : Z) :
  uint32 v ->
  byte_to_Z (byte_of_Z (Z.shiftr v 24)) * 16777216
  + byte_to_Z (byte_of_Z (Z.shiftr v 16)) * 65536
  + byte_to_Z (byte_of_Z (Z.shiftr v 8)) * 256
  + byte_to_Z (byte_of_Z v) = v.
Proof.
  unfold uint32. intros Hv.
  rewrite !byte_to_of_Z, !Z.shiftr_div_pow2 by lia.
  change (2 ^ 8) with 256. change (2 ^ 16) with 65536.
  change (2 ^ 24) with 16777216.
  Z.div_mod_to_equations. lia.
Qed.

(** ** Exhaustive checks over a range of integers *)

Lemma all_from_spec (P : Z -> bool) (n : nat) :
  forall v, all_from n v P = true ->
  forall k, v <= k < v + Z.of_nat n -> P k = true.
Proof.
  induction n as [|n IH]; intros v H k Hk.
  - lia.
  - simpl in H. apply andb_true_iff in H. destruct H as [Hv Hrest].
    destruct (Z.eq_dec k v) as [->|Hne]; [exact Hv|].
    apply (IH (v + 1) Hrest). lia.
Qed.

Lemma all_uint16 (P : Z -> bool) :
  all_from (Z.to_nat 65536) 0 P = true -> forall v, uint16 v -> P v = true.
Proof.
  intros H v Hv. apply (all_from_spec P _ 0 H). unfold uint16 in Hv. lia.
Qed.

(** ** The flag word *)

(** Every 16-bit word passes the comparison of its fields with the fields
    of its repacked word; the kernel runs it on all of them. *)
Lemma flags_checked :
  all_from (Z.to_nat 65536) 0
    (fun v =>
       let f := DNSFlags.unpack v in
       let w := DNSFlags.ToBit f in
       let f' := DNSFlags.unpack w in
       (DNSFlags.QR f' =? DNSFlags.QR f)
       && (DNSFlags.OpCode f' =? DNSFlags.OpCode f)
       && (DNSFlags.AA f' =? DNSFlags.AA f)
       && (DNSFlags.TC f' =? DNSFlags.TC f)
       && (DNSFlags.RD f' =? DNSFlags.RD f)
       && (DNSFlags.RA f' =? DNSFlags.RA f)
       && (DNSFlags.RCode f' =? DNSFlags.RCode f)
       && (DNSFlags.Z_ f' =? 0)
       && (w =? v - 16 * DNSFlags.Z_ f)) = true.
Proof. vm_cast_no_check (eq_refl true). Qed.

(** C3, as stated, fails: the flag word 0x0010 has [Z = 1]; packing
    drops [Z], and unpacking the packed word gives [Z = 0]. *)
Lemma flags_Z_not_reextracted :
  uint16 16 /\
  DNSFlags.Z_ (DNSFlags.unpack (DNSFlags.ToBit (DNSFlags.unpack 16)))
  <> DNSFlags.Z_ (DNSFlags.unpack 16).
Proof.
  split; [unfold uint16; lia | vm_compute; discriminate].
Qed.

(** C3, amended: for every 16-bit word [v], unpacking the packed fields of
    [v] gives back QR, OpCode, AA, TC, RD, RA and RCode; [Z] comes back as
    zero, and the packed word is [v] with the bits 4 to 6 cleared. *)
Theorem flags_repack (v : Z) :
  uint16 v ->
  let f := DNSFlags.unpack v in
  let w := DNSFlags.ToBit f in
  let f' := DNSFlags.unpack w in
  DNSFlags.QR f' = DNSFlags.QR f /\
  DNSFlags.OpCode f' = DNSFlags.OpCode f /\
  DNSFlags.AA f' = DNSFlags.AA f /\
  DNSFlags.TC f' = DNSFlags.TC f /\
  DNSFlags.RD f' = DNSFlags.RD f /\
  DNSFlags.RA f' = DNSFlags.RA f /\
  DNSFlags.RCode f' = DNSFlags.RCode f /\
  DNSFlags.Z_ f' = 0 /\
  w = v - 16 * DNSFlags.Z_ f.
Proof.
  intros Hv. cbv zeta.
  pose proof (all_uint16 _ flags_checked v Hv) as H.
  cbv beta zeta in H.
  repeat (apply andb_true_iff in H; destruct H as [H ?]).
  repeat match goal with
         | E : (_ =? _) = true |- _ => apply Z.eqb_eq in E
         end.
  repeat split; assumption.
Qed.

Lemma flags_repack_witness :
  uint16 33173 /\
  DNSFlags.RCode (DNSFlags.unpack (DNSFlags.ToBit (DNSFlags.unpack 33173)))
  = DNSFlags.RCode (DNSFlags.unpack 33173).
Proof.
  assert (H : uint16 33173) by (unfold uint16; lia).
  split; [exact H | exact (proj1 (proj2 (proj2 (proj2 (proj2 (proj2 (proj2
    (flags_repack 33173 H)))))))) ].
Defined.

(** ** The query of [LookUp] *)

(** C2: the message that [LookUp] builds for "example.com" is written as
    the header 00 01 01 00 00 01 00 00 00 00 00 00, the name
    07 'example' 03 'com' 00, and 00 01 00 01. *)
Theorem LookUp_example_com (parseIPv6 : string -> net.IP) :
  DNSMessage.ToByte parseIPv6 (LookUp_msg "example.com")
  = Ok ([x00; x01; x01; x00; x00; x01; x00; x00; x00; x00; x00; x00]
        ++ [x07] ++ list_byte_of_string "example"
        ++ [x03] ++ list_byte_of_string "com" ++ [x00]
        ++ [x00; x01; x00; x01]).
Proof. reflexivity. Qed.

(** ** Writing a name *)

Lemma fold_left_segments (segs : list string) :
  forall buffer,
    fold_left
      (fun buffer seg =>
         binary.Write_bytes
           (binary.Write_uint8 buffer (Z.of_nat (String.length seg)))
           (list_byte_of_string seg))
      segs buffer
    = buffer ++ flat_map segmentBytes segs.
Proof.
  induction segs as [|seg segs IH]; intros buffer; simpl.
  - now rewrite app_nil_r.
  - rewrite IH. unfold binary.Write_bytes, binary.Write_uint8, segmentBytes.
    rewrite <- !app_assoc. reflexivity.
Qed.

Lemma writeName_eq (buffer : list byte) (name : string) :
  writeName buffer name
  = buffer ++ flat_map segmentBytes (strings.Split name ".") ++ [x00].
Proof.
  unfold writeName. rewrite fold_left_segments.
  unfold binary.Write_uint8. now rewrite <- app_assoc.
Qed.

Lemma Split_not_nil (s : string) (sep : ascii) : strings.Split s sep <> [].
Proof.
  destruct s as [|c s]; simpl; [discriminate|].
  destruct (Ascii.eqb c sep); [discriminate|].
  destruct (strings.Split s sep); discriminate.
Qed.

Lemma length_segmentBytes (seg : string) :
  List.length (segmentBytes seg) = S (String.length seg).
Proof.
  unfold segmentBytes. cbn [List.length].
  now rewrite length_list_byte_of_string.
Qed.

Lemma length_flat_map_Split (s : string) :
  List.length (flat_map segmentBytes (strings.Split s "."))
  = S (String.length s).
Proof.
  induction s as [|c s IH]; [reflexivity|].
  cbn [strings.Split]. destruct (Ascii.eqb c ".").
  - cbn [flat_map]. rewrite length_app, length_segmentBytes, IH.
    reflexivity.
  - pose proof (Split_not_nil s ".") as Hne.
    destruct (strings.Split s ".") as [|seg segs]; [contradiction|].
    cbn [flat_map] in IH |- *.
    rewrite length_app, length_segmentBytes in IH |- *.
    cbn [String.length] in *. lia.
Qed.

(** C9, as stated, fails: the empty name is written as two zero bytes,
    the length of its one empty segment and the terminator; so does
    [DNSQuestion.ToByte] begin for a question with the empty name. *)
Lemma writeName_empty_name :
  writeName [] "" = [x00; x00]
  /\ writeName [] "" <> [x00]
  /\ DNSQuestion.ToByte (DNSQuestion.mk "" DNSTypeA DNSClassIn)
     = Ok [x00; x00; x00; x01; x00; x01].
Proof.
  split; [reflexivity|]. split; [vm_compute; discriminate | reflexivity].
Qed.

(** What [r.ToByte()] has written before the [switch]. *)
Lemma writeFixed_eq (r : DNSResourceRecode.t) :
  DNSResourceRecode.writeFixed r
  = nameOrPointer r
    ++ u16Bytes (DNSResourceRecode.RRType r)
    ++ u16Bytes (DNSResourceRecode.Class r)
    ++ u32Bytes (DNSResourceRecode.TTL r)
    ++ u16Bytes (DNSResourceRecode.RDLength r).
Proof.
  unfold DNSResourceRecode.writeFixed, nameOrPointer.
  unfold binary.Write_uint16, binary.Write_uint32.
  destruct (Z.ltb_spec 0 (DNSResourceRecode.NamePos r));
    destruct (Z.leb_spec (DNSResourceRecode.NamePos r) 0); try lia;
    rewrite <- !app_assoc; reflexivity.
Qed.

(** C9, amended: the name is written as, for each segment of
    [strings.Split(name, ".")], the empty ones included, one byte holding
    the segment's length modulo 256 and then the segment's bytes, followed
    by one zero byte; this takes [len(name) + 2] bytes, and the empty name
    gives two zero bytes.  [DNSQuestion.ToByte] writes this and the two
    16-bit fields after it; [DNSResourceRecode.ToByte] begins with it when
    the record names no position. *)
Theorem writeName_segments (name : string) :
  writeName [] name
  = flat_map
      (fun seg =>
         byte_of_Z (Z.of_nat (String.length seg)) :: list_byte_of_string seg)
      (strings.Split name ".") ++ [x00]
  /\ List.length (writeName [] name) = (String.length name + 2)%nat
  /\ writeName [] "" = [x00; x00]
  /\ (forall t c,
        DNSQuestion.ToByte (DNSQuestion.mk name t c)
        = Ok (writeName [] name ++ u16Bytes t ++ u16Bytes c))
  /\ (forall t c ttl len data,
        DNSResourceRecode.writeFixed
          (DNSResourceRecode.mk name 0 t c ttl len data)
        = writeName [] name
          ++ u16Bytes t ++ u16Bytes c ++ u32Bytes ttl ++ u16Bytes len).
Proof.
  repeat split.
  - apply writeName_eq.
  - rewrite writeName_eq. simpl. rewrite length_app, length_flat_map_Split.
    simpl. lia.
  - intros t c. unfold DNSQuestion.ToByte, binary.Write_uint16, u16Bytes.
    simpl. now rewrite <- app_assoc.
  - intros t c ttl len data. now rewrite writeFixed_eq.
Qed.

(** ** Writing a resource record *)

(** C6: a record whose class is not IN is refused with
    [ErrClassNotSupport], and no bytes are returned. *)
Theorem ToByte_class_not_IN (parseIPv6 : string -> net.IP)
        (r : DNSResourceRecode.t) :
  DNSResourceRecode.Class r <> DNSClassIn ->
  DNSResourceRecode.ToByte parseIPv6 r = Err ErrClassNotSupport.
Proof.
  intros Hc. unfold DNSResourceRecode.ToByte.
  destruct (Z.eqb_spec (DNSResourceRecode.Class r) DNSClassIn);
    [contradiction | reflexivity].
Qed.

Lemma ToByte_class_not_IN_witness :
  DNSResourceRecode.Class chaosRecode <> DNSClassIn /\
  DNSResourceRecode.ToByte noIPv6 chaosRecode = Err ErrClassNotSupport.
Proof.
  assert (H : DNSResourceRecode.Class chaosRecode <> DNSClassIn)
    by (vm_compute; discriminate).
  split; [exact H | exact (ToByte_class_not_IN noIPv6 chaosRecode H)].
Defined.

(** ** Addresses *)

Lemma To4_IPv4 (a b c d : byte) : net.To4 (net.IPv4 a b c d) = [a; b; c; d].
Proof. reflexivity. Qed.

Lemma To4_length (ip : net.IP) :
  List.length (net.To4 ip) = 4%nat \/ net.To4 ip = [].
Proof.
  unfold net.To4.
  destruct (Nat.eqb_spec (List.length ip) 4) as [H4|_]; [now left|].
  destruct (Nat.eqb_spec (List.length ip) 16) as [H16|_]; [|now right].
  destruct (net.bytes_eqb (firstn 12 ip) net.v4InV6Prefix);
    cbn [andb]; [|now right].
  left. rewrite length_skipn, H16. reflexivity.
Qed.

Lemma IP_String_IPv4 (a b c d : byte) :
  net.IP_String (net.IPv4 a b c d)
  = (net.ubtoa a ++ "." ++ net.ubtoa b ++ "." ++ net.ubtoa c ++ "."
     ++ net.ubtoa d)%string.
Proof. reflexivity. Qed.

(** The scan meets the dot that ends the first field before any colon. *)
Lemma parseAddr_ubtoa (parseIPv6 : string -> net.IP) (a : byte)
      (rest whole : string) :
  net.parseAddr parseIPv6 (net.ubtoa a ++ String "." rest) whole
  = net.parseIPv4 whole.
Proof. destruct a; reflexivity. Qed.

(** One field and its dot. *)
Lemma parseIPv4Fields_ubtoa_dot (a : byte) (rest : string)
      (fields : list byte) :
  (List.length fields < 3)%nat ->
  net.parseIPv4Fields (net.ubtoa a ++ String "." rest) 0 0 fields
  = net.parseIPv4Fields rest 0 0 (fields ++ [a]).
Proof.
  intros Hlen.
  destruct fields as [|f1 [|f2 [|f3 fields]]];
    [ | | | simpl in Hlen; lia ]; destruct a; reflexivity.
Qed.

(** The last field. *)
Lemma parseIPv4Fields_ubtoa_end (a b c d : byte) :
  net.parseIPv4Fields (net.ubtoa d) 0 0 [a; b; c] = Some [a; b; c; d].
Proof. destruct d; reflexivity. Qed.

(** The text that [IP.String] prints for an IPv4 address is parsed back to
    that address. *)
Lemma ParseIP_IP_String (parseIPv6 : string -> net.IP) (a b c d : byte) :
  net.ParseIP parseIPv6 (net.IP_String (net.IPv4 a b c d))
  = net.IPv4 a b c d.
Proof.
  assert (Hdot : forall s, ("." ++ s)%string = String "." s)
    by reflexivity.
  rewrite IP_String_IPv4, !Hdot. unfold net.ParseIP.
  rewrite parseAddr_ubtoa. unfold net.parseIPv4.
  rewrite parseIPv4Fields_ubtoa_dot by (simpl; lia).
  rewrite parseIPv4Fields_ubtoa_dot by (simpl; lia).
  rewrite parseIPv4Fields_ubtoa_dot by (simpl; lia).
  simpl app. rewrite parseIPv4Fields_ubtoa_end. reflexivity.
Qed.

(** Conversely, the dotted-decimal parser accepts no other text. *)

Lemma digit_char (c : ascii) :
  48 <= net.char c <= 57 -> net.digit (net.char c - 48) = c.
Proof.
  destruct c as [[] [] [] [] [] [] [] []]; intros H;
    try reflexivity; exfalso; vm_compute in H; destruct H as [H1 H2];
    first [now apply H1 | now apply H2].
Qed.

Lemma dot_char (c : ascii) : net.char c = 46 -> c = "."%char.
Proof.
  destruct c as [[] [] [] [] [] [] [] []]; intros H;
    try reflexivity; discriminate H.
Qed.

Lemma ubtoa_digit (d : Z) :
  0 <= d <= 9 -> net.ubtoa (byte_of_Z d) = String (net.digit d) EmptyString.
Proof.
  intros Hd. unfold net.ubtoa. rewrite byte_to_of_Z, Z.mod_small by lia.
  destruct (Z.ltb_spec d 10); [reflexivity | lia].
Qed.

Lemma ubtoa_snoc_checked :
  all_from 25 1
    (fun v =>
       all_from 10 0
         (fun d =>
            (255 <? 10 * v + d)
            || String.eqb (net.ubtoa (byte_of_Z (10 * v + d)))
                          (net.ubtoa (byte_of_Z v)
                           ++ String (net.digit d) EmptyString))) = true.
Proof. vm_cast_no_check (eq_refl true). Qed.

Lemma ubtoa_snoc (v d : Z) :
  1 <= v -> 0 <= d <= 9 -> 10 * v + d <= 255 ->
  net.ubtoa (byte_of_Z (10 * v + d))
  = (net.ubtoa (byte_of_Z v) ++ String (net.digit d) EmptyString)%string.
Proof.
  intros Hv Hd Hle.
  pose proof (all_from_spec _ _ _ ubtoa_snoc_checked v) as H.
  cbv beta in H. specialize (H ltac:(simpl; lia)).
  pose proof (all_from_spec _ _ _ H d) as H'.
  cbv beta in H'. specialize (H' ltac:(simpl; lia)).
  apply orb_true_iff in H'. destruct H' as [H'|H'].
  - apply Z.ltb_lt in H'. lia.
  - now apply String.eqb_eq in H'.
Qed.

Lemma length_ubtoa_0 : String.length (net.ubtoa (byte_of_Z 0)) = 1%nat.
Proof. reflexivity. Qed.

Lemma length_append (s t : string) :
  String.length (s ++ t) = (String.length s + String.length t)%nat.
Proof.
  induction s as [|c s IH]; simpl; [reflexivity | now rewrite IH].
Qed.

Lemma append_snoc (p : string) (c : ascii) (s : string) :
  ((p ++ String c EmptyString) ++ s = p ++ String c s)%string.
Proof.
  induction p as [|x p IH]; simpl; [reflexivity | now rewrite IH].
Qed.

Lemma fieldsText_cons (v : byte) (fs : list byte) :
  fs <> [] ->
  fieldsText (v :: fs) = (net.ubtoa v ++ String "." (fieldsText fs))%string.
Proof.
  intros Hne. destruct fs as [|w fs]; [contradiction | reflexivity].
Qed.

(** The parser accepts only the text of the fields it returns. *)
Lemma parseIPv4Fields_sound (s : string) :
  forall p val digLen fields out,
    fieldState p val digLen ->
    net.parseIPv4Fields s val digLen fields = Some out ->
    exists fs,
      out = fields ++ fs /\ fs <> [] /\ (p ++ s)%string = fieldsText fs.
Proof.
  induction s as [|c s IH]; intros p val digLen fields out Hst E.
  - cbn [net.parseIPv4Fields] in E.
    destruct Hst as [(-> & -> & ->)|(-> & Hval & -> & Hlen)];
      [discriminate|].
    destruct (Nat.eqb_spec (String.length (net.ubtoa (byte_of_Z val))) 0);
      [lia|].
    destruct (Nat.eqb (List.length fields) 3); [|discriminate].
    injection E as <-. exists [byte_of_Z val].
    split; [reflexivity|]. split; [discriminate|].
    unfold fieldsText. simpl.
    clear. induction (net.ubtoa (byte_of_Z val)); simpl; congruence.
  - cbn [net.parseIPv4Fields] in E.
    destruct ((48 <=? net.char c) && (net.char c <=? 57)) eqn:Hdig.
    + apply andb_true_iff in Hdig. destruct Hdig as [H1 H2].
      apply Z.leb_le in H1. apply Z.leb_le in H2.
      destruct (Nat.eqb digLen 1 && (val =? 0)) eqn:Hz; [discriminate|].
      destruct (Z.ltb_spec 255 (val * 10 + (net.char c - 48)));
        [discriminate|].
      assert (Hst' : fieldState (p ++ String c EmptyString)
                       (val * 10 + (net.char c - 48)) (S digLen)).
      { right. destruct Hst as [(-> & -> & ->)|(-> & Hval & -> & Hlen)].
        - simpl. rewrite ubtoa_digit by lia.
          rewrite digit_char by lia. repeat split; simpl; lia.
        - assert (Hv1 : 1 <= val).
          { destruct (Z.eq_dec val 0) as [->|]; [|lia].
            rewrite length_ubtoa_0 in Hz. discriminate. }
          replace (val * 10 + (net.char c - 48))
            with (10 * val + (net.char c - 48)) in * by lia.
          rewrite ubtoa_snoc by lia. rewrite digit_char by lia.
          repeat split; try lia.
          rewrite length_append. simpl. lia. }
      destruct (IH _ _ _ _ _ Hst' E) as (fs & -> & Hne & Htxt).
      exists fs. rewrite append_snoc in Htxt. now repeat split.
    + destruct (Z.eqb_spec (net.char c) 46) as [Hc|]; [|discriminate].
      apply dot_char in Hc. subst c.
      destruct Hst as [(-> & -> & ->)|(-> & Hval & -> & Hlen)];
        [discriminate|].
      destruct (Nat.eqb_spec (String.length (net.ubtoa (byte_of_Z val))) 0);
        [lia|].
      destruct (Nat.eqb (List.length fields) 3); [discriminate|].
      assert (Hst' : fieldState EmptyString 0 0) by (left; auto).
      destruct (IH _ _ _ _ _ Hst' E) as (fs & -> & Hne & Htxt).
      exists (byte_of_Z val :: fs). rewrite <- app_assoc.
      split; [reflexivity|]. split; [discriminate|].
      rewrite fieldsText_cons by exact Hne. simpl in Htxt. now rewrite Htxt.
Qed.

(** The dotted-decimal texts: [parseIPv4] returns the address [a.b.c.d]
    on the text that [IP.String] prints for it, and on no other. *)
Lemma parseIPv4_iff (s : string) (a b c d : byte) :
  net.parseIPv4 s = net.IPv4 a b c d
  <-> s = net.IP_String (net.IPv4 a b c d).
Proof.
  split.
  - unfold net.parseIPv4. intros E.
    destruct (net.parseIPv4Fields s 0 0 []) as [out|] eqn:Ep;
      [|discriminate].
    assert (Hst : fieldState EmptyString 0 0) by (left; auto).
    destruct (parseIPv4Fields_sound s _ _ _ _ _ Hst Ep)
      as (fs & -> & _ & Htxt).
    simpl in Htxt, E. subst s.
    destruct fs as [|a' [|b' [|c' [|d' [|e' fs]]]]]; try discriminate.
    injection E as -> -> -> ->. reflexivity.
  - intros ->. rewrite IP_String_IPv4. unfold net.parseIPv4.
    assert (Hdot : forall s, ("." ++ s)%string = String "." s)
      by reflexivity.
    rewrite !Hdot.
    rewrite !parseIPv4Fields_ubtoa_dot by (simpl; lia).
    simpl app. now rewrite parseIPv4Fields_ubtoa_end.
Qed.

(** C7, as stated, fails: "not-an-ip" is no address, and the record that
    carries it is written without error, with no RDATA. *)
Lemma ToByte_bad_address_succeeds :
  DNSResourceRecode.Class badAddressRecode = DNSClassIn /\
  net.ParseIP noIPv6 (DNSResourceRecode.RData badAddressRecode) = [] /\
  DNSResourceRecode.ToByte noIPv6 badAddressRecode
  = Ok [x01; x61; x00; x00; x01; x00; x01; x00; x00; x00; x00; x00; x04].
Proof. repeat split. Qed.

(** C7, amended: a record of class IN whose RData has no 4-byte address
    form is written without error: the name or the pointer, type, class,
    TTL and RDLength, and no RDATA byte after them. *)
Theorem ToByte_unparsable_address (parseIPv6 : string -> net.IP)
        (r : DNSResourceRecode.t) :
  DNSResourceRecode.Class r = DNSClassIn ->
  net.To4 (net.ParseIP parseIPv6 (DNSResourceRecode.RData r)) = [] ->
  DNSResourceRecode.ToByte parseIPv6 r
  = Ok (nameOrPointer r
        ++ u16Bytes (DNSResourceRecode.RRType r)
        ++ u16Bytes (DNSResourceRecode.Class r)
        ++ u32Bytes (DNSResourceRecode.TTL r)
        ++ u16Bytes (DNSResourceRecode.RDLength r)).
Proof.
  intros Hc Hip. unfold DNSResourceRecode.ToByte.
  destruct (Z.eqb_spec (DNSResourceRecode.Class r) DNSClassIn);
    [|contradiction].
  rewrite Hip, writeFixed_eq. unfold binary.Write_bytes.
  now rewrite app_nil_r.
Qed.

Lemma ToByte_unparsable_address_witness :
  DNSResourceRecode.Class badAddressRecode = DNSClassIn /\
  net.To4 (net.ParseIP noIPv6 (DNSResourceRecode.RData badAddressRecode)) = []
  /\ DNSResourceRecode.ToByte noIPv6 badAddressRecode
     = Ok (nameOrPointer badAddressRecode
           ++ u16Bytes (DNSResourceRecode.RRType badAddressRecode)
           ++ u16Bytes (DNSResourceRecode.Class badAddressRecode)
           ++ u32Bytes (DNSResourceRecode.TTL badAddressRecode)
           ++ u16Bytes (DNSResourceRecode.RDLength badAddressRecode)).
Proof.
  split; [reflexivity | split; [reflexivity |]].
  exact (ToByte_unparsable_address noIPv6 badAddressRecode eq_refl eq_refl).
Defined.

(** C10, as stated, fails in its "0 bytes otherwise": the text
    "::ffff:1.2.3.4" is no IPv4 address, the parser of dotted-decimal
    texts refuses it, and yet the record that carries it is written with
    the four bytes 01 02 03 04 after its RDLength, because
    [net.ParseIP] reads it as an IPv6 address that has a 4-byte form. *)
Lemma ToByte_mapped_address_written :
  DNSResourceRecode.Class mappedRecode = DNSClassIn /\
  net.parseIPv4 (DNSResourceRecode.RData mappedRecode) = [] /\
  net.ParseIP netip.parseIPv6 (DNSResourceRecode.RData mappedRecode)
  = net.IPv4 x01 x02 x03 x04 /\
  DNSResourceRecode.ToByte netip.parseIPv6 mappedRecode
  = Ok [xc0; x0c; x00; x01; x00; x01; x00; x00; x01; x2c; x00; x04;
        x01; x02; x03; x04].
Proof. repeat split. Qed.

(** C10, amended: a record of class IN is always written: the name or the
    pointer, type, class and TTL, then the two bytes of RDLength, which
    hold its value, then the bytes of [net.ParseIP(RData).To4()], four of
    them or none.  They are the four bytes a, b, c, d when RData is the
    dotted-decimal text of the address a.b.c.d.  RDLength is not compared
    with them: every 16-bit RDLength is written before the four bytes of
    "10.0.0.1" and before the no bytes of "not-an-ip". *)
Theorem ToByte_RData_unchecked :
  (forall (parseIPv6 : string -> net.IP) (r : DNSResourceRecode.t),
      DNSResourceRecode.Class r = DNSClassIn ->
      uint16 (DNSResourceRecode.RDLength r) ->
      let rdata :=
        net.To4 (net.ParseIP parseIPv6 (DNSResourceRecode.RData r)) in
      DNSResourceRecode.ToByte parseIPv6 r
      = Ok (nameOrPointer r
            ++ u16Bytes (DNSResourceRecode.RRType r)
            ++ u16Bytes (DNSResourceRecode.Class r)
            ++ u32Bytes (DNSResourceRecode.TTL r)
            ++ u16Bytes (DNSResourceRecode.RDLength r)
            ++ rdata)
      /\ binary.BigEndian_Uint16 (u16Bytes (DNSResourceRecode.RDLength r))
         = Some (DNSResourceRecode.RDLength r)
      /\ (List.length rdata = 4%nat \/ rdata = []))
  /\ (forall (parseIPv6 : string -> net.IP) (r : DNSResourceRecode.t)
             (a b c d : byte),
         DNSResourceRecode.Class r = DNSClassIn ->
         DNSResourceRecode.RData r = net.IP_String (net.IPv4 a b c d) ->
         DNSResourceRecode.ToByte parseIPv6 r
         = Ok (nameOrPointer r
               ++ u16Bytes (DNSResourceRecode.RRType r)
               ++ u16Bytes (DNSResourceRecode.Class r)
               ++ u32Bytes (DNSResourceRecode.TTL r)
               ++ u16Bytes (DNSResourceRecode.RDLength r)
               ++ [a; b; c; d]))
  /\ (forall (parseIPv6 : string -> net.IP) (len : Z),
         uint16 len ->
         DNSResourceRecode.ToByte parseIPv6 (addressRecode len)
         = Ok ([xc0; x0c; x00; x01; x00; x01; x00; x00; x01; x2c]
               ++ u16Bytes len ++ [x0a; x00; x00; x01])
         /\ DNSResourceRecode.ToByte parseIPv6 (noAddressRecode len)
            = Ok ([xc0; x0c; x00; x01; x00; x01; x00; x00; x01; x2c]
                  ++ u16Bytes len)
         /\ binary.BigEndian_Uint16 (u16Bytes len) = Some len).
Proof.
  assert (Hbytes : forall parseIPv6 r,
             DNSResourceRecode.Class r = DNSClassIn ->
             DNSResourceRecode.ToByte parseIPv6 r
             = Ok (nameOrPointer r
                   ++ u16Bytes (DNSResourceRecode.RRType r)
                   ++ u16Bytes (DNSResourceRecode.Class r)
                   ++ u32Bytes (DNSResourceRecode.TTL r)
                   ++ u16Bytes (DNSResourceRecode.RDLength r)
                   ++ net.To4 (net.ParseIP parseIPv6
                                 (DNSResourceRecode.RData r)))).
  { intros parseIPv6 r Hc. unfold DNSResourceRecode.ToByte.
    destruct (Z.eqb_spec (DNSResourceRecode.Class r) DNSClassIn);
      [|contradiction].
    rewrite writeFixed_eq. unfold binary.Write_bytes.
    now rewrite <- !app_assoc. }
  assert (Hlen : forall len,
             uint16 len -> binary.BigEndian_Uint16 (u16Bytes len) = Some len).
  { intros len Hl. unfold u16Bytes. rewrite BigEndian_Uint16_cons. f_equal.
    apply uint16_bytes_value. exact Hl. }
  split; [|split].
  - intros parseIPv6 r Hc Hl rdata. split; [|split].
    + now apply Hbytes.
    + now apply Hlen.
    + apply To4_length.
  - intros parseIPv6 r a b c d Hc Hd.
    rewrite (Hbytes parseIPv6 r Hc), Hd, ParseIP_IP_String, To4_IPv4.
    reflexivity.
  - intros parseIPv6 len Hl. split; [|split].
    + rewrite (Hbytes parseIPv6 (addressRecode len) eq_refl).
      change (DNSResourceRecode.RData (addressRecode len))
        with (net.IP_String (net.IPv4 x0a x00 x00 x01)).
      rewrite ParseIP_IP_String, To4_IPv4. reflexivity.
    + rewrite (Hbytes parseIPv6 (noAddressRecode len) eq_refl).
      cbn [DNSResourceRecode.RData noAddressRecode].
      change (net.To4 (net.ParseIP parseIPv6 "not-an-ip")) with (@nil byte).
      rewrite app_nil_r. reflexivity.
    + now apply Hlen.
Qed.

Lemma ToByte_RData_unchecked_witness :
  (DNSResourceRecode.Class pointerRecode = DNSClassIn
   /\ DNSResourceRecode.RData pointerRecode
      = net.IP_String (net.IPv4 xc0 xa8 x00 xff)
   /\ DNSResourceRecode.ToByte noIPv6 pointerRecode
      = Ok (nameOrPointer pointerRecode
            ++ u16Bytes (DNSResourceRecode.RRType pointerRecode)
            ++ u16Bytes (DNSResourceRecode.Class pointerRecode)
            ++ u32Bytes (DNSResourceRecode.TTL pointerRecode)
            ++ u16Bytes (DNSResourceRecode.RDLength pointerRecode)
            ++ [xc0; xa8; x00; xff]))
  /\ (uint16 (DNSResourceRecode.RDLength badAddressRecode)
      /\ DNSResourceRecode.ToByte noIPv6 badAddressRecode
         = Ok (nameOrPointer badAddressRecode
               ++ u16Bytes (DNSResourceRecode.RRType badAddressRecode)
               ++ u16Bytes (DNSResourceRecode.Class badAddressRecode)
               ++ u32Bytes (DNSResourceRecode.TTL badAddressRecode)
               ++ u16Bytes (DNSResourceRecode.RDLength badAddressRecode)
               ++ net.To4 (net.ParseIP noIPv6
                             (DNSResourceRecode.RData badAddressRecode))))
  /\ (uint16 0
      /\ DNSResourceRecode.ToByte netip.parseIPv6 (addressRecode 0)
         = Ok ([xc0; x0c; x00; x01; x00; x01; x00; x00; x01; x2c]
               ++ u16Bytes 0 ++ [x0a; x00; x00; x01])).
Proof.
  assert (H4 : uint16 (DNSResourceRecode.RDLength badAddressRecode))
    by (unfold uint16; simpl; lia).
  assert (H0 : uint16 0) by (unfold uint16; lia).
  split; [|split].
  - split; [reflexivity | split; [reflexivity |]].
    exact (proj1 (proj2 ToByte_RData_unchecked) noIPv6 pointerRecode
                 xc0 xa8 x00 xff eq_refl eq_refl).
  - split; [exact H4 |].
    exact (proj1 (proj1 ToByte_RData_unchecked noIPv6 badAddressRecode
                    eq_refl H4)).
  - split; [exact H0 |].
    exact (proj1 (proj2 (proj2 ToByte_RData_unchecked) netip.parseIPv6 0 H0)).
Defined.

(** ** Reading from a buffer

    The decoders are followed through the unread bytes of the buffer: each
    lemma says what a read returns and what it leaves unread. *)

Lemma unread_advance (b : bytes.Buffer) (k : nat) (op : bytes.readOp) :
  bytes.unread (bytes.mkBuffer (bytes.buf b) (bytes.off b + k) op)
  = skipn k (bytes.unread b).
Proof.
  unfold bytes.unread. simpl. now rewrite skipn_skipn, Nat.add_comm.
Qed.

Lemma skipn_min_length {A : Type} (n : nat) (l : list A) :
  skipn (Nat.min n (List.length l)) l = skipn n l.
Proof.
  destruct (Nat.le_ge_cases n (List.length l)) as [H|H].
  - now rewrite Nat.min_l.
  - rewrite Nat.min_r by exact H. now rewrite !skipn_all2 by lia.
Qed.

Lemma bind_ok {A B : Type} (m : M A) (k : A -> M B) (b b' : bytes.Buffer)
      (a : A) :
  m b = Ok (a, b') -> bind m k b = k a b'.
Proof. intros E. unfold bind. now rewrite E. Qed.

Lemma bind_panic {A B : Type} (m : M A) (k : A -> M B) (b : bytes.Buffer)
      (p : runtime_error) :
  m b = Panic p -> bind m k b = Panic p.
Proof. intros E. unfold bind. now rewrite E. Qed.

Lemma bind_err {A B : Type} (m : M A) (k : A -> M B) (b : bytes.Buffer)
      (e : error) :
  m b = Err e -> bind m k b = Err e.
Proof. intros E. unfold bind. now rewrite E. Qed.

Lemma Next_ok (n : nat) (b : bytes.Buffer) :
  exists b',
    Next n b = Ok (firstn n (bytes.unread b), b')
    /\ bytes.unread b' = skipn n (bytes.unread b).
Proof.
  unfold Next, bytes.Next. eexists. split; [reflexivity|].
  rewrite unread_advance, length_firstn. apply skipn_min_length.
Qed.

Lemma Uint16_Next_ok (b : bytes.Buffer) (x y : byte) (l : list byte) :
  bytes.unread b = x :: y :: l ->
  exists b',
    Uint16_Next b = Ok (byte_to_Z x * 256 + byte_to_Z y, b')
    /\ bytes.unread b' = l.
Proof.
  intros Hu. destruct (Next_ok 2 b) as (b' & E & Hu').
  rewrite Hu in E, Hu'. exists b'. split; [|exact Hu'].
  unfold Uint16_Next. rewrite (bind_ok _ _ _ _ _ E).
  cbn [firstn]. now rewrite BigEndian_Uint16_cons.
Qed.

Lemma Uint16_Next_short (b : bytes.Buffer) :
  (List.length (bytes.unread b) < 2)%nat ->
  Uint16_Next b = Panic index_out_of_range.
Proof.
  intros Hlen. destruct (Next_ok 2 b) as (b' & E & _).
  unfold Uint16_Next. rewrite (bind_ok _ _ _ _ _ E).
  destruct (bytes.unread b) as [|x [|y l]]; [reflexivity | reflexivity |].
  simpl in Hlen. lia.
Qed.

(** [buffer.Next(1)[0]] followed by [buffer.UnreadByte()] looks at the
    first byte and leaves it unread; [UnreadByte] cannot fail there. *)
Lemma Next1_UnreadByte {A : Type} (k : byte -> M A) (b : bytes.Buffer)
      (x : byte) (l : list byte) :
  bytes.unread b = x :: l ->
  exists b',
    (b0 <- Next1 ;; _ <- UnreadByte ;; k b0) b = k x b'
    /\ bytes.unread b' = x :: l.
Proof.
  intros Hu.
  exists (bytes.mkBuffer (bytes.buf b) (bytes.off b) bytes.opInvalid).
  split; [|exact Hu].
  unfold bind at 1. unfold Next1, bind, Next, bytes.Next.
  rewrite Hu. simpl. rewrite Nat.add_1_r. reflexivity.
Qed.

Lemma ReadFull_inv (n : nat) (b b' : bytes.Buffer) (data : list byte) :
  bytes.ReadFull n b = Ok (data, b') ->
  bytes.unread b = data ++ bytes.unread b' /\ List.length data = n.
Proof.
  unfold bytes.ReadFull. destruct n as [|n].
  - intros [= <- <-]. now split.
  - set (m := S n). clearbody m.
    destruct (Nat.eqb_spec (List.length (firstn m (bytes.unread b))) m)
      as [Hl|Hl].
    + intros [= <- <-]. rewrite unread_advance.
      split; [symmetry; apply firstn_skipn | exact Hl].
    + destruct (firstn m (bytes.unread b)); discriminate.
Qed.

Lemma ReadFull_ok (b : bytes.Buffer) (data l : list byte) :
  bytes.unread b = data ++ l ->
  exists b',
    bytes.ReadFull (List.length data) b = Ok (data, b')
    /\ bytes.unread b' = l.
Proof.
  intros Hu. unfold bytes.ReadFull.
  destruct (List.length data) as [|n] eqn:En.
  - apply length_zero_iff_nil in En. subst data. now exists b.
  - rewrite <- En, Hu, firstn_app, Nat.sub_diag, firstn_all, firstn_O.
    rewrite app_nil_r, Nat.eqb_refl. eexists. split; [reflexivity|].
    rewrite unread_advance, Hu, skipn_app, Nat.sub_diag, skipn_all.
    reflexivity.
Qed.

Lemma ReadFull_short (n : nat) (b : bytes.Buffer) :
  (List.length (bytes.unread b) < n)%nat ->
  bytes.ReadFull n b
  = Err (match bytes.unread b with
         | [] => io_EOF
         | _ :: _ => io_ErrUnexpectedEOF
         end).
Proof.
  intros Hlen. unfold bytes.ReadFull. destruct n as [|n]; [lia|].
  destruct (Nat.eqb_spec (List.length (firstn (S n) (bytes.unread b)))
                         (S n)) as [Hl|Hl].
  - rewrite length_firstn in Hl. lia.
  - destruct (bytes.unread b); reflexivity.
Qed.

Lemma Read_uint8_ok (b : bytes.Buffer) (x : byte) (l : list byte) :
  bytes.unread b = x :: l ->
  exists b',
    binary.Read_uint8 b = Ok (byte_to_Z x, b') /\ bytes.unread b' = l.
Proof.
  intros Hu. destruct (ReadFull_ok b [x] l Hu) as (b' & E & Hu').
  exists b'. split; [|exact Hu']. unfold binary.Read_uint8.
  simpl List.length in E. now rewrite E.
Qed.

Lemma Read_uint8_empty (b : bytes.Buffer) :
  bytes.unread b = [] -> binary.Read_uint8 b = Err io_EOF.
Proof.
  intros Hu. unfold binary.Read_uint8.
  rewrite ReadFull_short by (rewrite Hu; simpl; lia). now rewrite Hu.
Qed.

Lemma Read_uint8_inv (b b' : bytes.Buffer) (v : Z) :
  binary.Read_uint8 b = Ok (v, b') ->
  List.length (bytes.unread b) = S (List.length (bytes.unread b')).
Proof.
  unfold binary.Read_uint8.
  destruct (bytes.ReadFull 1 b) as [[data b1]| | |] eqn:E; try discriminate.
  apply ReadFull_inv in E. destruct E as [Hu Hl].
  destruct data as [|x [|y data]]; try discriminate.
  intros E. inversion E. subst. rewrite Hu. reflexivity.
Qed.

(** ** Reading a name *)

Lemma wrap_ok {A : Type} (m : M A) (message : string) (b b' : bytes.Buffer)
      (a : A) :
  m b = Ok (a, b') -> wrap m message b = Ok (a, b').
Proof. intros E. unfold wrap. now rewrite E. Qed.

Lemma wrap_err {A : Type} (m : M A) (message : string) (b : bytes.Buffer)
      (e : error) :
  m b = Err e -> wrap m message b = Err (WithMessage e message).
Proof. intros E. unfold wrap. now rewrite E. Qed.

Lemma readSegments_done (fuel : nat) (length : Z) (segments : list string) :
  length <= 0 -> readSegments fuel length segments = ret segments.
Proof.
  intros Hl. destruct fuel; simpl;
    destruct (Z.ltb_spec 0 length); try lia; reflexivity.
Qed.

Lemma readSegments_turn (fuel : nat) (length : Z) (segments : list string) :
  0 < length ->
  readSegments (S fuel) length segments
  = (seg <- wrap (binary.Read_bytes (Z.to_nat length)) "read seg" ;;
     length' <- wrap binary.Read_uint8 "read length" ;;
     readSegments fuel length' (segments ++ [string_of_list_byte seg])).
Proof.
  intros Hl. simpl. destruct (Z.ltb_spec 0 length); [reflexivity | lia].
Qed.

Lemma ReadFull_answer (n : nat) (b : bytes.Buffer) :
  bytes.ReadFull n b <> OutOfFuel.
Proof.
  unfold bytes.ReadFull. destruct n; [discriminate|].
  destruct (Nat.eqb _ _); [discriminate|].
  destruct (firstn _ _); discriminate.
Qed.

Lemma Read_uint8_answer (b : bytes.Buffer) :
  binary.Read_uint8 b <> OutOfFuel.
Proof.
  unfold binary.Read_uint8. pose proof (ReadFull_answer 1 b) as H.
  destruct (bytes.ReadFull 1 b) as [[[|x bs] b']| | |];
    try discriminate. contradiction.
Qed.

(** The loop gives an answer whenever its bound exceeds the number of
    unread bytes. *)
Lemma readSegments_total (fuel : nat) :
  forall length segments b,
    (List.length (bytes.unread b) < fuel)%nat ->
    readSegments fuel length segments b <> OutOfFuel.
Proof.
  induction fuel as [|fuel IH]; intros length segments b Hlen; [lia|].
  destruct (Z.ltb_spec 0 length) as [Hl|Hl].
  - rewrite readSegments_turn by exact Hl. unfold bind, wrap.
    unfold binary.Read_bytes.
    destruct (bytes.ReadFull (Z.to_nat length) b) as [[seg b1]| | |] eqn:E1;
      simpl; try discriminate; [|now apply ReadFull_answer in E1].
    apply ReadFull_inv in E1. destruct E1 as [Hu1 _].
    destruct (binary.Read_uint8 b1) as [[l b2]| | |] eqn:E2;
      simpl; try discriminate; [|now apply Read_uint8_answer in E2].
    apply Read_uint8_inv in E2. apply IH.
    rewrite Hu1, length_app in Hlen. lia.
  - rewrite readSegments_done by exact Hl. discriminate.
Qed.

Lemma bind_answer {A B : Type} (m : M A) (k : A -> M B) (b : bytes.Buffer) :
  m b <> OutOfFuel ->
  (forall a b', m b = Ok (a, b') -> k a b' <> OutOfFuel) ->
  bind m k b <> OutOfFuel.
Proof.
  intros Hm Hk. unfold bind.
  destruct (m b) as [[a b']| | |]; try discriminate; [|contradiction].
  now apply Hk.
Qed.

Lemma wrap_answer {A : Type} (m : M A) (message : string) (b : bytes.Buffer) :
  m b <> OutOfFuel -> wrap m message b <> OutOfFuel.
Proof.
  intros Hm. unfold wrap. destruct (m b); try discriminate. contradiction.
Qed.

Lemma Uint16_Next_answer (b : bytes.Buffer) : Uint16_Next b <> OutOfFuel.
Proof.
  unfold Uint16_Next. apply bind_answer; [discriminate|].
  intros bs b' _. destruct (binary.BigEndian_Uint16 bs); discriminate.
Qed.

(** [NewDNSQuestion] always gives an answer: the bound of its loop, the
    number of unread bytes, is never reached. *)
Theorem NewDNSQuestion_total (b : bytes.Buffer) :
  NewDNSQuestion b <> OutOfFuel.
Proof.
  unfold NewDNSQuestion. apply bind_answer.
  - unfold readName. apply bind_answer.
    + apply wrap_answer, Read_uint8_answer.
    + intros l b1 E1. apply bind_answer; [|discriminate].
      apply readSegments_total.
      unfold wrap in E1.
      destruct (binary.Read_uint8 b) as [[l' b1']| | |] eqn:E;
        try discriminate.
      injection E1 as -> ->. apply Read_uint8_inv in E.
      unfold bytes.Len. lia.
  - intros name b1 _. apply bind_answer; [apply Uint16_Next_answer|].
    intros t b2 _. apply bind_answer; [apply Uint16_Next_answer|].
    discriminate.
Qed.

Lemma validLabel_byteLabel (seg : string) : validLabel seg -> byteLabel seg.
Proof. unfold validLabel, byteLabel. lia. Qed.

Lemma byteLabel_length (seg : string) :
  byteLabel seg ->
  byte_to_Z (byte_of_Z (Z.of_nat (String.length seg)))
  = Z.of_nat (String.length seg).
Proof.
  unfold byteLabel. intros H. rewrite byte_to_of_Z. apply Z.mod_small. lia.
Qed.

(** Reading the segments that were written: [seg0] is the segment whose
    length byte has just been read. *)
Lemma readSegments_written (segs : list string) :
  forall seg0 fuel acc b rest,
    Forall byteLabel (seg0 :: segs) ->
    (List.length segs < fuel)%nat ->
    bytes.unread b
    = list_byte_of_string seg0 ++ flat_map segmentBytes segs ++ x00 :: rest ->
    exists b',
      readSegments fuel (Z.of_nat (String.length seg0)) acc b
      = Ok (acc ++ seg0 :: segs, b')
      /\ bytes.unread b' = rest.
Proof.
  induction segs as [|seg1 segs IH]; intros seg0 fuel acc b rest Hv Hf Hu;
    (destruct fuel as [|fuel]; [lia|]);
    inversion Hv as [|? ? Hv0 Hvs]; subst;
    (rewrite readSegments_turn by (unfold byteLabel in Hv0; lia));
    rewrite Nat2Z.id, <- (length_list_byte_of_string seg0);
    destruct (ReadFull_ok b _ _ Hu) as (b1 & E1 & Hu1);
    rewrite (bind_ok _ _ _ _ _ (wrap_ok _ _ _ _ _ E1));
    rewrite string_of_list_byte_of_string.
  - simpl in Hu1.
    destruct (Read_uint8_ok b1 _ _ Hu1) as (b2 & E2 & Hu2).
    rewrite (bind_ok _ _ _ _ _ (wrap_ok _ _ _ _ _ E2)).
    rewrite readSegments_done by (vm_compute; discriminate).
    exists b2. split; [reflexivity | exact Hu2].
  - cbn [flat_map] in Hu1. unfold segmentBytes at 1 in Hu1.
    rewrite <- app_assoc in Hu1. rewrite <- app_comm_cons in Hu1.
    destruct (Read_uint8_ok b1 _ _ Hu1) as (b2 & E2 & Hu2).
    rewrite (bind_ok _ _ _ _ _ (wrap_ok _ _ _ _ _ E2)).
    inversion Hvs as [|? ? Hv1 _]; subst.
    rewrite (byteLabel_length _ Hv1).
    destruct (IH seg1 fuel (acc ++ [seg0]) b2 rest Hvs) as (b3 & E3 & Hu3);
      [simpl in Hf; lia | exact Hu2 |].
    exists b3. split; [|exact Hu3].
    rewrite E3, <- app_assoc. reflexivity.
Qed.

Lemma Join_Split (s : string) :
  strings.Join (strings.Split s ".") "." = s.
Proof.
  unfold strings.Join.
  induction s as [|c s IH]; [reflexivity|].
  cbn [strings.Split].
  pose proof (Split_not_nil s ".") as Hne.
  destruct (Ascii.eqb_spec c ".") as [->|Hc].
  - destruct (strings.Split s ".") as [|seg segs]; [contradiction|].
    change (concat "." (""%string :: seg :: segs))
      with (String "." (concat "." (seg :: segs))).
    now rewrite IH.
  - destruct (strings.Split s ".") as [|seg segs]; [contradiction|].
    destruct segs; rewrite <- IH; reflexivity.
Qed.

Lemma length_flat_map_segments (segs : list string) :
  (List.length segs <= List.length (flat_map segmentBytes segs))%nat.
Proof.
  induction segs as [|seg segs IH]; [reflexivity|].
  cbn [flat_map]. rewrite length_app, length_segmentBytes. simpl. lia.
Qed.

(** The name part of the decoder reads back a written name. *)
Lemma readName_written (name : string) (b : bytes.Buffer) (rest : list byte) :
  Forall byteLabel (strings.Split name ".") ->
  bytes.unread b = writeName [] name ++ rest ->
  exists b', readName b = Ok (name, b') /\ bytes.unread b' = rest.
Proof.
  intros Hv Hu. rewrite writeName_eq in Hu. simpl app in Hu.
  pose proof (Join_Split name) as HJ.
  pose proof (Split_not_nil name ".") as Hne.
  destruct (strings.Split name ".") as [|seg0 segs]; [contradiction|].
  cbn [flat_map] in Hu. unfold segmentBytes at 1 in Hu.
  rewrite <- !app_assoc in Hu. rewrite <- app_comm_cons in Hu.
  simpl app in Hu.
  destruct (Read_uint8_ok b _ _ Hu) as (b1 & E1 & Hu1).
  pose proof (Forall_inv Hv) as Hv0.
  unfold readName.
  rewrite (bind_ok _ _ _ _ _ (wrap_ok _ _ _ _ _ E1)).
  rewrite (byteLabel_length _ Hv0).
  destruct (readSegments_written segs seg0 (bytes.Len b) [] b1 rest Hv)
    as (b2 & E2 & Hu2).
  - unfold bytes.Len. rewrite Hu. simpl.
    rewrite !length_app. pose proof (length_flat_map_segments segs). lia.
  - exact Hu1.
  - rewrite (bind_ok _ _ _ _ _ E2). simpl app. unfold ret.
    exists b2. rewrite HJ. split; [reflexivity | exact Hu2].
Qed.

(** ** Reading a resource record *)

Lemma be16_range (x y : byte) : uint16 (be16 x y).
Proof.
  unfold uint16, be16.
  pose proof (byte_to_Z_range x). pose proof (byte_to_Z_range y). lia.
Qed.

Lemma lor_be16 (x y : byte) :
  Z.lor (byte_to_Z y) (Z.shiftl (byte_to_Z x) 8) = be16 x y.
Proof.
  pose proof (BigEndian_Uint16_cons x y []) as H.
  unfold binary.BigEndian_Uint16 in H. now injection H.
Qed.

Lemma lor_be32 (x y z w : byte) :
  Z.lor (Z.lor (Z.lor (byte_to_Z w) (Z.shiftl (byte_to_Z z) 8))
               (Z.shiftl (byte_to_Z y) 16))
        (Z.shiftl (byte_to_Z x) 24)
  = be32 x y z w.
Proof.
  pose proof (BigEndian_Uint32_cons x y z w []) as H.
  unfold binary.BigEndian_Uint32 in H. now injection H.
Qed.

(** [(v << 2) >> 2] on a [uint16] keeps the low fourteen bits. *)
Lemma shl_shr_14 (v : Z) : uint16 v -> shr16 (shl16 v 2) 2 = v mod 16384.
Proof.
  unfold uint16, shr16, shl16. intros Hv.
  rewrite Z.shiftr_div_pow2, Z.shiftl_mul_pow2 by lia.
  change (2 ^ 2) with 4. Z.div_mod_to_equations. lia.
Qed.

(** The first byte carries the pointer tag exactly when it is at least
    0xC0. *)
Lemma tag_pointer (x : byte) :
  Z.shiftr (byte_to_Z x) 6 = 3 <-> 192 <= byte_to_Z x.
Proof.
  pose proof (byte_to_Z_range x).
  rewrite Z.shiftr_div_pow2 by lia. change (2 ^ 6) with 64.
  split; intros; Z.div_mod_to_equations; lia.
Qed.

(** A record that starts with a pointer and holds an A record's RDATA. *)
Lemma NewDNSResourceRecode_pointer_A
      (x0 x1 t0 t1 c0 c1 l0 l1 l2 l3 n0 n1 a b c d : byte)
      (rest : list byte) :
  192 <= byte_to_Z x0 ->
  be16 t0 t1 = 1 ->
  be16 n0 n1 = 4 ->
  exists b',
    NewDNSResourceRecode
      (bytes.NewBuffer
         (x0 :: x1 :: t0 :: t1 :: c0 :: c1 :: l0 :: l1 :: l2 :: l3
             :: n0 :: n1 :: a :: b :: c :: d :: rest))
    = Ok ({| DNSResourceRecode.Name := EmptyString;
             DNSResourceRecode.NamePos := be16 x0 x1 mod 16384;
             DNSResourceRecode.RRType := 1;
             DNSResourceRecode.Class := be16 c0 c1;
             DNSResourceRecode.TTL := be32 l0 l1 l2 l3;
             DNSResourceRecode.RDLength := 4;
             DNSResourceRecode.RData := net.IP_String (net.IPv4 a b c d) |},
          b')
    /\ bytes.unread b' = rest.
Proof.
  intros Htag Hty Hlen. apply tag_pointer in Htag.
  run_decoder. rewrite Htag, Z.eqb_refl. run_decoder.
  rewrite ?lor_be32, ?lor_be16, Hty, Hlen, !Z.eqb_refl.
  cbv [andb]. run_decoder.
  rewrite shl_shr_14 by apply be16_range.
  eexists. split; reflexivity.
Qed.

(** A record that starts with a pointer: the two bytes give [NamePos],
    and the fixed fields are read right after them. *)
Lemma NewDNSResourceRecode_pointer
      (x0 x1 t0 t1 c0 c1 l0 l1 l2 l3 n0 n1 : byte) (rest : list byte) :
  192 <= byte_to_Z x0 ->
  (be16 t0 t1 = 1 -> be16 n0 n1 = 4 -> (4 <= List.length rest)%nat) ->
  exists r b',
    NewDNSResourceRecode
      (bytes.NewBuffer
         (x0 :: x1 :: t0 :: t1 :: c0 :: c1 :: l0 :: l1 :: l2 :: l3
             :: n0 :: n1 :: rest))
    = Ok (r, b')
    /\ DNSResourceRecode.NamePos r = be16 x0 x1 mod 16384
    /\ DNSResourceRecode.Name r = EmptyString
    /\ DNSResourceRecode.RRType r = be16 t0 t1
    /\ DNSResourceRecode.Class r = be16 c0 c1
    /\ DNSResourceRecode.TTL r = be32 l0 l1 l2 l3
    /\ DNSResourceRecode.RDLength r = be16 n0 n1.
Proof.
  intros Htag Hrest.
  destruct ((be16 t0 t1 =? 1) && (be16 n0 n1 =? 4)) eqn:Hc.
  - apply andb_true_iff in Hc. destruct Hc as [Hty Hlen].
    apply Z.eqb_eq in Hty. apply Z.eqb_eq in Hlen.
    specialize (Hrest Hty Hlen).
    destruct rest as [|a [|b [|c [|d rest]]]]; try (simpl in Hrest; lia).
    destruct (NewDNSResourceRecode_pointer_A
                x0 x1 t0 t1 c0 c1 l0 l1 l2 l3 n0 n1 a b c d rest
                Htag Hty Hlen) as (b' & E & _).
    eexists. exists b'. split; [exact E|].
    cbn. rewrite Hty, Hlen. repeat split; reflexivity.
  - apply tag_pointer in Htag.
    run_decoder. rewrite Htag, Z.eqb_refl. run_decoder.
    rewrite ?lor_be32, ?lor_be16, Hc.
    rewrite shl_shr_14 by apply be16_range.
    eexists. eexists. split; [reflexivity|].
    cbn. repeat split; reflexivity.
Qed.

(** No strict prefix of such a record of sixteen bytes can be read: the
    decoder runs out of bytes in an unchecked read. *)
Lemma NewDNSResourceRecode_prefix
      (x0 x1 t0 t1 c0 c1 l0 l1 l2 l3 n0 n1 a b c d : byte) (n : nat) :
  192 <= byte_to_Z x0 ->
  be16 t0 t1 = 1 ->
  be16 n0 n1 = 4 ->
  (n < 16)%nat ->
  NewDNSResourceRecode
    (bytes.NewBuffer
       (firstn n [x0; x1; t0; t1; c0; c1; l0; l1; l2; l3; n0; n1;
                  a; b; c; d]))
  = Panic index_out_of_range.
Proof.
  intros Htag Hty Hlen Hn. apply tag_pointer in Htag.
  do 16 (destruct n as [|n];
         [ run_decoder; rewrite ?Htag, ?Z.eqb_refl; run_decoder;
           rewrite ?lor_be32, ?lor_be16, ?Hty, ?Hlen, ?Z.eqb_refl;
           cbv [andb]; run_decoder; reflexivity | ]).
  lia.
Qed.

(** A header of fewer than twelve bytes cannot be read either. *)
Lemma NewDNSHeader_short (bs : list byte) :
  (List.length bs < 12)%nat ->
  NewDNSHeader (bytes.NewBuffer bs) = Panic index_out_of_range.
Proof.
  intros Hlen.
  do 12 (destruct bs as [|? bs]; [reflexivity|]).
  simpl in Hlen. lia.
Qed.

(** The word written for a pointer: the two top bits and the low fourteen
    bits of [NamePos]. *)
Lemma pointer_word_checked :
  all_from (Z.to_nat 65536) 0
    (fun v =>
       Z.lor (Z.lor (Z.shiftl 1 15) (Z.shiftl 1 14)) v
       =? 49152 + v mod 16384) = true.
Proof. vm_cast_no_check (eq_refl true). Qed.

Lemma pointer_word (v : Z) :
  uint16 v ->
  Z.lor (Z.lor (Z.shiftl 1 15) (Z.shiftl 1 14)) v = 49152 + v mod 16384.
Proof.
  intros Hv. pose proof (all_uint16 _ pointer_word_checked v Hv) as H.
  cbv beta in H. now apply Z.eqb_eq in H.
Qed.

(** ** Names and their labels *)

Lemma Split_dotFree (s : string) :
  dotFree s = true -> strings.Split s "." = [s].
Proof.
  induction s as [|c s IH]; [reflexivity|].
  cbn [dotFree strings.Split]. intros H.
  apply andb_true_iff in H. destruct H as [Hc Hs].
  destruct (Ascii.eqb c "."); [discriminate|]. now rewrite (IH Hs).
Qed.

Lemma Split_append_dot (s t : string) :
  dotFree s = true ->
  strings.Split (s ++ String "." t) "." = s :: strings.Split t ".".
Proof.
  induction s as [|c s IH]; [reflexivity|].
  cbn [dotFree strings.Split String.append]. intros H.
  apply andb_true_iff in H. destruct H as [Hc Hs].
  destruct (Ascii.eqb c "."); [discriminate|]. now rewrite (IH Hs).
Qed.

Lemma Split_Join (labels : list string) :
  labels <> [] ->
  Forall (fun l => dotFree l = true) labels ->
  strings.Split (strings.Join labels ".") "." = labels.
Proof.
  unfold strings.Join.
  induction labels as [|l labels IH]; [contradiction|].
  intros _ Hd. inversion Hd as [|? ? Hl Hls]; subst.
  destruct labels as [|l' labels].
  - now apply Split_dotFree.
  - change (concat "." (l :: l' :: labels))
      with (l ++ String "." (concat "." (l' :: labels)))%string.
    rewrite Split_append_dot by exact Hl.
    rewrite IH; [reflexivity | discriminate | exact Hls].
Qed.

(** The names of the specification, dot-joins of labels of one to
    sixty-three bytes, are valid names. *)
Lemma validName_Join (labels : list string) :
  labels <> [] ->
  Forall (fun l => validLabel l /\ dotFree l = true) labels ->
  validName (strings.Join labels ".").
Proof.
  intros Hne Hl. unfold validName. rewrite Split_Join.
  - eapply Forall_impl; [|exact Hl]. now intros l [H _].
  - exact Hne.
  - eapply Forall_impl; [|exact Hl]. now intros l [_ H].
Qed.

Lemma validName_byteLabels (name : string) :
  validName name -> Forall byteLabel (strings.Split name ".").
Proof.
  unfold validName. apply Forall_impl. exact validLabel_byteLabel.
Qed.

(** C4: a name whose labels have one to sixty-three bytes is read back
    from the bytes written for it, by the name part of [NewDNSQuestion]
    alone and by [NewDNSQuestion] on a whole question; the bytes that
    follow are left unread. *)
Theorem name_roundtrip (name : string) (rest : list byte) :
  validName name ->
  (exists b',
      readName (bytes.NewBuffer (writeName [] name ++ rest)) = Ok (name, b')
      /\ bytes.unread b' = rest)
  /\ (forall t c,
         uint16 t -> uint16 c ->
         exists bs b',
           DNSQuestion.ToByte (DNSQuestion.mk name t c) = Ok bs
           /\ NewDNSQuestion (bytes.NewBuffer (bs ++ rest))
              = Ok (DNSQuestion.mk name t c, b')
           /\ bytes.unread b' = rest).
Proof.
  intros Hv. apply validName_byteLabels in Hv. split.
  - apply readName_written; [exact Hv | reflexivity].
  - intros t c Ht Hc.
    destruct (readName_written name
                (bytes.NewBuffer
                   (writeName [] name
                    ++ [byte_of_Z (Z.shiftr t 8); byte_of_Z t;
                        byte_of_Z (Z.shiftr c 8); byte_of_Z c] ++ rest))
                _ Hv eq_refl) as (b1 & E1 & Hu1).
    simpl app in Hu1.
    destruct (Uint16_Next_ok b1 _ _ _ Hu1) as (b2 & E2 & Hu2).
    destruct (Uint16_Next_ok b2 _ _ _ Hu2) as (b3 & E3 & Hu3).
    rewrite uint16_bytes_value in E2 by exact Ht.
    rewrite uint16_bytes_value in E3 by exact Hc.
    eexists. exists b3. split; [reflexivity|]. split; [|exact Hu3].
    unfold binary.Write_uint16. cbn [DNSQuestion.QuestionName
      DNSQuestion.QuestionType DNSQuestion.QuestionClass].
    rewrite <- !app_assoc. unfold NewDNSQuestion.
    rewrite (bind_ok _ _ _ _ _ E1), (bind_ok _ _ _ _ _ E2),
      (bind_ok _ _ _ _ _ E3).
    reflexivity.
Qed.

Lemma name_roundtrip_witness :
  validName "example.com" /\
  exists b',
    readName (bytes.NewBuffer (writeName [] "example.com" ++ [x00; x01]))
    = Ok ("example.com"%string, b')
    /\ bytes.unread b' = [x00; x01].
Proof.
  assert (H : validName "example.com")
    by (repeat constructor; simpl; lia).
  split; [exact H | exact (proj1 (name_roundtrip "example.com" [x00; x01] H))].
Defined.

(** ** Truncated input *)

Lemma truncation_bind {A B : Type} (m : M A) (k : A -> M B)
      (b : bytes.Buffer) :
  truncation (m b) -> truncation (bind m k b).
Proof.
  intros (e & E & He). exists e. split; [|exact He].
  now apply bind_err.
Qed.

Lemma truncation_wrap {A : Type} (m : M A) (message : string)
      (b : bytes.Buffer) :
  truncation (m b) -> truncation (wrap m message b).
Proof.
  intros (e & E & He). exists (WithMessage e message).
  split; [now apply wrap_err | exact He].
Qed.

Lemma truncation_ReadFull (n : nat) (b : bytes.Buffer) :
  (List.length (bytes.unread b) < n)%nat ->
  truncation (bytes.ReadFull n b).
Proof.
  intros Hlen. eexists. split; [now apply ReadFull_short|].
  destruct (bytes.unread b); [now left | now right].
Qed.

Lemma truncation_Read_uint8 (b : bytes.Buffer) :
  bytes.unread b = [] -> truncation (binary.Read_uint8 b).
Proof.
  intros Hu. exists io_EOF. split; [now apply Read_uint8_empty | now left].
Qed.

(** The loop on a strict prefix of the written segments: [seg0] is the
    segment whose length byte has just been read. *)
Lemma readSegments_truncated (fuel : nat) :
  forall segs seg0 acc b n,
    Forall byteLabel (seg0 :: segs) ->
    (List.length (bytes.unread b) < fuel)%nat ->
    (n < List.length (list_byte_of_string seg0
                      ++ flat_map segmentBytes segs ++ [x00]))%nat ->
    bytes.unread b
    = firstn n (list_byte_of_string seg0
                ++ flat_map segmentBytes segs ++ [x00]) ->
    truncation (readSegments fuel (Z.of_nat (String.length seg0)) acc b).
Proof.
  induction fuel as [|fuel IH]; intros segs seg0 acc b n Hv Hf Hn Hu; [lia|].
  pose proof (Forall_inv Hv) as Hv0. pose proof (Forall_inv_tail Hv) as Hvs.
  rewrite readSegments_turn by (unfold byteLabel in Hv0; lia).
  rewrite Nat2Z.id, <- (length_list_byte_of_string seg0).
  set (bs0 := list_byte_of_string seg0) in *.
  assert (Hbs0 : (1 <= List.length bs0)%nat)
    by (unfold bs0; rewrite length_list_byte_of_string;
        unfold byteLabel in Hv0; lia).
  destruct (Nat.lt_ge_cases n (List.length bs0)) as [Hlt|Hge].
  - apply truncation_bind, truncation_wrap, truncation_ReadFull.
    rewrite Hu, length_firstn. lia.
  - rewrite firstn_app, (firstn_all2 bs0) in Hu by exact Hge.
    rewrite length_app in Hn.
    destruct (ReadFull_ok b _ _ Hu) as (b1 & E1 & Hu1).
    rewrite (bind_ok _ _ _ _ _ (wrap_ok _ _ _ _ _ E1)).
    assert (Hf1 : (List.length (bytes.unread b1) < fuel)%nat)
      by (rewrite Hu, length_app, <- Hu1 in Hf; lia).
    destruct (n - List.length bs0)%nat as [|m] eqn:Em.
    + apply truncation_bind, truncation_wrap, truncation_Read_uint8.
      now rewrite Hu1.
    + destruct segs as [|seg1 segs]; [simpl in Hn; lia|].
      cbn [flat_map] in Hu1, Hn. unfold segmentBytes at 1 in Hu1.
      unfold segmentBytes at 1 in Hn.
      rewrite <- app_assoc, <- app_comm_cons in Hu1, Hn.
      cbn [firstn] in Hu1.
      destruct (Read_uint8_ok b1 _ _ Hu1) as (b2 & E2 & Hu2).
      rewrite (bind_ok _ _ _ _ _ (wrap_ok _ _ _ _ _ E2)).
      rewrite (byteLabel_length _ (Forall_inv Hvs)).
      apply (IH segs seg1 _ b2 m Hvs).
      * rewrite Hu1 in Hf1. cbn [List.length] in Hf1.
        rewrite <- Hu2 in Hf1. lia.
      * cbn [List.length] in Hn. lia.
      * exact Hu2.
Qed.

Lemma readName_truncated (name : string) (b : bytes.Buffer) (n : nat) :
  Forall byteLabel (strings.Split name ".") ->
  (n < List.length (writeName [] name))%nat ->
  bytes.unread b = firstn n (writeName [] name) ->
  truncation (readName b).
Proof.
  intros Hv Hn Hu. rewrite writeName_eq in Hu, Hn. simpl app in Hu, Hn.
  pose proof (Split_not_nil name ".") as Hne.
  destruct (strings.Split name ".") as [|seg0 segs]; [contradiction|].
  cbn [flat_map] in Hu, Hn. unfold segmentBytes at 1 in Hu.
  unfold segmentBytes at 1 in Hn.
  rewrite <- app_assoc, <- app_comm_cons in Hu, Hn.
  unfold readName. destruct n as [|n].
  - apply truncation_bind, truncation_wrap, truncation_Read_uint8.
    exact Hu.
  - cbn [firstn] in Hu.
    destruct (Read_uint8_ok b _ _ Hu) as (b1 & E1 & Hu1).
    rewrite (bind_ok _ _ _ _ _ (wrap_ok _ _ _ _ _ E1)).
    rewrite (byteLabel_length _ (Forall_inv Hv)).
    apply truncation_bind.
    apply (readSegments_truncated _ segs seg0 [] b1 n Hv).
    + unfold bytes.Len. rewrite Hu. cbn [List.length]. rewrite Hu1. lia.
    + cbn [List.length] in Hn. lia.
    + exact Hu1.
Qed.

(** [NewDNSQuestion] on the strict prefixes of a written question. *)
Lemma NewDNSQuestion_prefix (name : string) (t c : Z) (n : nat) :
  Forall byteLabel (strings.Split name ".") ->
  (n < List.length (writeName [] name) + 4)%nat ->
  let bs := writeName [] name
            ++ [byte_of_Z (Z.shiftr t 8); byte_of_Z t;
                byte_of_Z (Z.shiftr c 8); byte_of_Z c] in
  ((n < List.length (writeName [] name))%nat ->
   truncation (NewDNSQuestion (bytes.NewBuffer (firstn n bs))))
  /\ ((List.length (writeName [] name) <= n)%nat ->
      NewDNSQuestion (bytes.NewBuffer (firstn n bs))
      = Panic index_out_of_range).
Proof.
  intros Hv Hn bs. subst bs. rewrite firstn_app. split; intros Hk.
  - replace (n - List.length (writeName [] name))%nat with 0%nat by lia.
    rewrite firstn_O, app_nil_r.
    unfold NewDNSQuestion. apply truncation_bind.
    now apply (readName_truncated name _ n).
  - rewrite firstn_all2 by exact Hk.
    set (m := (n - List.length (writeName [] name))%nat).
    assert (Hm : (m < 4)%nat) by (unfold m; lia). clearbody m.
    destruct (readName_written name
                (bytes.NewBuffer (writeName [] name ++ firstn m
                   [byte_of_Z (Z.shiftr t 8); byte_of_Z t;
                    byte_of_Z (Z.shiftr c 8); byte_of_Z c]))
                _ Hv eq_refl) as (b1 & E1 & Hu1).
    unfold NewDNSQuestion. rewrite (bind_ok _ _ _ _ _ E1).
    destruct m as [|[|[|[|m]]]]; cbn [firstn] in Hu1; try lia.
    + apply bind_panic, Uint16_Next_short. rewrite Hu1. simpl. lia.
    + apply bind_panic, Uint16_Next_short. rewrite Hu1. simpl. lia.
    + destruct (Uint16_Next_ok b1 _ _ _ Hu1) as (b2 & E2 & Hu2).
      rewrite (bind_ok _ _ _ _ _ E2).
      apply bind_panic, Uint16_Next_short. rewrite Hu2. simpl. lia.
    + destruct (Uint16_Next_ok b1 _ _ _ Hu1) as (b2 & E2 & Hu2).
      rewrite (bind_ok _ _ _ _ _ E2).
      apply bind_panic, Uint16_Next_short. rewrite Hu2. simpl. lia.
Qed.

(** ** Records with a pointer name *)

(** The bytes of a record of class IN that names a position and carries
    the text of an IPv4 address. *)
Lemma ToByte_pointer_bytes (parseIPv6 : string -> net.IP)
      (r : DNSResourceRecode.t) (a b c d : byte) :
  0 < DNSResourceRecode.NamePos r ->
  DNSResourceRecode.Class r = DNSClassIn ->
  DNSResourceRecode.RData r = net.IP_String (net.IPv4 a b c d) ->
  DNSResourceRecode.ToByte parseIPv6 r
  = Ok (let p := Z.lor (Z.lor (Z.shiftl 1 15) (Z.shiftl 1 14))
                       (DNSResourceRecode.NamePos r) in
        [byte_of_Z (Z.shiftr p 8); byte_of_Z p;
         byte_of_Z (Z.shiftr (DNSResourceRecode.RRType r) 8);
         byte_of_Z (DNSResourceRecode.RRType r);
         byte_of_Z (Z.shiftr (DNSResourceRecode.Class r) 8);
         byte_of_Z (DNSResourceRecode.Class r);
         byte_of_Z (Z.shiftr (DNSResourceRecode.TTL r) 24);
         byte_of_Z (Z.shiftr (DNSResourceRecode.TTL r) 16);
         byte_of_Z (Z.shiftr (DNSResourceRecode.TTL r) 8);
         byte_of_Z (DNSResourceRecode.TTL r);
         byte_of_Z (Z.shiftr (DNSResourceRecode.RDLength r) 8);
         byte_of_Z (DNSResourceRecode.RDLength r);
         a; b; c; d]).
Proof.
  intros Hpos Hc Hd.
  unfold DNSResourceRecode.ToByte, DNSResourceRecode.writeFixed.
  destruct (Z.ltb_spec 0 (DNSResourceRecode.NamePos r)); [|lia].
  destruct (Z.leb_spec (DNSResourceRecode.NamePos r) 0); [lia|].
  destruct (Z.eqb_spec (DNSResourceRecode.Class r) DNSClassIn);
    [|contradiction].
  rewrite Hd, ParseIP_IP_String, To4_IPv4.
  reflexivity.
Qed.

Lemma pointer_bytes (np : Z) :
  uint16 np ->
  let p := Z.lor (Z.lor (Z.shiftl 1 15) (Z.shiftl 1 14)) np in
  192 <= byte_to_Z (byte_of_Z (Z.shiftr p 8))
  /\ be16 (byte_of_Z (Z.shiftr p 8)) (byte_of_Z p) mod 16384 = np mod 16384.
Proof.
  intros Hnp p. subst p. rewrite (pointer_word np Hnp).
  assert (Hp : uint16 (49152 + np mod 16384))
    by (unfold uint16 in *; Z.div_mod_to_equations; lia).
  unfold be16. rewrite (uint16_bytes_value _ Hp).
  rewrite byte_to_of_Z, Z.shiftr_div_pow2 by lia. change (2 ^ 8) with 256.
  unfold uint16 in *. split; Z.div_mod_to_equations; lia.
Qed.

Lemma be16_bytes (v : Z) :
  uint16 v -> be16 (byte_of_Z (Z.shiftr v 8)) (byte_of_Z v) = v.
Proof. apply uint16_bytes_value. Qed.

Lemma be32_bytes (v : Z) :
  uint32 v ->
  be32 (byte_of_Z (Z.shiftr v 24)) (byte_of_Z (Z.shiftr v 16))
       (byte_of_Z (Z.shiftr v 8)) (byte_of_Z v) = v.
Proof. apply uint32_bytes_value. Qed.

(** C1, as stated, fails.  A record with an inline name is written with
    its labels, which the decoder takes for the fixed fields: the name is
    lost and the type read is 0x0161.  A record that has both a name and
    a position is written as a pointer, and its name is not written. *)
Lemma record_name_not_read_back :
  (exists bs r' b',
      DNSResourceRecode.ToByte noIPv6 inlineRecode = Ok bs
      /\ NewDNSResourceRecode (bytes.NewBuffer bs) = Ok (r', b')
      /\ DNSResourceRecode.Name r' <> DNSResourceRecode.Name inlineRecode
      /\ DNSResourceRecode.RRType r' = 353
      /\ DNSResourceRecode.RRType r' <> DNSResourceRecode.RRType inlineRecode)
  /\ (exists bs r' b',
         DNSResourceRecode.ToByte noIPv6 namedPointerRecode = Ok bs
         /\ NewDNSResourceRecode (bytes.NewBuffer bs) = Ok (r', b')
         /\ DNSResourceRecode.Name r'
            <> DNSResourceRecode.Name namedPointerRecode).
Proof.
  split; eexists; eexists; eexists;
    (split; [vm_compute; reflexivity|]);
    (split; [vm_compute; reflexivity|]);
    repeat split; vm_compute; discriminate.
Qed.

(** C1, amended: a record that names a position ([NamePos] from 1 to
    65535) and no name, of type A and class IN, with a 32-bit TTL,
    RDLength 4 and the dotted-decimal text of an IPv4 address as RData, is
    read back from its bytes with the same Name, RRType, Class, TTL,
    RDLength and RData; [NamePos] comes back modulo 2^14, and the bytes
    that follow the record are left unread. *)
Theorem record_pointer_roundtrip (parseIPv6 : string -> net.IP)
        (r : DNSResourceRecode.t) (a b c d : byte) (rest : list byte) :
  0 < DNSResourceRecode.NamePos r < 65536 ->
  DNSResourceRecode.Name r = EmptyString ->
  DNSResourceRecode.RRType r = DNSTypeA ->
  DNSResourceRecode.Class r = DNSClassIn ->
  uint32 (DNSResourceRecode.TTL r) ->
  DNSResourceRecode.RDLength r = 4 ->
  DNSResourceRecode.RData r = net.IP_String (net.IPv4 a b c d) ->
  exists bs r' b',
    DNSResourceRecode.ToByte parseIPv6 r = Ok bs
    /\ NewDNSResourceRecode (bytes.NewBuffer (bs ++ rest)) = Ok (r', b')
    /\ bytes.unread b' = rest
    /\ DNSResourceRecode.Name r' = DNSResourceRecode.Name r
    /\ DNSResourceRecode.RRType r' = DNSResourceRecode.RRType r
    /\ DNSResourceRecode.Class r' = DNSResourceRecode.Class r
    /\ DNSResourceRecode.TTL r' = DNSResourceRecode.TTL r
    /\ DNSResourceRecode.RDLength r' = DNSResourceRecode.RDLength r
    /\ DNSResourceRecode.RData r' = DNSResourceRecode.RData r
    /\ DNSResourceRecode.NamePos r' = DNSResourceRecode.NamePos r mod 16384.
Proof.
  intros Hpos Hname Hty Hc Httl Hlen Hd.
  assert (Hnp : uint16 (DNSResourceRecode.NamePos r))
    by (unfold uint16; lia).
  destruct (pointer_bytes _ Hnp) as [Htag Hptr].
  rewrite (ToByte_pointer_bytes parseIPv6 r a b c d) by (lia || assumption).
  cbv zeta in *.
  set (p := Z.lor (Z.lor (Z.shiftl 1 15) (Z.shiftl 1 14))
                  (DNSResourceRecode.NamePos r)) in *.
  destruct (NewDNSResourceRecode_pointer_A
              (byte_of_Z (Z.shiftr p 8)) (byte_of_Z p)
              (byte_of_Z (Z.shiftr (DNSResourceRecode.RRType r) 8))
              (byte_of_Z (DNSResourceRecode.RRType r))
              (byte_of_Z (Z.shiftr (DNSResourceRecode.Class r) 8))
              (byte_of_Z (DNSResourceRecode.Class r))
              (byte_of_Z (Z.shiftr (DNSResourceRecode.TTL r) 24))
              (byte_of_Z (Z.shiftr (DNSResourceRecode.TTL r) 16))
              (byte_of_Z (Z.shiftr (DNSResourceRecode.TTL r) 8))
              (byte_of_Z (DNSResourceRecode.TTL r))
              (byte_of_Z (Z.shiftr (DNSResourceRecode.RDLength r) 8))
              (byte_of_Z (DNSResourceRecode.RDLength r))
              a b c d rest)
    as (b' & E & Hu);
    [exact Htag | rewrite Hty; reflexivity | rewrite Hlen; reflexivity |].
  eexists. eexists. exists b'. split; [reflexivity|].
  split; [exact E|]. split; [exact Hu|].
  cbn [DNSResourceRecode.Name DNSResourceRecode.RRType
       DNSResourceRecode.Class DNSResourceRecode.TTL
       DNSResourceRecode.RDLength DNSResourceRecode.RData
       DNSResourceRecode.NamePos].
  rewrite Hname, Hty, Hlen, Hd, Hptr.
  rewrite be16_bytes by (rewrite Hc; unfold uint16, DNSClassIn; lia).
  rewrite be32_bytes by exact Httl.
  repeat split; reflexivity.
Qed.

Lemma record_pointer_roundtrip_witness :
  exists bs r' b',
    DNSResourceRecode.ToByte noIPv6 pointerRecode = Ok bs
    /\ NewDNSResourceRecode (bytes.NewBuffer (bs ++ [x2a])) = Ok (r', b')
    /\ bytes.unread b' = [x2a]
    /\ DNSResourceRecode.Name r' = DNSResourceRecode.Name pointerRecode
    /\ DNSResourceRecode.RRType r' = DNSResourceRecode.RRType pointerRecode
    /\ DNSResourceRecode.Class r' = DNSResourceRecode.Class pointerRecode
    /\ DNSResourceRecode.TTL r' = DNSResourceRecode.TTL pointerRecode
    /\ DNSResourceRecode.RDLength r'
       = DNSResourceRecode.RDLength pointerRecode
    /\ DNSResourceRecode.RData r' = DNSResourceRecode.RData pointerRecode
    /\ DNSResourceRecode.NamePos r'
       = DNSResourceRecode.NamePos pointerRecode mod 16384.
Proof.
  apply (record_pointer_roundtrip noIPv6 pointerRecode xc0 xa8 x00 xff [x2a]).
  - simpl. lia.
  - reflexivity.
  - reflexivity.
  - reflexivity.
  - unfold uint32. simpl. lia.
  - reflexivity.
  - reflexivity.
Defined.

(** ** The decoders on truncated input *)

(** C5, as stated, fails.  Eleven of the twelve bytes of a header make
    [NewDNSHeader] panic, which is no truncation failure; and the first
    ten bytes of the record [inlineRecode], written on seventeen, are read
    as a whole record. *)
Lemma prefix_not_reported :
  (exists bs,
      DNSHeader.ToByte (DNSMessage.Header (LookUp_msg "example.com")) = Ok bs
      /\ (11 < List.length bs)%nat
      /\ NewDNSHeader (bytes.NewBuffer (firstn 11 bs))
         = Panic index_out_of_range
      /\ ~ truncation (NewDNSHeader (bytes.NewBuffer (firstn 11 bs))))
  /\ (exists bs r' b',
         DNSResourceRecode.ToByte noIPv6 inlineRecode = Ok bs
         /\ (10 < List.length bs)%nat
         /\ NewDNSResourceRecode (bytes.NewBuffer (firstn 10 bs))
            = Ok (r', b')).
Proof.
  split.
  - eexists. split; [vm_compute; reflexivity|].
    split; [simpl; lia|].
    assert (E : NewDNSHeader
                  (bytes.NewBuffer
                     (firstn 11 [x00; x01; x01; x00; x00; x01; x00; x00;
                                 x00; x00; x00; x00]))
                = Panic index_out_of_range) by reflexivity.
    split; [exact E|]. rewrite E. intros (e & He & _). discriminate.
  - eexists. eexists. eexists. split; [vm_compute; reflexivity|].
    split; [simpl; lia | vm_compute; reflexivity].
Qed.

Lemma Ok_inj {A : Type} (x y : A) : Ok x = Ok y -> x = y.
Proof. now intros [= ->]. Qed.

(** C5, amended: on a strict prefix of a written question whose labels
    have one to sixty-three bytes, [NewDNSQuestion] returns an error
    caused by [io.EOF] or [io.ErrUnexpectedEOF] when the prefix ends
    within the name, and panics with an index out of range when it ends
    within the type or the class.  [NewDNSHeader], which has no error
    result, panics on every strict prefix of a written header, and
    [NewDNSResourceRecode] panics on every strict prefix of a written
    record that names a position and is of type A, class IN and
    RDLength 4.  None of these calls returns a value. *)
Theorem decoders_on_strict_prefix :
  (forall (h : DNSHeader.t) (bs : list byte) (n : nat),
      DNSHeader.ToByte h = Ok bs ->
      (n < List.length bs)%nat ->
      NewDNSHeader (bytes.NewBuffer (firstn n bs))
      = Panic index_out_of_range)
  /\ (forall (q : DNSQuestion.t) (bs : list byte) (n : nat),
         validName (DNSQuestion.QuestionName q) ->
         DNSQuestion.ToByte q = Ok bs ->
         (n < List.length bs)%nat ->
         ((n < List.length (writeName [] (DNSQuestion.QuestionName q)))%nat ->
          truncation (NewDNSQuestion (bytes.NewBuffer (firstn n bs))))
         /\ ((List.length (writeName [] (DNSQuestion.QuestionName q)) <= n)%nat
             -> NewDNSQuestion (bytes.NewBuffer (firstn n bs))
                = Panic index_out_of_range))
  /\ (forall (parseIPv6 : string -> net.IP) (r : DNSResourceRecode.t)
             (a b c d : byte) (bs : list byte) (n : nat),
         0 < DNSResourceRecode.NamePos r < 65536 ->
         DNSResourceRecode.RRType r = DNSTypeA ->
         DNSResourceRecode.Class r = DNSClassIn ->
         DNSResourceRecode.RDLength r = 4 ->
         DNSResourceRecode.RData r = net.IP_String (net.IPv4 a b c d) ->
         DNSResourceRecode.ToByte parseIPv6 r = Ok bs ->
         (n < List.length bs)%nat ->
         NewDNSResourceRecode (bytes.NewBuffer (firstn n bs))
         = Panic index_out_of_range).
Proof.
  split; [|split].
  - intros h bs n E Hn. unfold DNSHeader.ToByte in E.
    injection E as <-. apply NewDNSHeader_short.
    rewrite length_firstn. simpl in Hn |- *. lia.
  - intros [name t c] bs n Hv E Hn.
    cbn [DNSQuestion.QuestionName] in *.
    unfold DNSQuestion.ToByte, binary.Write_uint16 in E.
    cbn [DNSQuestion.QuestionName DNSQuestion.QuestionType
         DNSQuestion.QuestionClass] in E.
    rewrite <- app_assoc in E. injection E as <-.
    rewrite length_app in Hn. simpl in Hn.
    apply (NewDNSQuestion_prefix name t c n);
      [now apply validName_byteLabels | exact Hn].
  - intros parseIPv6 r a b c d bs n Hpos Hty Hc Hlen Hd E Hn.
    assert (Hnp : uint16 (DNSResourceRecode.NamePos r))
      by (unfold uint16; lia).
    rewrite (ToByte_pointer_bytes parseIPv6 r a b c d) in E
      by (lia || assumption).
    apply Ok_inj in E. subst bs. cbv zeta in Hn |- *.
    cbn [List.length] in Hn.
    apply NewDNSResourceRecode_prefix.
    + apply (pointer_bytes _ Hnp).
    + rewrite Hty. reflexivity.
    + rewrite Hlen. reflexivity.
    + exact Hn.
Qed.

Lemma decoders_on_strict_prefix_witness :
  validName "example.com" /\
  (5 < List.length (writeName [] "example.com"))%nat /\
  truncation
    (NewDNSQuestion
       (bytes.NewBuffer
          (firstn 5 (writeName [] "example.com" ++ [x00; x01; x00; x01])))).
Proof.
  assert (H : validName "example.com")
    by (repeat constructor; simpl; lia).
  assert (H5 : (5 < List.length (writeName [] "example.com"))%nat)
    by (simpl; lia).
  split; [exact H | split; [exact H5 |]].
  refine (proj1 (proj1 (proj2 decoders_on_strict_prefix)
                   (DNSQuestion.mk "example.com" 1 1) _ 5%nat
                   H eq_refl _) H5).
  simpl. lia.
Defined.

(** ** Compression pointers *)

(** C8, as stated, fails for the name read by [NewDNSQuestion]: the byte
    0xC0 is taken as the length of a label of 192 bytes, which is missing
    in the first buffer and read in the second. *)
Lemma question_pointer_read_as_label :
  192 <= byte_to_Z xc0
  /\ NewDNSQuestion (bytes.NewBuffer [xc0; x0c; x00; x01; x00; x01])
     = Err (WithMessage io_ErrUnexpectedEOF "read seg")
  /\ exists q b',
       NewDNSQuestion
         (bytes.NewBuffer
            (xc0 :: x0c :: repeat x61 191 ++ [x00; x00; x01; x00; x01]))
       = Ok (q, b')
       /\ String.length (DNSQuestion.QuestionName q) = 192%nat.
Proof.
  split; [vm_compute; discriminate|].
  split; [vm_compute; reflexivity|].
  eexists. eexists. split; vm_compute; reflexivity.
Qed.

(** C8, amended: [NewDNSResourceRecode], the one decoder that looks at the
    tag, takes two bytes whose first is at least 0xC0 for a pointer:
    [NamePos] is the low fourteen bits of their big-endian value, no name
    is read, and type, class, TTL and RDLength are the ten bytes that come
    next.  (The record is read whenever enough bytes follow: four for the
    address of an A record of RDLength 4.) *)
Theorem pointer_recognised
        (x0 x1 t0 t1 c0 c1 l0 l1 l2 l3 n0 n1 : byte) (rest : list byte) :
  192 <= byte_to_Z x0 ->
  (be16 t0 t1 = 1 -> be16 n0 n1 = 4 -> (4 <= List.length rest)%nat) ->
  exists r b',
    NewDNSResourceRecode
      (bytes.NewBuffer
         (x0 :: x1 :: t0 :: t1 :: c0 :: c1 :: l0 :: l1 :: l2 :: l3
             :: n0 :: n1 :: rest))
    = Ok (r, b')
    /\ DNSResourceRecode.NamePos r
       = (byte_to_Z x0 * 256 + byte_to_Z x1) mod 16384
    /\ DNSResourceRecode.Name r = EmptyString
    /\ DNSResourceRecode.RRType r = be16 t0 t1
    /\ DNSResourceRecode.Class r = be16 c0 c1
    /\ DNSResourceRecode.TTL r = be32 l0 l1 l2 l3
    /\ DNSResourceRecode.RDLength r = be16 n0 n1.
Proof.
  intros Htag Hrest.
  exact (NewDNSResourceRecode_pointer x0 x1 t0 t1 c0 c1 l0 l1 l2 l3 n0 n1
           rest Htag Hrest).
Qed.

Lemma pointer_recognised_witness :
  exists r b',
    NewDNSResourceRecode
      (bytes.NewBuffer
         [xc0; x0c; x00; x05; x00; x01; x00; x00; x00; x3c; x00; x02;
          xc0; x10])
    = Ok (r, b')
    /\ DNSResourceRecode.NamePos r
       = (byte_to_Z xc0 * 256 + byte_to_Z x0c) mod 16384
    /\ DNSResourceRecode.Name r = EmptyString
    /\ DNSResourceRecode.RRType r = be16 x00 x05
    /\ DNSResourceRecode.Class r = be16 x00 x01
    /\ DNSResourceRecode.TTL r = be32 x00 x00 x00 x3c
    /\ DNSResourceRecode.RDLength r = be16 x00 x02.
Proof.
  apply (pointer_recognised xc0 x0c x00 x05 x00 x01 x00 x00 x00 x3c x00 x02
           [xc0; x10]).
  - vm_compute. discriminate.
  - intros H. vm_compute in H. discriminate.
Defined.

(** * Further properties of the codec *)

(** ** Packing flags *)

Lemma ToBit_sum (f : DNSFlags.t) :
  flagsInRange f ->
  DNSFlags.ToBit f
  = DNSFlags.QR f * 32768 + DNSFlags.OpCode f * 2048 + DNSFlags.AA f * 1024
    + DNSFlags.TC f * 512 + DNSFlags.RD f * 256 + DNSFlags.RA f * 128
    + DNSFlags.RCode f.
Proof.
  unfold flagsInRange. intros (Hq & Ho & Ha & Ht & Hd & Hr & Hc).
  unfold DNSFlags.ToBit, add16, shl16.
  rewrite !Z.shiftl_mul_pow2 by lia.
  change (2 ^ 15) with 32768. change (2 ^ 11) with 2048.
  change (2 ^ 10) with 1024. change (2 ^ 9) with 512.
  change (2 ^ 8) with 256. change (2 ^ 7) with 128.
  rewrite (Z.mod_small (DNSFlags.QR f * 32768)) by lia.
  rewrite (Z.mod_small (DNSFlags.OpCode f * 2048)) by lia.
  rewrite (Z.mod_small (DNSFlags.AA f * 1024)) by lia.
  rewrite (Z.mod_small (DNSFlags.TC f * 512)) by lia.
  rewrite (Z.mod_small (DNSFlags.RD f * 256)) by lia.
  rewrite (Z.mod_small (DNSFlags.RA f * 128)) by lia.
  rewrite (Z.mod_small (_ + DNSFlags.OpCode f * 2048)) by lia.
  rewrite (Z.mod_small (_ + DNSFlags.AA f * 1024)) by lia.
  rewrite (Z.mod_small (_ + DNSFlags.TC f * 512)) by lia.
  rewrite (Z.mod_small (_ + DNSFlags.RD f * 256)) by lia.
  rewrite (Z.mod_small (_ + DNSFlags.RA f * 128)) by lia.
  rewrite (Z.mod_small (_ + DNSFlags.RCode f)) by lia.
  reflexivity.
Qed.

Lemma unpack_sum (q o a t d r c : Z) :
  0 <= q < 2 -> 0 <= o < 16 -> 0 <= a < 2 -> 0 <= t < 2 -> 0 <= d < 2 ->
  0 <= r < 2 -> 0 <= c < 128 ->
  DNSFlags.unpack
    (q * 32768 + o * 2048 + a * 1024 + t * 512 + d * 256 + r * 128 + c)
  = DNSFlags.mk q o a t d r (c / 16) (c mod 16).
Proof.
  intros Hq Ho Ha Ht Hd Hr Hc. unfold DNSFlags.unpack, shr16.
  rewrite !Z.shiftr_div_pow2 by lia.
  change (Z.shiftl 1 4) with 16. change (Z.shiftl 1 1) with 2.
  change (Z.shiftl 1 3) with 8.
  change (2 ^ 15) with 32768. change (2 ^ 11) with 2048.
  change (2 ^ 10) with 1024. change (2 ^ 9) with 512.
  change (2 ^ 8) with 256. change (2 ^ 7) with 128. change (2 ^ 4) with 16.
  f_equal; Z.div_mod_to_equations; lia.
Qed.

(** X1: flags whose fields fit their bits are unpacked as they were
    packed, except that [Z] is not packed at all and that an [RCode] of
    sixteen or more spills into it: the unpacked [Z] is [RCode / 16] and
    the unpacked [RCode] is [RCode mod 16]. *)
Theorem flags_pack_unpack (f : DNSFlags.t) :
  flagsInRange f ->
  DNSFlags.unpack (DNSFlags.ToBit f)
  = {| DNSFlags.QR := DNSFlags.QR f;
       DNSFlags.OpCode := DNSFlags.OpCode f;
       DNSFlags.AA := DNSFlags.AA f;
       DNSFlags.TC := DNSFlags.TC f;
       DNSFlags.RD := DNSFlags.RD f;
       DNSFlags.RA := DNSFlags.RA f;
       DNSFlags.Z_ := DNSFlags.RCode f / 16;
       DNSFlags.RCode := DNSFlags.RCode f mod 16 |}.
Proof.
  intros Hf. rewrite (ToBit_sum f Hf).
  destruct Hf as (Hq & Ho & Ha & Ht & Hd & Hr & Hc).
  now apply unpack_sum.
Qed.

Lemma flags_pack_unpack_witness :
  flagsInRange (DNSFlags.mk 1 0 0 0 1 1 5 19)
  /\ DNSFlags.unpack (DNSFlags.ToBit (DNSFlags.mk 1 0 0 0 1 1 5 19))
     = DNSFlags.mk 1 0 0 0 1 1 1 3.
Proof.
  assert (H : flagsInRange (DNSFlags.mk 1 0 0 0 1 1 5 19))
    by (unfold flagsInRange; simpl; lia).
  split; [exact H | exact (flags_pack_unpack _ H)].
Defined.

(** ** Headers *)

(** Flags that fit their bits, with [Z = 0] and [RCode < 16], are
    unpacked as they were packed. *)
Lemma flags_unchanged (f : DNSFlags.t) :
  flagsInRange f -> DNSFlags.Z_ f = 0 -> DNSFlags.RCode f < 16 ->
  DNSFlags.unpack (DNSFlags.ToBit f) = f.
Proof.
  intros Hf Hz Hc. rewrite (ToBit_sum f Hf).
  destruct Hf as (Hq & Ho & Ha & Ht & Hd & Hr & Hrc).
  rewrite unpack_sum by assumption.
  rewrite Z.div_small, Z.mod_small by lia.
  destruct f; simpl in *. now subst.
Qed.

Lemma ToBit_range (f : DNSFlags.t) : uint16 (DNSFlags.ToBit f).
Proof.
  unfold uint16, DNSFlags.ToBit, add16. apply Z.mod_pos_bound. lia.
Qed.

Lemma ToBit_unpack (v : Z) :
  uint16 v ->
  DNSFlags.ToBit (DNSFlags.unpack v) = v - 16 * ((v / 16) mod 8).
Proof.
  intros Hv. pose proof (all_uint16 _ flags_checked v Hv) as H.
  cbv beta zeta in H.
  apply andb_true_iff in H. destruct H as [_ H]. apply Z.eqb_eq in H.
  rewrite H. unfold DNSFlags.unpack, shr16. cbn [DNSFlags.Z_].
  rewrite Z.shiftr_div_pow2 by lia. reflexivity.
Qed.

Lemma DNSHeader_ToByte_eq (h : DNSHeader.t) :
  DNSHeader.ToByte h = Ok (headerBytes h).
Proof. reflexivity. Qed.

Lemma u16Bytes_be16 (x y : byte) : u16Bytes (be16 x y) = [x; y].
Proof.
  unfold u16Bytes, be16.
  pose proof (byte_to_Z_range x). pose proof (byte_to_Z_range y).
  rewrite Z.shiftr_div_pow2 by lia. change (2 ^ 8) with 256.
  replace ((byte_to_Z x * 256 + byte_to_Z y) / 256) with (byte_to_Z x)
    by (Z.div_mod_to_equations; lia).
  assert (Hy : byte_of_Z (byte_to_Z x * 256 + byte_to_Z y)
               = byte_of_Z (byte_to_Z y)).
  { unfold byte_of_Z.
    replace ((byte_to_Z x * 256 + byte_to_Z y) mod 256)
      with (byte_to_Z y mod 256) by (Z.div_mod_to_equations; lia).
    reflexivity. }
  now rewrite Hy, !byte_of_to_Z.
Qed.

(** Twelve unread bytes are read as a header, whatever they are. *)
Lemma NewDNSHeader_bytes (b : bytes.Buffer)
      (x0 x1 x2 x3 x4 x5 x6 x7 x8 x9 x10 x11 : byte) (rest : list byte) :
  bytes.unread b
  = x0 :: x1 :: x2 :: x3 :: x4 :: x5 :: x6 :: x7 :: x8 :: x9 :: x10 :: x11
       :: rest ->
  exists b',
    NewDNSHeader b
    = Ok ({| DNSHeader.TxID := be16 x0 x1;
             DNSHeader.Flags := DNSFlags.unpack (be16 x2 x3);
             DNSHeader.Questions := be16 x4 x5;
             DNSHeader.AnswerRRs := be16 x6 x7;
             DNSHeader.AuthorityRRs := be16 x8 x9;
             DNSHeader.AdditionalRRs := be16 x10 x11 |}, b')
    /\ bytes.unread b' = rest.
Proof.
  intros Hu.
  destruct (Uint16_Next_ok b _ _ _ Hu) as (b1 & E1 & Hu1).
  destruct (Uint16_Next_ok b1 _ _ _ Hu1) as (b2 & E2 & Hu2).
  destruct (Uint16_Next_ok b2 _ _ _ Hu2) as (b3 & E3 & Hu3).
  destruct (Uint16_Next_ok b3 _ _ _ Hu3) as (b4 & E4 & Hu4).
  destruct (Uint16_Next_ok b4 _ _ _ Hu4) as (b5 & E5 & Hu5).
  destruct (Uint16_Next_ok b5 _ _ _ Hu5) as (b6 & E6 & Hu6).
  exists b6. split; [|exact Hu6]. unfold NewDNSHeader.
  rewrite (bind_ok _ _ _ _ _ E1), (bind_ok _ _ _ _ _ E2),
    (bind_ok _ _ _ _ _ E3), (bind_ok _ _ _ _ _ E4),
    (bind_ok _ _ _ _ _ E5), (bind_ok _ _ _ _ _ E6).
  reflexivity.
Qed.

(** X2: a header whose words fit sixteen bits is written on twelve bytes
    and read back from them, with any bytes after them left unread: the
    five words come back as they were, and the flags as [ToBit] packs
    them.  A header whose flags fit their bits, with [Z = 0] and
    [RCode < 16], comes back unchanged. *)
Theorem header_roundtrip (h : DNSHeader.t) (rest : list byte) :
  headerInRange h ->
  exists bs b',
    DNSHeader.ToByte h = Ok bs
    /\ List.length bs = 12%nat
    /\ NewDNSHeader (bytes.NewBuffer (bs ++ rest))
       = Ok ({| DNSHeader.TxID := DNSHeader.TxID h;
                DNSHeader.Flags :=
                  DNSFlags.unpack (DNSFlags.ToBit (DNSHeader.Flags h));
                DNSHeader.Questions := DNSHeader.Questions h;
                DNSHeader.AnswerRRs := DNSHeader.AnswerRRs h;
                DNSHeader.AuthorityRRs := DNSHeader.AuthorityRRs h;
                DNSHeader.AdditionalRRs := DNSHeader.AdditionalRRs h |}, b')
    /\ bytes.unread b' = rest
    /\ (flagsInRange (DNSHeader.Flags h) ->
        DNSFlags.Z_ (DNSHeader.Flags h) = 0 ->
        DNSFlags.RCode (DNSHeader.Flags h) < 16 ->
        NewDNSHeader (bytes.NewBuffer (bs ++ rest)) = Ok (h, b')).
Proof.
  intros (Hid & Hq & Ha & Hu & Hd).
  pose proof (ToBit_range (DNSHeader.Flags h)) as Hf.
  destruct (NewDNSHeader_bytes
              (bytes.NewBuffer (headerBytes h ++ rest))
              _ _ _ _ _ _ _ _ _ _ _ _ rest eq_refl) as (b' & E & Hu').
  unfold be16 in E. rewrite !uint16_bytes_value in E by assumption.
  exists (headerBytes h), b'.
  split; [reflexivity|]. split; [reflexivity|].
  split; [exact E|]. split; [exact Hu'|].
  intros Hfl Hz Hc. rewrite E. f_equal. f_equal.
  rewrite (flags_unchanged _ Hfl Hz Hc).
  destruct h; reflexivity.
Qed.

Lemma header_roundtrip_witness :
  headerInRange (DNSMessage.Header (LookUp_msg "example.com"))
  /\ exists bs b',
       DNSHeader.ToByte (DNSMessage.Header (LookUp_msg "example.com")) = Ok bs
       /\ NewDNSHeader (bytes.NewBuffer (bs ++ [x07]))
          = Ok (DNSMessage.Header (LookUp_msg "example.com"), b')
       /\ bytes.unread b' = [x07].
Proof.
  assert (H : headerInRange (DNSMessage.Header (LookUp_msg "example.com")))
    by (unfold headerInRange, uint16; simpl; lia).
  split; [exact H|].
  destruct (header_roundtrip _ [x07] H) as (bs & b' & E & _ & _ & Hu & Hh).
  exists bs, b'. split; [exact E|]. split; [|exact Hu].
  apply Hh.
  - unfold flagsInRange. simpl. lia.
  - reflexivity.
  - simpl. lia.
Defined.

Lemma clear_reserved_bits (x : byte) :
  byte_of_Z (byte_to_Z x - 16 * ((byte_to_Z x / 16) mod 8))
  = byte_of_Z (Z.land (byte_to_Z x) 143).
Proof. destruct x; reflexivity. Qed.

Lemma u16Bytes_repacked (x y : byte) :
  u16Bytes (DNSFlags.ToBit (DNSFlags.unpack (be16 x y)))
  = [x; byte_of_Z (Z.land (byte_to_Z y) 143)].
Proof.
  rewrite ToBit_unpack by apply be16_range.
  rewrite <- clear_reserved_bits.
  pose proof (byte_to_Z_range x) as Hx. pose proof (byte_to_Z_range y) as Hy.
  set (z := (byte_to_Z y / 16) mod 8).
  assert (Hz : 0 <= byte_to_Z y - 16 * z < 256)
    by (unfold z; Z.div_mod_to_equations; lia).
  replace ((be16 x y / 16) mod 8) with z
    by (unfold z, be16; Z.div_mod_to_equations; lia).
  replace (be16 x y - 16 * z)
    with (be16 x (byte_of_Z (byte_to_Z y - 16 * z))).
  - apply u16Bytes_be16.
  - unfold be16. rewrite byte_to_of_Z, Z.mod_small by exact Hz. lia.
Qed.

(** X3: any twelve bytes are read as a header, and the bytes after them
    are left unread; writing that header gives the twelve bytes back,
    except that the bits 4 to 6 of the fourth byte, the reserved field [Z]
    of the flags, are cleared. *)
Theorem header_reencoded
        (x0 x1 x2 x3 x4 x5 x6 x7 x8 x9 x10 x11 : byte) (rest : list byte) :
  exists h b',
    NewDNSHeader
      (bytes.NewBuffer
         (x0 :: x1 :: x2 :: x3 :: x4 :: x5 :: x6 :: x7 :: x8 :: x9 :: x10
             :: x11 :: rest))
    = Ok (h, b')
    /\ bytes.unread b' = rest
    /\ DNSHeader.ToByte h
       = Ok [x0; x1; x2; byte_of_Z (Z.land (byte_to_Z x3) 143);
             x4; x5; x6; x7; x8; x9; x10; x11].
Proof.
  destruct (NewDNSHeader_bytes
              (bytes.NewBuffer
                 (x0 :: x1 :: x2 :: x3 :: x4 :: x5 :: x6 :: x7 :: x8 :: x9
                     :: x10 :: x11 :: rest))
              x0 x1 x2 x3 x4 x5 x6 x7 x8 x9 x10 x11 rest eq_refl)
    as (b' & E & Hu).
  eexists. exists b'. split; [exact E|]. split; [exact Hu|].
  rewrite DNSHeader_ToByte_eq. unfold headerBytes.
  cbn [DNSHeader.TxID DNSHeader.Flags DNSHeader.Questions DNSHeader.AnswerRRs
       DNSHeader.AuthorityRRs DNSHeader.AdditionalRRs].
  rewrite u16Bytes_repacked, !u16Bytes_be16. reflexivity.
Qed.

(** ** Writing a message *)

Lemma DNSQuestion_ToByte_eq (q : DNSQuestion.t) :
  DNSQuestion.ToByte q = Ok (questionBytes q).
Proof.
  unfold DNSQuestion.ToByte, questionBytes, binary.Write_uint16, u16Bytes.
  now rewrite <- app_assoc.
Qed.

Lemma writeQuestions_ok (n : nat) :
  forall i questions buffer,
    (i + n <= List.length questions)%nat ->
    DNSMessage.writeQuestions n i questions buffer
    = Ok (buffer ++ flat_map questionBytes (firstn n (skipn i questions))).
Proof.
  induction n as [|n IH]; intros i questions buffer Hlen.
  - simpl. now rewrite app_nil_r.
  - cbn [DNSMessage.writeQuestions].
    destruct (nth_error questions i) as [q|] eqn:Eq.
    + rewrite DNSQuestion_ToByte_eq. cbn [withMessage].
      rewrite IH by lia.
      apply nth_error_split in Eq. destruct Eq as (l1 & l2 & -> & <-).
      rewrite !skipn_app, !Nat.sub_diag, skipn_all.
      replace (S (List.length l1) - List.length l1)%nat with 1%nat by lia.
      rewrite (skipn_all2 l1) by lia.
      cbn [skipn app firstn flat_map]. now rewrite <- app_assoc.
    + apply nth_error_None in Eq. lia.
Qed.

Lemma writeQuestions_panic (n : nat) :
  forall i questions buffer,
    (i <= List.length questions < i + n)%nat ->
    DNSMessage.writeQuestions n i questions buffer
    = Panic index_out_of_range.
Proof.
  induction n as [|n IH]; intros i questions buffer Hlen; [lia|].
  cbn [DNSMessage.writeQuestions].
  destruct (nth_error questions i) as [q|] eqn:Eq; [|reflexivity].
  rewrite DNSQuestion_ToByte_eq. cbn [withMessage]. apply IH.
  assert (i < List.length questions)%nat
    by (apply nth_error_Some; congruence).
  lia.
Qed.

Lemma DNSResourceRecode_ToByte_IN (parseIPv6 : string -> net.IP)
      (r : DNSResourceRecode.t) :
  DNSResourceRecode.Class r = DNSClassIn ->
  DNSResourceRecode.ToByte parseIPv6 r = Ok (recodeBytes parseIPv6 r).
Proof.
  intros Hc. unfold DNSResourceRecode.ToByte.
  destruct (Z.eqb_spec (DNSResourceRecode.Class r) DNSClassIn);
    [|contradiction].
  rewrite writeFixed_eq. unfold binary.Write_bytes, recodeBytes.
  now rewrite <- !app_assoc.
Qed.

Lemma DNSResourceRecode_ToByte_other (parseIPv6 : string -> net.IP)
      (r : DNSResourceRecode.t) :
  DNSResourceRecode.Class r <> DNSClassIn ->
  DNSResourceRecode.ToByte parseIPv6 r = Err ErrClassNotSupport.
Proof.
  intros Hc. unfold DNSResourceRecode.ToByte.
  destruct (Z.eqb_spec (DNSResourceRecode.Class r) DNSClassIn);
    [contradiction | reflexivity].
Qed.

Lemma writeRecodes_ok (parseIPv6 : string -> net.IP)
      (recodes : list DNSResourceRecode.t) :
  forall buffer,
    Forall (fun r => DNSResourceRecode.Class r = DNSClassIn) recodes ->
    DNSMessage.writeRecodes parseIPv6 recodes buffer
    = Ok (buffer ++ flat_map (recodeBytes parseIPv6) recodes).
Proof.
  induction recodes as [|r recodes IH]; intros buffer Hall.
  - simpl. now rewrite app_nil_r.
  - cbn [DNSMessage.writeRecodes].
    rewrite (DNSResourceRecode_ToByte_IN _ _ (Forall_inv Hall)).
    cbn [withMessage]. rewrite IH by exact (Forall_inv_tail Hall).
    cbn [flat_map]. now rewrite <- app_assoc.
Qed.

Lemma writeRecodes_err (parseIPv6 : string -> net.IP)
      (recodes : list DNSResourceRecode.t) :
  forall buffer,
    Exists (fun r => DNSResourceRecode.Class r <> DNSClassIn) recodes ->
    DNSMessage.writeRecodes parseIPv6 recodes buffer
    = Err (WithMessage ErrClassNotSupport "write resource error").
Proof.
  induction recodes as [|r recodes IH]; intros buffer Hex.
  - inversion Hex.
  - cbn [DNSMessage.writeRecodes].
    destruct (Z.eq_dec (DNSResourceRecode.Class r) DNSClassIn) as [Hc|Hc].
    + rewrite (DNSResourceRecode_ToByte_IN _ _ Hc). cbn [withMessage].
      apply IH. inversion Hex; [contradiction | assumption].
    + now rewrite (DNSResourceRecode_ToByte_other _ _ Hc).
Qed.

(** X4: a message whose header announces no more questions than it holds,
    and whose records are all of class IN, is written as the twelve bytes
    of its header, the questions that the header counts, in order, and
    all its records, whatever the other three counts of the header say. *)
Theorem DNSMessage_ToByte_layout (parseIPv6 : string -> net.IP)
        (d : DNSMessage.t) :
  (Z.to_nat (DNSHeader.Questions (DNSMessage.Header d))
   <= List.length (DNSMessage.Questions d))%nat ->
  Forall (fun r => DNSResourceRecode.Class r = DNSClassIn)
         (DNSMessage.ResourceRecodes d) ->
  DNSMessage.ToByte parseIPv6 d
  = Ok (headerBytes (DNSMessage.Header d)
        ++ flat_map questionBytes
             (firstn (Z.to_nat (DNSHeader.Questions (DNSMessage.Header d)))
                     (DNSMessage.Questions d))
        ++ flat_map (recodeBytes parseIPv6) (DNSMessage.ResourceRecodes d)).
Proof.
  intros Hq Hr. unfold DNSMessage.ToByte.
  rewrite DNSHeader_ToByte_eq. cbn [withMessage].
  rewrite writeQuestions_ok by (simpl; exact Hq).
  rewrite writeRecodes_ok by exact Hr.
  cbn [skipn app]. now rewrite <- app_assoc.
Qed.

(** X5: a message whose header announces more questions than it holds
    cannot be written: indexing the questions panics, whatever the
    records are. *)
Theorem DNSMessage_ToByte_count_too_large (parseIPv6 : string -> net.IP)
        (d : DNSMessage.t) :
  (List.length (DNSMessage.Questions d)
   < Z.to_nat (DNSHeader.Questions (DNSMessage.Header d)))%nat ->
  DNSMessage.ToByte parseIPv6 d = Panic index_out_of_range.
Proof.
  intros Hq. unfold DNSMessage.ToByte.
  rewrite DNSHeader_ToByte_eq. cbn [withMessage].
  now rewrite writeQuestions_panic by (simpl; lia).
Qed.

(** X6: one record of a class other than IN makes the whole message fail
    with [ErrClassNotSupport] under the message "write resource error";
    nothing of the header, the questions or the other records is
    returned. *)
Theorem DNSMessage_ToByte_record_refused (parseIPv6 : string -> net.IP)
        (d : DNSMessage.t) :
  (Z.to_nat (DNSHeader.Questions (DNSMessage.Header d))
   <= List.length (DNSMessage.Questions d))%nat ->
  Exists (fun r => DNSResourceRecode.Class r <> DNSClassIn)
         (DNSMessage.ResourceRecodes d) ->
  DNSMessage.ToByte parseIPv6 d
  = Err (WithMessage ErrClassNotSupport "write resource error").
Proof.
  intros Hq Hr. unfold DNSMessage.ToByte.
  rewrite DNSHeader_ToByte_eq. cbn [withMessage].
  rewrite writeQuestions_ok by (simpl; exact Hq).
  now rewrite writeRecodes_err by exact Hr.
Qed.

Lemma DNSMessage_ToByte_layout_witness :
  DNSMessage.ToByte noIPv6
    (DNSMessage.mk (DNSHeader.mk 7 DNSFlags.zero 1 5 0 0)
       [DNSQuestion.mk "a.b" 1 1; DNSQuestion.mk "c" 28 1]
       [pointerRecode])
  = Ok (headerBytes (DNSHeader.mk 7 DNSFlags.zero 1 5 0 0)
        ++ flat_map questionBytes [DNSQuestion.mk "a.b" 1 1]
        ++ flat_map (recodeBytes noIPv6) [pointerRecode]).
Proof.
  apply (DNSMessage_ToByte_layout noIPv6
           (DNSMessage.mk (DNSHeader.mk 7 DNSFlags.zero 1 5 0 0)
              [DNSQuestion.mk "a.b" 1 1; DNSQuestion.mk "c" 28 1]
              [pointerRecode])).
  - simpl. lia.
  - repeat constructor.
Defined.

Lemma DNSMessage_ToByte_count_too_large_witness :
  DNSMessage.ToByte noIPv6
    (DNSMessage.mk (DNSHeader.mk 1 DNSFlags.zero 2 0 0 0)
       [DNSQuestion.mk "example.com" 1 1] [])
  = Panic index_out_of_range.
Proof.
  apply (DNSMessage_ToByte_count_too_large noIPv6
           (DNSMessage.mk (DNSHeader.mk 1 DNSFlags.zero 2 0 0 0)
              [DNSQuestion.mk "example.com" 1 1] [])).
  simpl. lia.
Defined.

Lemma DNSMessage_ToByte_record_refused_witness :
  DNSMessage.ToByte noIPv6
    (DNSMessage.mk (DNSHeader.mk 1 DNSFlags.zero 1 2 0 0)
       [DNSQuestion.mk "example.com" 1 1] [pointerRecode; chaosRecode])
  = Err (WithMessage ErrClassNotSupport "write resource error").
Proof.
  apply (DNSMessage_ToByte_record_refused noIPv6
           (DNSMessage.mk (DNSHeader.mk 1 DNSFlags.zero 1 2 0 0)
              [DNSQuestion.mk "example.com" 1 1]
              [pointerRecode; chaosRecode])).
  - simpl. lia.
  - apply Exists_cons_tl, Exists_cons_hd. vm_compute. discriminate.
Defined.

(** ** Reads that depend on the unread bytes alone *)

Lemma sameAnswer_refl_ok {A : Type} (a : A) (b1 b2 : bytes.Buffer) :
  bytes.unread b1 = bytes.unread b2 -> sameAnswer (Ok (a, b1)) (Ok (a, b2)).
Proof. intros H. now split. Qed.

Lemma unreadOnly_ret {A : Type} (a : A) : unreadOnly (ret a).
Proof. intros b1 b2 H. now apply sameAnswer_refl_ok. Qed.

Lemma unreadOnly_panic {A : Type} (p : runtime_error) :
  unreadOnly (@panic A p).
Proof. intros b1 b2 H. reflexivity. Qed.

Lemma unreadOnly_bind {A B : Type} (m : M A) (k : A -> M B) :
  unreadOnly m -> (forall a, unreadOnly (k a)) -> unreadOnly (bind m k).
Proof.
  intros Hm Hk b1 b2 H. unfold bind. specialize (Hm b1 b2 H).
  destruct (m b1) as [[a1 c1]| | |], (m b2) as [[a2 c2]| | |];
    simpl in Hm; try contradiction; try exact Hm.
  destruct Hm as [-> Hc]. now apply Hk.
Qed.

Lemma unreadOnly_Next (n : nat) : unreadOnly (Next n).
Proof.
  intros b1 b2 H.
  destruct (Next_ok n b1) as (c1 & E1 & H1).
  destruct (Next_ok n b2) as (c2 & E2 & H2).
  rewrite E1, E2, H. split; [reflexivity | now rewrite H1, H2, H].
Qed.

Lemma unreadOnly_Uint16_Next : unreadOnly Uint16_Next.
Proof.
  apply unreadOnly_bind; [apply unreadOnly_Next|].
  intros bs. destruct (binary.BigEndian_Uint16 bs);
    [apply unreadOnly_ret | apply unreadOnly_panic].
Qed.

Lemma unreadOnly_Uint32_Next : unreadOnly Uint32_Next.
Proof.
  apply unreadOnly_bind; [apply unreadOnly_Next|].
  intros bs. destruct (binary.BigEndian_Uint32 bs);
    [apply unreadOnly_ret | apply unreadOnly_panic].
Qed.

Lemma unreadOnly_Next1 : unreadOnly Next1.
Proof.
  apply unreadOnly_bind; [apply unreadOnly_Next|].
  intros [|x bs]; [apply unreadOnly_panic | apply unreadOnly_ret].
Qed.

Lemma unreadOnly_recodeAfterTag (b0 : byte) : unreadOnly (recodeAfterTag b0).
Proof.
  unfold recodeAfterTag. cbv zeta.
  repeat first
    [ match goal with
      | |- unreadOnly (if ?c then _ else _) => destruct c
      | |- forall _, unreadOnly _ => intro
      end
    | apply unreadOnly_ret
    | apply unreadOnly_Uint16_Next
    | apply unreadOnly_Uint32_Next
    | apply unreadOnly_Next1
    | apply unreadOnly_Next
    | apply unreadOnly_bind ].
Qed.

Lemma Next1_empty (b : bytes.Buffer) :
  bytes.unread b = [] -> Next1 b = Panic index_out_of_range.
Proof.
  intros Hu. destruct (Next_ok 1 b) as (b' & E & _).
  rewrite Hu in E. unfold Next1. now rewrite (bind_ok _ _ _ _ _ E).
Qed.

(** [NewDNSResourceRecode] looks at the first unread byte, puts it back,
    and goes on from the same unread bytes; on an empty buffer it
    panics. *)
Lemma NewDNSResourceRecode_peek (b : bytes.Buffer) :
  match bytes.unread b with
  | [] => NewDNSResourceRecode b = Panic index_out_of_range
  | x :: l =>
      exists b',
        NewDNSResourceRecode b = recodeAfterTag x b'
        /\ bytes.unread b' = x :: l
  end.
Proof.
  destruct (bytes.unread b) as [|x l] eqn:Hu.
  - unfold NewDNSResourceRecode. apply bind_panic. now apply Next1_empty.
  - destruct (Next1_UnreadByte recodeAfterTag b x l Hu) as (b' & E & Hu').
    exists b'. split; [exact E | exact Hu'].
Qed.

(** The answer of [NewDNSResourceRecode] depends on the unread bytes
    alone, although it steps back in the buffer. *)
Lemma unreadOnly_NewDNSResourceRecode : unreadOnly NewDNSResourceRecode.
Proof.
  intros b1 b2 H.
  pose proof (NewDNSResourceRecode_peek b1) as P1.
  pose proof (NewDNSResourceRecode_peek b2) as P2.
  rewrite <- H in P2.
  destruct (bytes.unread b1) as [|x l].
  - rewrite P1, P2. reflexivity.
  - destruct P1 as (c1 & -> & H1). destruct P2 as (c2 & -> & H2).
    apply unreadOnly_recodeAfterTag. now rewrite H1, H2.
Qed.

(** A record read from the unread bytes [bs] of any buffer is the record
    read from a new buffer on [bs]. *)
Lemma NewDNSResourceRecode_unread (b : bytes.Buffer) (bs rest : list byte)
      (r : DNSResourceRecode.t) (b0 : bytes.Buffer) :
  bytes.unread b = bs ->
  NewDNSResourceRecode (bytes.NewBuffer bs) = Ok (r, b0) ->
  bytes.unread b0 = rest ->
  exists b', NewDNSResourceRecode b = Ok (r, b') /\ bytes.unread b' = rest.
Proof.
  intros Hu E Hr.
  pose proof (unreadOnly_NewDNSResourceRecode b (bytes.NewBuffer bs) Hu) as S.
  rewrite E in S.
  destruct (NewDNSResourceRecode b) as [[r' b']| | |];
    simpl in S; try contradiction.
  destruct S as [-> Hb]. exists b'. split; [reflexivity | congruence].
Qed.

(** ** Whole messages *)

Lemma NewDNSQuestion_written (q : DNSQuestion.t) (b : bytes.Buffer)
      (rest : list byte) :
  Forall byteLabel (strings.Split (DNSQuestion.QuestionName q) ".") ->
  uint16 (DNSQuestion.QuestionType q) ->
  uint16 (DNSQuestion.QuestionClass q) ->
  bytes.unread b = questionBytes q ++ rest ->
  exists b', NewDNSQuestion b = Ok (q, b') /\ bytes.unread b' = rest.
Proof.
  destruct q as [name t c].
  cbn [DNSQuestion.QuestionName DNSQuestion.QuestionType
       DNSQuestion.QuestionClass].
  intros Hv Ht Hc Hu. unfold questionBytes, u16Bytes in Hu.
  cbn [DNSQuestion.QuestionName DNSQuestion.QuestionType
       DNSQuestion.QuestionClass] in Hu.
  rewrite <- !app_assoc in Hu.
  destruct (readName_written name b _ Hv Hu) as (b1 & E1 & Hu1).
  simpl app in Hu1.
  destruct (Uint16_Next_ok b1 _ _ _ Hu1) as (b2 & E2 & Hu2).
  destruct (Uint16_Next_ok b2 _ _ _ Hu2) as (b3 & E3 & Hu3).
  rewrite uint16_bytes_value in E2 by exact Ht.
  rewrite uint16_bytes_value in E3 by exact Hc.
  exists b3. split; [|exact Hu3]. unfold NewDNSQuestion.
  rewrite (bind_ok _ _ _ _ _ E1), (bind_ok _ _ _ _ _ E2),
    (bind_ok _ _ _ _ _ E3).
  reflexivity.
Qed.

(** [NewDNSMessage] after its question: nothing more when the buffer is
    empty, one record otherwise. *)
Lemma NewDNSMessage_no_record (b b1 : bytes.Buffer) (q : DNSQuestion.t) :
  NewDNSQuestion b = Ok (q, b1) ->
  bytes.unread b1 = [] ->
  NewDNSMessage b = Ok (DNSMessage.mk zeroHeader [q] [], b1).
Proof.
  intros E Hu. unfold NewDNSMessage. cbv zeta.
  rewrite (bind_ok _ _ _ _ _ E). unfold bytes.Len. rewrite Hu.
  reflexivity.
Qed.

Lemma NewDNSMessage_record (b b1 : bytes.Buffer) (q : DNSQuestion.t) :
  NewDNSQuestion b = Ok (q, b1) ->
  bytes.unread b1 <> [] ->
  NewDNSMessage b
  = (recode <- NewDNSResourceRecode ;;
     ret (DNSMessage.mk zeroHeader [q] [recode])) b1.
Proof.
  intros E Hu. unfold NewDNSMessage. cbv zeta.
  rewrite (bind_ok _ _ _ _ _ E). unfold bytes.Len.
  destruct (bytes.unread b1); [contradiction | reflexivity].
Qed.

(** X7: the bytes of one question, whose name has segments of 1 to 255
    bytes, are read by [NewDNSMessage] as a message that holds this
    question and no record, under a header that is all zero: its count of
    questions is 0, not 1. *)
Theorem NewDNSMessage_lone_question (q : DNSQuestion.t) :
  Forall byteLabel (strings.Split (DNSQuestion.QuestionName q) ".") ->
  uint16 (DNSQuestion.QuestionType q) ->
  uint16 (DNSQuestion.QuestionClass q) ->
  exists bs b',
    DNSQuestion.ToByte q = Ok bs
    /\ NewDNSMessage (bytes.NewBuffer bs)
       = Ok (DNSMessage.mk zeroHeader [q] [], b')
    /\ bytes.unread b' = [].
Proof.
  intros Hv Ht Hc.
  destruct (NewDNSQuestion_written q (bytes.NewBuffer (questionBytes q)) []
              Hv Ht Hc) as (b1 & E1 & Hu1).
  { unfold bytes.unread. simpl. now rewrite app_nil_r. }
  exists (questionBytes q), b1.
  split; [apply DNSQuestion_ToByte_eq|]. split; [|exact Hu1].
  now apply NewDNSMessage_no_record.
Qed.

Lemma NewDNSMessage_lone_question_witness :
  exists bs b',
    DNSQuestion.ToByte (DNSQuestion.mk "example.com" 1 1) = Ok bs
    /\ NewDNSMessage (bytes.NewBuffer bs)
       = Ok (DNSMessage.mk zeroHeader [DNSQuestion.mk "example.com" 1 1] [],
             b')
    /\ bytes.unread b' = [].
Proof.
  apply (NewDNSMessage_lone_question (DNSQuestion.mk "example.com" 1 1)).
  - repeat constructor; simpl; lia.
  - unfold uint16. simpl. lia.
  - unfold uint16. simpl. lia.
Defined.

(** A record in pointer form, of type A, is read back as it was written,
    from any buffer whose unread bytes start with its bytes. *)
Lemma NewDNSResourceRecode_written (parseIPv6 : string -> net.IP)
      (r : DNSResourceRecode.t) (a b c d : byte) (buffer : bytes.Buffer)
      (rest : list byte) :
  0 < DNSResourceRecode.NamePos r < 16384 ->
  DNSResourceRecode.Name r = EmptyString ->
  DNSResourceRecode.RRType r = DNSTypeA ->
  DNSResourceRecode.Class r = DNSClassIn ->
  uint32 (DNSResourceRecode.TTL r) ->
  DNSResourceRecode.RDLength r = 4 ->
  DNSResourceRecode.RData r = net.IP_String (net.IPv4 a b c d) ->
  bytes.unread buffer = recodeBytes parseIPv6 r ++ rest ->
  exists b',
    NewDNSResourceRecode buffer = Ok (r, b') /\ bytes.unread b' = rest.
Proof.
  intros Hpos Hname Hty Hcl Httl Hlen Hd Hu.
  assert (Hnp : uint16 (DNSResourceRecode.NamePos r))
    by (unfold uint16; lia).
  pose proof (DNSResourceRecode_ToByte_IN parseIPv6 r Hcl) as Hbs.
  rewrite (ToByte_pointer_bytes parseIPv6 r a b c d) in Hbs
    by (lia || assumption).
  apply Ok_inj in Hbs.
  destruct (pointer_bytes _ Hnp) as [Htag Hptr].
  cbv zeta in *.
  set (p := Z.lor (Z.lor (Z.shiftl 1 15) (Z.shiftl 1 14))
                  (DNSResourceRecode.NamePos r)) in *.
  destruct (NewDNSResourceRecode_pointer_A
              (byte_of_Z (Z.shiftr p 8)) (byte_of_Z p)
              (byte_of_Z (Z.shiftr (DNSResourceRecode.RRType r) 8))
              (byte_of_Z (DNSResourceRecode.RRType r))
              (byte_of_Z (Z.shiftr (DNSResourceRecode.Class r) 8))
              (byte_of_Z (DNSResourceRecode.Class r))
              (byte_of_Z (Z.shiftr (DNSResourceRecode.TTL r) 24))
              (byte_of_Z (Z.shiftr (DNSResourceRecode.TTL r) 16))
              (byte_of_Z (Z.shiftr (DNSResourceRecode.TTL r) 8))
              (byte_of_Z (DNSResourceRecode.TTL r))
              (byte_of_Z (Z.shiftr (DNSResourceRecode.RDLength r) 8))
              (byte_of_Z (DNSResourceRecode.RDLength r))
              a b c d rest)
    as (b0 & E0 & Hu0);
    [exact Htag | rewrite Hty; reflexivity | rewrite Hlen; reflexivity |].
  rewrite <- Hbs in Hu. simpl app in Hu.
  rewrite Hptr, be16_bytes, be32_bytes in E0 by
      (assumption || (rewrite Hcl; unfold uint16, DNSClassIn; lia)).
  rewrite Z.mod_small in E0 by lia.
  replace (DNSResourceRecode.mk _ _ _ _ _ _ _) with r in E0.
  - exact (NewDNSResourceRecode_unread buffer _ rest r b0 Hu E0 Hu0).
  - destruct r as [n np ty cl ttl len data].
    cbn [DNSResourceRecode.Name DNSResourceRecode.NamePos
         DNSResourceRecode.RRType DNSResourceRecode.Class
         DNSResourceRecode.TTL DNSResourceRecode.RDLength
         DNSResourceRecode.RData] in *.
    subst. reflexivity.
Qed.

(** X8: the bytes of a question followed by those of a record that names
    a position below 2^14 and no name, of type A and class IN with a
    32-bit TTL, RDLength 4 and the text of an IPv4 address, are read by
    [NewDNSMessage] as this question and this record under the zero
    header.  One record is read: the bytes after it are left in the
    buffer. *)
Theorem NewDNSMessage_question_record (parseIPv6 : string -> net.IP)
        (q : DNSQuestion.t) (r : DNSResourceRecode.t) (a b c d : byte)
        (rest : list byte) :
  Forall byteLabel (strings.Split (DNSQuestion.QuestionName q) ".") ->
  uint16 (DNSQuestion.QuestionType q) ->
  uint16 (DNSQuestion.QuestionClass q) ->
  0 < DNSResourceRecode.NamePos r < 16384 ->
  DNSResourceRecode.Name r = EmptyString ->
  DNSResourceRecode.RRType r = DNSTypeA ->
  DNSResourceRecode.Class r = DNSClassIn ->
  uint32 (DNSResourceRecode.TTL r) ->
  DNSResourceRecode.RDLength r = 4 ->
  DNSResourceRecode.RData r = net.IP_String (net.IPv4 a b c d) ->
  exists qbs rbs b',
    DNSQuestion.ToByte q = Ok qbs
    /\ DNSResourceRecode.ToByte parseIPv6 r = Ok rbs
    /\ NewDNSMessage (bytes.NewBuffer (qbs ++ rbs ++ rest))
       = Ok (DNSMessage.mk zeroHeader [q] [r], b')
    /\ bytes.unread b' = rest.
Proof.
  intros Hv Ht Hc Hpos Hname Hty Hcl Httl Hlen Hd.
  destruct (NewDNSQuestion_written q
              (bytes.NewBuffer (questionBytes q ++ recodeBytes parseIPv6 r
                                ++ rest))
              (recodeBytes parseIPv6 r ++ rest) Hv Ht Hc eq_refl)
    as (b1 & E1 & Hu1).
  destruct (NewDNSResourceRecode_written parseIPv6 r a b c d b1 rest
              Hpos Hname Hty Hcl Httl Hlen Hd Hu1) as (b2 & E2 & Hu2).
  exists (questionBytes q), (recodeBytes parseIPv6 r), b2.
  split; [apply DNSQuestion_ToByte_eq|].
  split; [now apply DNSResourceRecode_ToByte_IN|].
  split; [|exact Hu2].
  rewrite (NewDNSMessage_record _ b1 q E1).
  - now rewrite (bind_ok _ _ _ _ _ E2).
  - rewrite Hu1. unfold recodeBytes, nameOrPointer, u16Bytes.
    destruct (Z.ltb_spec 0 (DNSResourceRecode.NamePos r)); [|lia].
    discriminate.
Qed.

Lemma NewDNSMessage_question_record_witness :
  exists qbs rbs b',
    DNSQuestion.ToByte (DNSQuestion.mk "example.com" 1 1) = Ok qbs
    /\ DNSResourceRecode.ToByte noIPv6 pointerRecode = Ok rbs
    /\ NewDNSMessage (bytes.NewBuffer (qbs ++ rbs ++ [xc0; x0c]))
       = Ok (DNSMessage.mk zeroHeader
               [DNSQuestion.mk "example.com" 1 1] [pointerRecode], b')
    /\ bytes.unread b' = [xc0; x0c].
Proof.
  apply (NewDNSMessage_question_record noIPv6
           (DNSQuestion.mk "example.com" 1 1) pointerRecode
           xc0 xa8 x00 xff [xc0; x0c]).
  - repeat constructor; simpl; lia.
  - unfold uint16. simpl. lia.
  - unfold uint16. simpl. lia.
  - simpl. lia.
  - reflexivity.
  - reflexivity.
  - reflexivity.
  - unfold uint32. simpl. lia.
  - reflexivity.
  - reflexivity.
Defined.

(** ** A question read from a header *)

(** X9: [NewDNSQuestion] never looks for a header.  On the bytes of a
    header whose transaction identifier is below 256, as the identifier 1
    of [LookUp] is, it reads the first byte as the length 0 of an empty
    name, the next four bytes, which are the low byte of the identifier,
    the flags and the high byte of the count of questions, as type and
    class, and stops five bytes into the header. *)
Theorem NewDNSQuestion_on_header (h : DNSHeader.t) (rest : list byte) :
  headerInRange h ->
  DNSHeader.TxID h < 256 ->
  exists bs b',
    DNSHeader.ToByte h = Ok bs
    /\ NewDNSQuestion (bytes.NewBuffer (bs ++ rest))
       = Ok (DNSQuestion.mk EmptyString
               (DNSHeader.TxID h * 256
                + DNSFlags.ToBit (DNSHeader.Flags h) / 256)
               (DNSFlags.ToBit (DNSHeader.Flags h) mod 256 * 256
                + DNSHeader.Questions h / 256),
             b')
    /\ bytes.unread b' = skipn 5 (bs ++ rest).
Proof.
  intros (Hid & Hq & _) Hlt.
  pose proof (ToBit_range (DNSHeader.Flags h)) as Hf.
  exists (headerBytes h). unfold headerBytes, u16Bytes.
  assert (Hz : byte_of_Z (Z.shiftr (DNSHeader.TxID h) 8) = x00).
  { unfold uint16 in Hid. rewrite Z.shiftr_div_pow2 by lia.
    change (2 ^ 8) with 256. now rewrite Z.div_small by lia. }
  set (b := bytes.NewBuffer _).
  assert (Hu : bytes.unread b
               = x00 :: byte_of_Z (DNSHeader.TxID h)
                     :: byte_of_Z (Z.shiftr (DNSFlags.ToBit
                                               (DNSHeader.Flags h)) 8)
                     :: byte_of_Z (DNSFlags.ToBit (DNSHeader.Flags h))
                     :: byte_of_Z (Z.shiftr (DNSHeader.Questions h) 8)
                     :: skipn 5 (bytes.unread b)).
  { subst b. unfold bytes.unread. simpl. now rewrite Hz. }
  destruct (Read_uint8_ok b _ _ Hu) as (b1 & E1 & Hu1).
  destruct (Uint16_Next_ok b1 _ _ _ Hu1) as (b2 & E2 & Hu2).
  destruct (Uint16_Next_ok b2 _ _ _ Hu2) as (b3 & E3 & Hu3).
  exists b3. split; [apply DNSHeader_ToByte_eq|]. split; [|exact Hu3].
  assert (En : readName b = Ok (EmptyString, b1)).
  { unfold readName.
    rewrite (bind_ok _ _ _ _ _ (wrap_ok _ "read length" _ _ _ E1)).
    rewrite readSegments_done by (vm_compute; discriminate).
    reflexivity. }
  unfold NewDNSQuestion.
  rewrite (bind_ok _ _ _ _ _ En), (bind_ok _ _ _ _ _ E2),
    (bind_ok _ _ _ _ _ E3).
  unfold ret. do 2 f_equal.
  rewrite !byte_to_of_Z, !Z.shiftr_div_pow2 by lia. change (2 ^ 8) with 256.
  unfold uint16 in *. f_equal.
  - rewrite (Z.mod_small (DNSHeader.TxID h)) by lia.
    rewrite (Z.mod_small (_ / 256)) by (Z.div_mod_to_equations; lia).
    reflexivity.
  - rewrite (Z.mod_small (DNSHeader.Questions h / 256))
      by (Z.div_mod_to_equations; lia).
    reflexivity.
Qed.

Lemma NewDNSQuestion_on_header_witness :
  exists bs b',
    DNSHeader.ToByte (DNSMessage.Header (LookUp_msg "example.com")) = Ok bs
    /\ NewDNSQuestion (bytes.NewBuffer (bs ++ [x07]))
       = Ok (DNSQuestion.mk EmptyString 257 0, b')
    /\ bytes.unread b' = skipn 5 (bs ++ [x07]).
Proof.
  apply (NewDNSQuestion_on_header
           (DNSMessage.Header (LookUp_msg "example.com")) [x07]).
  - unfold headerInRange, uint16. simpl. lia.
  - simpl. lia.
Defined.

(** ** Records: answers and opaque data *)

Lemma returnsOrPanics_bind {A B : Type} (m : M A) (k : A -> M B) :
  (forall b, returnsOrPanics (m b)) ->
  (forall a b, returnsOrPanics (k a b)) ->
  forall b, returnsOrPanics (bind m k b).
Proof.
  intros Hm Hk b. unfold bind. specialize (Hm b).
  destruct (m b) as [[a b']| | |]; try exact Hm. apply Hk.
Qed.

Lemma returnsOrPanics_Uint16_Next (b : bytes.Buffer) :
  returnsOrPanics (Uint16_Next b).
Proof.
  unfold Uint16_Next, bind, Next.
  destruct (bytes.Next 2 b) as [bs b'].
  destruct (binary.BigEndian_Uint16 bs); exact I.
Qed.

Lemma returnsOrPanics_Uint32_Next (b : bytes.Buffer) :
  returnsOrPanics (Uint32_Next b).
Proof.
  unfold Uint32_Next, bind, Next.
  destruct (bytes.Next 4 b) as [bs b'].
  destruct (binary.BigEndian_Uint32 bs); exact I.
Qed.

Lemma returnsOrPanics_Next1 (b : bytes.Buffer) : returnsOrPanics (Next1 b).
Proof.
  unfold Next1, bind, Next.
  destruct (bytes.Next 1 b) as [[|x bs] b']; exact I.
Qed.

Lemma returnsOrPanics_recodeAfterTag (b0 : byte) (b : bytes.Buffer) :
  returnsOrPanics (recodeAfterTag b0 b).
Proof.
  revert b. unfold recodeAfterTag. cbv zeta.
  repeat first
    [ match goal with
      | |- forall b, returnsOrPanics ((if ?c then _ else _) b) => destruct c
      | |- forall b, returnsOrPanics (ret _ b) => intro; exact I
      | |- forall b, returnsOrPanics (Next _ b) => intro; exact I
      | |- forall _ : Z, _ => intro
      | |- forall _ : byte, _ => intro
      | |- forall _ : list byte, _ => intro
      | |- forall _ : string, _ => intro
      end
    | exact returnsOrPanics_Uint16_Next
    | exact returnsOrPanics_Uint32_Next
    | exact returnsOrPanics_Next1
    | apply returnsOrPanics_bind ].
Qed.

Lemma returnsOrPanics_NewDNSResourceRecode (b : bytes.Buffer) :
  returnsOrPanics (NewDNSResourceRecode b).
Proof.
  pose proof (NewDNSResourceRecode_peek b) as P.
  destruct (bytes.unread b) as [|x l].
  - rewrite P. exact I.
  - destruct P as (b' & -> & _). apply returnsOrPanics_recodeAfterTag.
Qed.

(** X10: [NewDNSResourceRecode] has an error result that is never used:
    [UnreadByte] comes right after a read of one byte, which it can
    always undo, and every other read is unchecked.  Whatever the buffer
    and whatever was read from it before, the call returns a record or
    panics. *)
Theorem NewDNSResourceRecode_never_errs (b : bytes.Buffer) :
  match NewDNSResourceRecode b with
  | Ok _ | Panic index_out_of_range => True
  | Err _ | OutOfFuel => False
  end.
Proof.
  pose proof (returnsOrPanics_NewDNSResourceRecode b) as H.
  destruct (NewDNSResourceRecode b) as [?| |[]|]; exact H.
Qed.

Lemma tag_no_pointer (x : byte) :
  byte_to_Z x < 192 -> (Z.shiftr (byte_to_Z x) 6 =? 3) = false.
Proof.
  intros H. apply Z.eqb_neq. rewrite tag_pointer. lia.
Qed.

Lemma Uint32_Next_ok (b : bytes.Buffer) (x y z w : byte) (l : list byte) :
  bytes.unread b = x :: y :: z :: w :: l ->
  exists b',
    Uint32_Next b = Ok (be32 x y z w, b') /\ bytes.unread b' = l.
Proof.
  intros Hu. destruct (Next_ok 4 b) as (b' & E & Hu').
  rewrite Hu in E, Hu'. exists b'. split; [|exact Hu'].
  unfold Uint32_Next. rewrite (bind_ok _ _ _ _ _ E).
  cbn [firstn]. now rewrite BigEndian_Uint32_cons.
Qed.

(** The fixed fields and the skipped data of a record, after the look at
    its first byte. *)
Lemma recodeAfterTag_opaque (x : byte) (b : bytes.Buffer)
      (t0 t1 c0 c1 l0 l1 l2 l3 n0 n1 : byte) (rest : list byte) :
  (Z.shiftr (byte_to_Z x) 6 =? 3) = false ->
  (be16 t0 t1 =? 1) && (be16 n0 n1 =? 4) = false ->
  bytes.unread b
  = t0 :: t1 :: c0 :: c1 :: l0 :: l1 :: l2 :: l3 :: n0 :: n1 :: rest ->
  exists b',
    recodeAfterTag x b
    = Ok (DNSResourceRecode.mk EmptyString 0 (be16 t0 t1) (be16 c0 c1)
            (be32 l0 l1 l2 l3) (be16 n0 n1) EmptyString, b')
    /\ bytes.unread b' = skipn (Z.to_nat (be16 n0 n1)) rest.
Proof.
  intros Htag Hc Hu.
  destruct (Uint16_Next_ok b _ _ _ Hu) as (b1 & E1 & Hu1).
  destruct (Uint16_Next_ok b1 _ _ _ Hu1) as (b2 & E2 & Hu2).
  destruct (Uint32_Next_ok b2 _ _ _ _ _ Hu2) as (b3 & E3 & Hu3).
  destruct (Uint16_Next_ok b3 _ _ _ Hu3) as (b4 & E4 & Hu4).
  destruct (Next_ok (Z.to_nat (be16 n0 n1)) b4) as (b5 & E5 & Hu5).
  exists b5. split; [|now rewrite Hu5, Hu4].
  unfold recodeAfterTag. cbv zeta. rewrite Htag.
  unfold ret at 1. unfold bind at 1.
  rewrite (bind_ok _ _ _ _ _ E1), (bind_ok _ _ _ _ _ E2),
    (bind_ok _ _ _ _ _ E3), (bind_ok _ _ _ _ _ E4).
  fold (be16 t0 t1). fold (be16 n0 n1). rewrite Hc.
  unfold bind at 1. rewrite (bind_ok _ _ _ _ _ E5). reflexivity.
Qed.

Lemma recodeAfterTag_opaque_pointer (x : byte) (b : bytes.Buffer)
      (x0 x1 t0 t1 c0 c1 l0 l1 l2 l3 n0 n1 : byte) (rest : list byte) :
  (Z.shiftr (byte_to_Z x) 6 =? 3) = true ->
  (be16 t0 t1 =? 1) && (be16 n0 n1 =? 4) = false ->
  bytes.unread b
  = x0 :: x1 :: t0 :: t1 :: c0 :: c1 :: l0 :: l1 :: l2 :: l3 :: n0 :: n1
       :: rest ->
  exists b',
    recodeAfterTag x b
    = Ok (DNSResourceRecode.mk EmptyString (be16 x0 x1 mod 16384)
            (be16 t0 t1) (be16 c0 c1) (be32 l0 l1 l2 l3) (be16 n0 n1)
            EmptyString, b')
    /\ bytes.unread b' = skipn (Z.to_nat (be16 n0 n1)) rest.
Proof.
  intros Htag Hc Hu.
  destruct (Uint16_Next_ok b _ _ _ Hu) as (b0 & E0 & Hu0).
  destruct (Uint16_Next_ok b0 _ _ _ Hu0) as (b1 & E1 & Hu1).
  destruct (Uint16_Next_ok b1 _ _ _ Hu1) as (b2 & E2 & Hu2).
  destruct (Uint32_Next_ok b2 _ _ _ _ _ Hu2) as (b3 & E3 & Hu3).
  destruct (Uint16_Next_ok b3 _ _ _ Hu3) as (b4 & E4 & Hu4).
  destruct (Next_ok (Z.to_nat (be16 n0 n1)) b4) as (b5 & E5 & Hu5).
  exists b5. split; [|now rewrite Hu5, Hu4].
  unfold recodeAfterTag. cbv zeta. rewrite Htag.
  unfold bind at 1. rewrite (bind_ok _ _ _ _ _ E0). unfold ret at 1.
  rewrite (bind_ok _ _ _ _ _ E1), (bind_ok _ _ _ _ _ E2),
    (bind_ok _ _ _ _ _ E3), (bind_ok _ _ _ _ _ E4).
  fold (be16 x0 x1). fold (be16 t0 t1). fold (be16 n0 n1). rewrite Hc.
  rewrite shl_shr_14 by apply be16_range.
  unfold bind at 1. rewrite (bind_ok _ _ _ _ _ E5). reflexivity.
Qed.

(** X11: a record whose data is not the four bytes of an A record is read
    with an empty [RData], with or without a pointer before its fixed
    fields: [RDLength] bytes are skipped, or all the bytes that are left
    when there are fewer, which is not reported.  Without a pointer
    [NamePos] is 0 and the fixed fields are read from the first byte on,
    where a written record has its name. *)
Theorem NewDNSResourceRecode_opaque
        (pre : list byte) (t0 t1 c0 c1 l0 l1 l2 l3 n0 n1 : byte)
        (rest : list byte) :
  (pre = [] /\ byte_to_Z t0 < 192)
  \/ (exists x0 x1, pre = [x0; x1] /\ 192 <= byte_to_Z x0) ->
  ~ (be16 t0 t1 = 1 /\ be16 n0 n1 = 4) ->
  exists b',
    NewDNSResourceRecode
      (bytes.NewBuffer
         (pre ++ t0 :: t1 :: c0 :: c1 :: l0 :: l1 :: l2 :: l3
              :: n0 :: n1 :: rest))
    = Ok ({| DNSResourceRecode.Name := EmptyString;
             DNSResourceRecode.NamePos :=
               match pre with
               | x0 :: x1 :: _ => be16 x0 x1 mod 16384
               | _ => 0
               end;
             DNSResourceRecode.RRType := be16 t0 t1;
             DNSResourceRecode.Class := be16 c0 c1;
             DNSResourceRecode.TTL := be32 l0 l1 l2 l3;
             DNSResourceRecode.RDLength := be16 n0 n1;
             DNSResourceRecode.RData := EmptyString |},
          b')
    /\ bytes.unread b' = skipn (Z.to_nat (be16 n0 n1)) rest.
Proof.
  intros Hpre Hop.
  assert (Hc : (be16 t0 t1 =? 1) && (be16 n0 n1 =? 4) = false).
  { apply andb_false_iff.
    destruct (Z.eqb_spec (be16 t0 t1) 1) as [Ht|Ht]; [|now left].
    destruct (Z.eqb_spec (be16 n0 n1) 4) as [Hn|Hn]; [|now right].
    exfalso. apply Hop. now split. }
  destruct Hpre as [[-> Htag]|(x0 & x1 & -> & Htag)]; cbn [app];
    match goal with
    | |- context [NewDNSResourceRecode ?b0] =>
        pose proof (NewDNSResourceRecode_peek b0) as P
    end;
    cbn [bytes.unread bytes.NewBuffer bytes.buf bytes.off skipn] in P;
    destruct P as (b1 & -> & Hu1).
  - apply tag_no_pointer in Htag.
    now apply recodeAfterTag_opaque.
  - apply tag_pointer, Z.eqb_eq in Htag.
    now apply recodeAfterTag_opaque_pointer.
Qed.

Lemma NewDNSResourceRecode_opaque_witness :
  exists b',
    NewDNSResourceRecode
      (bytes.NewBuffer
         ([] ++ [x07; x65; x78; x61; x6d; x70; x6c; x65; x03; x63; x6f; x6d;
                 x00]))
    = Ok ({| DNSResourceRecode.Name := EmptyString;
             DNSResourceRecode.NamePos := 0;
             DNSResourceRecode.RRType := be16 x07 x65;
             DNSResourceRecode.Class := be16 x78 x61;
             DNSResourceRecode.TTL := be32 x6d x70 x6c x65;
             DNSResourceRecode.RDLength := be16 x03 x63;
             DNSResourceRecode.RData := EmptyString |},
          b')
    /\ bytes.unread b' = skipn (Z.to_nat (be16 x03 x63)) [x6f; x6d; x00].
Proof.
  apply (NewDNSResourceRecode_opaque
           [] x07 x65 x78 x61 x6d x70 x6c x65 x03 x63 [x6f; x6d; x00]).
  - left. split; [reflexivity | vm_compute; reflexivity].
  - intros [H _]. vm_compute in H. discriminate.
Defined.

(** ** Records cut short *)

Lemma Uint16_Next_step (b : bytes.Buffer) :
  ((List.length (bytes.unread b) < 2)%nat
   /\ Uint16_Next b = Panic index_out_of_range)
  \/ (exists v b',
         Uint16_Next b = Ok (v, b')
         /\ S (S (List.length (bytes.unread b')))
            = List.length (bytes.unread b)).
Proof.
  destruct (bytes.unread b) as [|x [|y l]] eqn:Hu.
  - left. split; [simpl; lia|]. apply Uint16_Next_short. rewrite Hu.
    simpl. lia.
  - left. split; [simpl; lia|]. apply Uint16_Next_short. rewrite Hu.
    simpl. lia.
  - right. destruct (Uint16_Next_ok b x y l Hu) as (b' & E & Hu').
    exists (byte_to_Z x * 256 + byte_to_Z y), b'.
    split; [exact E|]. now rewrite Hu'.
Qed.

Lemma Uint32_Next_short (b : bytes.Buffer) :
  (List.length (bytes.unread b) < 4)%nat ->
  Uint32_Next b = Panic index_out_of_range.
Proof.
  intros Hlen. destruct (Next_ok 4 b) as (b' & E & _).
  unfold Uint32_Next. rewrite (bind_ok _ _ _ _ _ E).
  destruct (bytes.unread b) as [|x [|y [|z [|w l]]]];
    try reflexivity. simpl in Hlen. lia.
Qed.

(** The four unchecked reads of the fixed fields need ten bytes. *)
Lemma fixed_fields_short {A : Type} (k : Z -> Z -> Z -> Z -> M A)
      (b : bytes.Buffer) :
  (List.length (bytes.unread b) < 10)%nat ->
  (rrType <- Uint16_Next ;;
   class <- Uint16_Next ;;
   ttl <- Uint32_Next ;;
   rdLength <- Uint16_Next ;;
   k rrType class ttl rdLength) b
  = Panic index_out_of_range.
Proof.
  intros Hlen.
  destruct (Uint16_Next_step b) as [[_ E]|(t & b1 & E & H1)];
    [now apply bind_panic|].
  rewrite (bind_ok _ _ _ _ _ E).
  destruct (Uint16_Next_step b1) as [[_ E1]|(c & b2 & E1 & H2)];
    [now apply bind_panic|].
  rewrite (bind_ok _ _ _ _ _ E1).
  destruct (bytes.unread b2) as [|x [|y [|z [|w l]]]] eqn:Hu2;
    try (apply bind_panic, Uint32_Next_short; rewrite Hu2; simpl; lia).
  destruct (Uint32_Next_ok b2 _ _ _ _ _ Hu2) as (b3 & E3 & Hu3).
  rewrite (bind_ok _ _ _ _ _ E3).
  apply bind_panic, Uint16_Next_short. rewrite Hu3.
  simpl in H2. lia.
Qed.

(** X12: a buffer that holds fewer bytes than the fixed fields of a
    record take, ten, or twelve when the first byte announces a pointer,
    makes [NewDNSResourceRecode] panic: none of its reads is checked, and
    the empty buffer is no exception. *)
Theorem NewDNSResourceRecode_short (b : bytes.Buffer) :
  (List.length (bytes.unread b)
   < if (192 <=? byte_to_Z (hd x00 (bytes.unread b)))%Z
     then 12 else 10)%nat ->
  NewDNSResourceRecode b = Panic index_out_of_range.
Proof.
  intros Hlen. pose proof (NewDNSResourceRecode_peek b) as P.
  destruct (bytes.unread b) as [|x l]; [exact P|].
  destruct P as (b1 & -> & Hu1). cbn [hd] in Hlen.
  unfold recodeAfterTag. cbv zeta.
  destruct (Z.leb_spec 192 (byte_to_Z x)) as [Htag|Htag].
  - apply tag_pointer, Z.eqb_eq in Htag. rewrite Htag.
    destruct (Uint16_Next_step b1) as [[_ E]|(v & b2 & E & H2)].
    + now apply bind_panic, bind_panic.
    + unfold bind at 1. unfold bind at 1. rewrite E. unfold ret at 1.
      apply fixed_fields_short. rewrite Hu1 in H2. simpl in Hlen, H2. lia.
  - rewrite tag_no_pointer by exact Htag.
    unfold bind at 1. unfold ret at 1.
    apply fixed_fields_short. rewrite Hu1. exact Hlen.
Qed.

Lemma NewDNSResourceRecode_short_witness :
  NewDNSResourceRecode
    (bytes.NewBuffer [xc0; x0c; x00; x01; x00; x01; x00; x00; x01; x2c; x00])
  = Panic index_out_of_range.
Proof.
  apply (NewDNSResourceRecode_short
           (bytes.NewBuffer
              [xc0; x0c; x00; x01; x00; x01; x00; x00; x01; x2c; x00])).
  vm_compute. reflexivity.
Defined.

(** ** A message read and written again *)

(** X13: a message that [NewDNSMessage] has read holds one question and
    at most one record, and [DNSMessage.ToByte] does not write it back:
    the header that the decoder gave it counts no question, so the bytes
    are twelve zero bytes and then the record, if there is one and its
    class is IN; a record of another class makes the writer fail. *)
Theorem NewDNSMessage_reencoded (parseIPv6 : string -> net.IP)
        (b b' : bytes.Buffer) (m : DNSMessage.t) :
  NewDNSMessage b = Ok (m, b') ->
  List.length (DNSMessage.Questions m) = 1%nat
  /\ (List.length (DNSMessage.ResourceRecodes m) <= 1)%nat
  /\ DNSMessage.ToByte parseIPv6 m
     = match DNSMessage.ResourceRecodes m with
       | [] => Ok (repeat x00 12)
       | r :: _ =>
           if DNSResourceRecode.Class r =? DNSClassIn
           then Ok (repeat x00 12 ++ recodeBytes parseIPv6 r)
           else Err (WithMessage ErrClassNotSupport "write resource error")
       end.
Proof.
  intros E. unfold NewDNSMessage in E. cbv zeta in E. unfold bind at 1 in E.
  destruct (NewDNSQuestion b) as [[q b1]| | |]; try discriminate.
  destruct (Nat.ltb 0 (bytes.Len b1)).
  - unfold bind in E.
    destruct (NewDNSResourceRecode b1) as [[r b2]| | |]; try discriminate.
    apply Ok_inj in E. injection E as <- <-.
    split; [reflexivity|]. split; [simpl; lia|].
    unfold DNSMessage.ToByte.
    cbn [DNSMessage.Header DNSMessage.Questions DNSMessage.ResourceRecodes
         DNSHeader.Questions Z.to_nat DNSMessage.writeQuestions
         DNSMessage.writeRecodes DNSHeader.ToByte withMessage].
    destruct (Z.eqb_spec (DNSResourceRecode.Class r) DNSClassIn) as [Hc|Hc].
    + rewrite DNSResourceRecode_ToByte_IN by exact Hc. reflexivity.
    + rewrite DNSResourceRecode_ToByte_other by exact Hc. reflexivity.
  - apply Ok_inj in E. injection E as <- <-.
    split; [reflexivity|]. split; [simpl; lia|]. reflexivity.
Qed.

Lemma NewDNSMessage_reencoded_witness :
  exists m b',
    NewDNSMessage (bytes.NewBuffer [x01; x61; x00; x00; x01; x00; x01])
    = Ok (m, b')
    /\ DNSMessage.Questions m = [DNSQuestion.mk "a" 1 1]
    /\ DNSMessage.ToByte noIPv6 m = Ok (repeat x00 12).
Proof.
  eexists. eexists. split; [reflexivity|]. split; [reflexivity|].
  exact (proj2 (proj2 (NewDNSMessage_reencoded noIPv6
                         (bytes.NewBuffer [x01; x61; x00; x00; x01; x00; x01])
                         _ _ eq_refl))).
Defined.

(** ** The failures of [NewDNSQuestion] *)

Lemma readFailure_segment (n : nat) (b : bytes.Buffer) :
  readFailure (wrap (binary.Read_bytes n) "read seg" b).
Proof.
  unfold wrap, binary.Read_bytes, bytes.ReadFull, readFailure, readError.
  destruct n; [exact I|].
  destruct (Nat.eqb _ _); [exact I|].
  destruct (firstn _ _); simpl; auto.
Qed.

Lemma readFailure_length (b : bytes.Buffer) :
  readFailure (wrap binary.Read_uint8 "read length" b).
Proof.
  unfold wrap, binary.Read_uint8, readFailure, readError.
  destruct (bytes.unread b) as [|x l] eqn:Hu.
  - rewrite (ReadFull_short 1 b) by (rewrite Hu; simpl; lia).
    rewrite Hu. simpl. auto.
  - destruct (ReadFull_ok b [x] l Hu) as (b' & E & _).
    cbn [List.length] in E. rewrite E. exact I.
Qed.

Lemma readFailure_bind {A B : Type} (m : M A) (k : A -> M B)
      (b : bytes.Buffer) :
  readFailure (m b) -> (forall a b', readFailure (k a b')) ->
  readFailure (bind m k b).
Proof.
  intros Hm Hk. unfold bind.
  destruct (m b) as [[a b']| | |]; try exact Hm. apply Hk.
Qed.

Lemma readFailure_readSegments (fuel : nat) :
  forall length segments b,
    readFailure (readSegments fuel length segments b).
Proof.
  induction fuel as [|fuel IH]; intros length segments b.
  - simpl. destruct (0 <? length); exact I.
  - destruct (Z.ltb_spec 0 length) as [Hl|Hl].
    + rewrite readSegments_turn by exact Hl.
      apply readFailure_bind; [apply readFailure_segment|].
      intros seg b1.
      apply readFailure_bind; [apply readFailure_length|].
      intros l b2. apply IH.
    + rewrite readSegments_done by exact Hl. exact I.
Qed.

Lemma readFailure_Uint16_Next (b : bytes.Buffer) :
  readFailure (Uint16_Next b).
Proof.
  pose proof (returnsOrPanics_Uint16_Next b) as H.
  destruct (Uint16_Next b); try exact I. contradiction.
Qed.

Lemma readFailure_NewDNSQuestion (b : bytes.Buffer) :
  readFailure (NewDNSQuestion b).
Proof.
  unfold NewDNSQuestion. apply readFailure_bind.
  - unfold readName.
    apply readFailure_bind; [apply readFailure_length|].
    intros l b1. apply readFailure_bind;
      [apply readFailure_readSegments | intros; exact I].
  - intros name b1.
    apply readFailure_bind; [apply readFailure_Uint16_Next|].
    intros t b2.
    apply readFailure_bind; [apply readFailure_Uint16_Next|].
    intros; exact I.
Qed.

Lemma NewDNSMessage_total (b : bytes.Buffer) : NewDNSMessage b <> OutOfFuel.
Proof.
  unfold NewDNSMessage. cbv zeta.
  apply bind_answer; [apply NewDNSQuestion_total|].
  intros q b1 _. destruct (Nat.ltb 0 (bytes.Len b1)); [|discriminate].
  pose proof (returnsOrPanics_NewDNSResourceRecode b1) as H.
  unfold bind. destruct (NewDNSResourceRecode b1) as [[r b2]| | |];
    try discriminate; contradiction.
Qed.

(** X14: whatever the buffer, [NewDNSQuestion] returns a question, or
    [io.EOF] under "read length" or "read seg", or
    [io.ErrUnexpectedEOF] under "read seg", or it panics in an unchecked
    read; [io.ErrUnexpectedEOF] never comes from a length byte, and the
    loop always ends.  [NewDNSMessage] has the same answers: the record
    that it reads after the question adds no error. *)
Theorem decoder_answers (b : bytes.Buffer) :
  questionAnswer (NewDNSQuestion b) /\ questionAnswer (NewDNSMessage b).
Proof.
  split.
  - pose proof (readFailure_NewDNSQuestion b) as H.
    pose proof (NewDNSQuestion_total b) as T.
    destruct (NewDNSQuestion b) as [[q b']| |[]|];
      [exact I | exact H | reflexivity | contradiction].
  - pose proof (NewDNSMessage_total b) as T.
    assert (H : readFailure (NewDNSMessage b)).
    { unfold NewDNSMessage. cbv zeta.
      apply readFailure_bind; [apply readFailure_NewDNSQuestion|].
      intros q b1. destruct (Nat.ltb 0 (bytes.Len b1)); [|exact I].
      pose proof (returnsOrPanics_NewDNSResourceRecode b1) as R.
      unfold bind. destruct (NewDNSResourceRecode b1) as [[r b2]| | |];
        try exact I; contradiction. }
    destruct (NewDNSMessage b) as [[m b']| |[]|];
      [exact I | exact H | reflexivity | contradiction].
Qed.

(** ** Names on the wire *)

Lemma readName_labels (labels : list string) (b : bytes.Buffer)
      (rest : list byte) :
  Forall byteLabel labels ->
  bytes.unread b = flat_map segmentBytes labels ++ x00 :: rest ->
  exists b',
    readName b = Ok (strings.Join labels ".", b') /\ bytes.unread b' = rest.
Proof.
  intros Hv Hu. destruct labels as [|seg0 segs].
  - simpl in Hu. destruct (Read_uint8_ok b _ _ Hu) as (b1 & E1 & Hu1).
    exists b1. split; [|exact Hu1]. unfold readName.
    rewrite (bind_ok _ _ _ _ _ (wrap_ok _ _ _ _ _ E1)).
    rewrite readSegments_done by (vm_compute; discriminate).
    reflexivity.
  - cbn [flat_map] in Hu. unfold segmentBytes at 1 in Hu.
    rewrite <- !app_assoc in Hu. rewrite <- app_comm_cons in Hu.
    destruct (Read_uint8_ok b _ _ Hu) as (b1 & E1 & Hu1).
    pose proof (Forall_inv Hv) as Hv0.
    unfold readName.
    rewrite (bind_ok _ _ _ _ _ (wrap_ok _ _ _ _ _ E1)).
    rewrite (byteLabel_length _ Hv0).
    destruct (readSegments_written segs seg0 (bytes.Len b) [] b1 rest Hv)
      as (b2 & E2 & Hu2).
    + unfold bytes.Len. rewrite Hu. simpl.
      rewrite !length_app. pose proof (length_flat_map_segments segs). lia.
    + exact Hu1.
    + rewrite (bind_ok _ _ _ _ _ E2). simpl app. unfold ret.
      exists b2. split; [reflexivity | exact Hu2].
Qed.

(** X15: the name part of [NewDNSQuestion] reads any run of segments of 1
    to 255 bytes, closed by a zero byte, as the segments joined by dots,
    and leaves what follows the zero byte.  It sets no limit of 63 bytes,
    and it takes a segment that holds a dot as it comes. *)
Theorem readName_segments (labels : list string) (rest : list byte) :
  Forall byteLabel labels ->
  exists b',
    readName
      (bytes.NewBuffer (flat_map segmentBytes labels ++ x00 :: rest))
    = Ok (strings.Join labels ".", b')
    /\ bytes.unread b' = rest.
Proof.
  intros Hv. now apply readName_labels.
Qed.

Lemma readName_segments_witness :
  exists b',
    readName
      (bytes.NewBuffer
         (flat_map segmentBytes ["a.b"%string; "c"%string] ++ x00 :: [x07]))
    = Ok ("a.b.c"%string, b')
    /\ bytes.unread b' = [x07].
Proof.
  apply (readName_segments ["a.b"%string; "c"%string] [x07]).
  repeat constructor; simpl; lia.
Defined.

(** X16: a name on the wire, made of at least one segment of 1 to 255
    bytes that holds no dot, is read and written back byte for byte. *)
Theorem name_wire_roundtrip (labels : list string) (rest : list byte) :
  labels <> [] ->
  Forall byteLabel labels ->
  Forall (fun l => dotFree l = true) labels ->
  exists name b',
    readName
      (bytes.NewBuffer (flat_map segmentBytes labels ++ x00 :: rest))
    = Ok (name, b')
    /\ bytes.unread b' = rest
    /\ writeName [] name = flat_map segmentBytes labels ++ [x00].
Proof.
  intros Hne Hv Hd.
  destruct (readName_labels labels
              (bytes.NewBuffer (flat_map segmentBytes labels ++ x00 :: rest))
              rest Hv eq_refl) as (b' & E & Hu).
  exists (strings.Join labels "."), b'.
  split; [exact E|]. split; [exact Hu|].
  rewrite writeName_eq, Split_Join by assumption. reflexivity.
Qed.

Lemma name_wire_roundtrip_witness :
  exists name b',
    readName
      (bytes.NewBuffer
         (flat_map segmentBytes ["example"%string; "com"%string]
          ++ x00 :: [x00; x01]))
    = Ok (name, b')
    /\ bytes.unread b' = [x00; x01]
    /\ writeName [] name
       = flat_map segmentBytes ["example"%string; "com"%string] ++ [x00].
Proof.
  apply (name_wire_roundtrip ["example"%string; "com"%string] [x00; x01]).
  - discriminate.
  - repeat constructor; simpl; lia.
  - repeat constructor.
Defined.

(** ** The past of the buffer *)

Lemma unreadOnly_ReadFull (n : nat) : unreadOnly (bytes.ReadFull n).
Proof.
  intros b1 b2 H. unfold bytes.ReadFull. destruct n as [|n].
  - now apply sameAnswer_refl_ok.
  - rewrite H. set (m := S n). clearbody m.
    destruct (Nat.eqb _ _).
    + apply sameAnswer_refl_ok. now rewrite !unread_advance, H.
    + destruct (firstn m (bytes.unread b2)); reflexivity.
Qed.

Lemma unreadOnly_Read_uint8 : unreadOnly binary.Read_uint8.
Proof.
  intros b1 b2 H. unfold binary.Read_uint8.
  pose proof (unreadOnly_ReadFull 1 b1 b2 H) as S.
  destruct (bytes.ReadFull 1 b1) as [[bs1 c1]| | |],
           (bytes.ReadFull 1 b2) as [[bs2 c2]| | |];
    simpl in S; try contradiction; try exact S.
  destruct S as [-> Hc]. destruct bs2; [reflexivity|].
  now apply sameAnswer_refl_ok.
Qed.

Lemma unreadOnly_wrap {A : Type} (m : M A) (message : string) :
  unreadOnly m -> unreadOnly (wrap m message).
Proof.
  intros Hm b1 b2 H. unfold wrap. specialize (Hm b1 b2 H).
  destruct (m b1) as [[a1 c1]| | |], (m b2) as [[a2 c2]| | |];
    simpl in Hm |- *; try contradiction; try exact Hm.
  now rewrite Hm.
Qed.

Lemma unreadOnly_readSegments (fuel : nat) :
  forall length segments, unreadOnly (readSegments fuel length segments).
Proof.
  induction fuel as [|fuel IH]; intros length segments.
  - simpl. destruct (0 <? length); [|apply unreadOnly_ret].
    intros b1 b2 _. exact I.
  - destruct (Z.ltb_spec 0 length) as [Hl|Hl].
    + rewrite readSegments_turn by exact Hl.
      apply unreadOnly_bind;
        [apply unreadOnly_wrap, unreadOnly_ReadFull|].
      intros seg. apply unreadOnly_bind;
        [apply unreadOnly_wrap, unreadOnly_Read_uint8|].
      intros l. apply IH.
    + rewrite readSegments_done by exact Hl. apply unreadOnly_ret.
Qed.

Lemma unreadOnly_readName : unreadOnly readName.
Proof.
  intros b1 b2 H. unfold readName, bytes.Len. rewrite H.
  set (fuel := List.length (bytes.unread b2)).
  refine (unreadOnly_bind _ _ _ _ b1 b2 H);
    [apply unreadOnly_wrap, unreadOnly_Read_uint8|].
  intros l. apply unreadOnly_bind; [apply unreadOnly_readSegments|].
  intros segs. apply unreadOnly_ret.
Qed.

Lemma unreadOnly_NewDNSQuestion : unreadOnly NewDNSQuestion.
Proof.
  unfold NewDNSQuestion.
  apply unreadOnly_bind; [apply unreadOnly_readName|]. intros name.
  apply unreadOnly_bind; [apply unreadOnly_Uint16_Next|]. intros t.
  apply unreadOnly_bind; [apply unreadOnly_Uint16_Next|]. intros c.
  apply unreadOnly_ret.
Qed.

Lemma unreadOnly_NewDNSHeader : unreadOnly NewDNSHeader.
Proof.
  unfold NewDNSHeader.
  repeat (apply unreadOnly_bind; [apply unreadOnly_Uint16_Next|]; intros ?).
  apply unreadOnly_ret.
Qed.

Lemma unreadOnly_NewDNSMessage : unreadOnly NewDNSMessage.
Proof.
  unfold NewDNSMessage. cbv zeta.
  apply unreadOnly_bind; [apply unreadOnly_NewDNSQuestion|]. intros q.
  intros b1 b2 H. unfold bytes.Len. rewrite H.
  destruct (Nat.ltb 0 (List.length (bytes.unread b2))).
  - apply unreadOnly_bind; [apply unreadOnly_NewDNSResourceRecode | | exact H].
    intros r. apply unreadOnly_ret.
  - now apply unreadOnly_ret.
Qed.

(** X17: the answer of each of the four decoders depends on the unread
    bytes of its buffer alone.  What was read from the buffer before, and
    whether the last operation on it was a read, changes neither the
    value nor the failure nor the bytes left, although
    [NewDNSResourceRecode] steps back in the buffer with [UnreadByte]. *)
Theorem decoders_unread_only :
  unreadOnly NewDNSHeader /\ unreadOnly NewDNSQuestion
  /\ unreadOnly NewDNSResourceRecode /\ unreadOnly NewDNSMessage.
Proof.
  split; [exact unreadOnly_NewDNSHeader|].
  split; [exact unreadOnly_NewDNSQuestion|].
  split; [exact unreadOnly_NewDNSResourceRecode|].
  exact unreadOnly_NewDNSMessage.
Qed.
